(** * Aviation Crew Communication API: authentication, authorization and
    encrypted-resource access.

    A shallow embedding of the JavaScript sources of the API (routes,
    middleware, data stores and encryption utilities) and the properties of
    its security model.

    Conventions of the embedding.
    - A JavaScript string is a [string] (a sequence of bytes, its UTF-8
      encoding); a [Buffer] is a [list ascii].
    - A [Date], and an ISO-8601 timestamp stored in a record, is the number of
      milliseconds since the epoch ([Time], a [Z]); [null] is [None].
    - A request handler reads the clock once: its argument [now] stands for
      every [new Date()] / [Date.now()] of that request.
    - The in-memory stores ([users], [messages], [documents]) are lists,
      threaded through the handlers; an object mutated through a reference
      obtained from [find] is updated at the index where it was found.
    - A thrown [AppError] is the outcome [Threw] of a handler; the store a
      handler returns holds the mutations made before the throw.
    - Randomness ([crypto.randomBytes], [uuidv4], a bcrypt salt) is an
      argument of the function that draws it.
    - [crypto] is Node's module: a property it does not have is [undefined],
      and a call of it throws a [TypeError]. *)

From stdpp Require Import base strings list gmap pretty.
From Stdlib Require Import ZArith Lia Ascii String.
Abbreviation length := List.length (only parsing).

Local Open Scope string_scope.
Local Open Scope Z_scope.
Local Open Scope list_scope.

Abbreviation Time := Z (only parsing).
Abbreviation bytes := (list ascii) (only parsing).

(** ** Results of functions that may throw *)

Inductive Result (A : Type) : Type :=
| Ok (a : A)
| Err (msg : string).
Arguments Ok {A} a.
Arguments Err {A} msg.

Definition bindR {A B} (r : Result A) (k : A → Result B) : Result B :=
  match r with
  | Ok a => k a
  | Err m => Err m
  end.

(** [try { body } catch (error) { throw new Error(prefix + error.message) }] *)
Definition rethrow {A} (prefix : string) (body : Result A) : Result A :=
  match body with
  | Ok a => Ok a
  | Err m => Err (prefix +:+ m)
  end.

Definition isOk {A} (r : Result A) : bool :=
  match r with Ok _ => true | Err _ => false end.

#[global] Instance result_bind : MBind Result := λ A B k r, bindR r k.
#[global] Instance result_ret : MRet Result := λ A a, Ok a.
#[global] Instance result_fmap : FMap Result := λ A B f r, bindR r (λ a, Ok (f a)).

(** ** Buffer encodings ([Buffer.from], [Buffer.prototype.toString], [slice]) *)

Module Encoding.

(** Bits are listed least significant first, as in [Ascii]. *)
Definition nibble_index (b0 b1 b2 b3 : bool) : nat :=
  ((if b0 then 1 else 0) + (if b1 then 2 else 0)
   + (if b2 then 4 else 0) + (if b3 then 8 else 0))%nat.

Definition hex_alphabet : list ascii :=
  list_ascii_of_string "0123456789abcdef".

Definition hex_digit (b0 b1 b2 b3 : bool) : ascii :=
  nth (nibble_index b0 b1 b2 b3) hex_alphabet "0"%char.

(** The value of a hexadecimal digit, either case, as four bits. *)
Definition hex_value (c : ascii) : option (bool * bool * bool * bool) :=
  match c with
  | "0" => Some (false, false, false, false)
  | "1" => Some (true, false, false, false)
  | "2" => Some (false, true, false, false)
  | "3" => Some (true, true, false, false)
  | "4" => Some (false, false, true, false)
  | "5" => Some (true, false, true, false)
  | "6" => Some (false, true, true, false)
  | "7" => Some (true, true, true, false)
  | "8" => Some (false, false, false, true)
  | "9" => Some (true, false, false, true)
  | "a" | "A" => Some (false, true, false, true)
  | "b" | "B" => Some (true, true, false, true)
  | "c" | "C" => Some (false, false, true, true)
  | "d" | "D" => Some (true, false, true, true)
  | "e" | "E" => Some (false, true, true, true)
  | "f" | "F" => Some (true, true, true, true)
  | _ => None
  end%char.

(** [buf.toString('hex')] *)
Fixpoint hex_encode (l : bytes) : string :=
  match l with
  | [] => ""
  | Ascii b0 b1 b2 b3 b4 b5 b6 b7 :: rest =>
      String (hex_digit b4 b5 b6 b7) (String (hex_digit b0 b1 b2 b3) (hex_encode rest))
  end.

(** [Buffer.from(s, 'hex')]: decoding stops at the first pair that is not two
    hexadecimal digits. *)
Fixpoint hex_decode (s : string) : bytes :=
  match s with
  | String c1 (String c2 rest) =>
      match hex_value c1, hex_value c2 with
      | Some (h0, h1, h2, h3), Some (l0, l1, l2, l3) =>
          Ascii l0 l1 l2 l3 h0 h1 h2 h3 :: hex_decode rest
      | _, _ => []
      end
  | _ => []
  end.

(** [s.split(sep)] for a one-character separator. *)
Fixpoint split_on (sep : ascii) (s : string) : list string :=
  match s with
  | EmptyString => [""]
  | String c rest =>
      if Ascii.eqb c sep then "" :: split_on sep rest
      else match split_on sep rest with
           | h :: t => String c h :: t
           | [] => [String c ""]
           end
  end.

(** The base64 alphabet; [-] and [_] are the URL-safe spellings of [+] and [/],
    which [Buffer.from(s, 'base64')] accepts as well. *)
Definition b64_alphabet : list ascii :=
  list_ascii_of_string "ABCDEFGHIJKLMNOPQRSTUVWXYZabcdefghijklmnopqrstuvwxyz0123456789+/".

(** A sextet, most significant bit first. *)
Definition sextet : Type := bool * bool * bool * bool * bool * bool.

Definition sextet_index (x : sextet) : nat :=
  let '(b5, b4, b3, b2, b1, b0) := x in
  ((if b5 then 32 else 0) + (if b4 then 16 else 0) + (if b3 then 8 else 0)
   + (if b2 then 4 else 0) + (if b1 then 2 else 0) + (if b0 then 1 else 0))%nat.

Definition sextet_of_index (n : nat) : sextet :=
  (Nat.testbit n 5, Nat.testbit n 4, Nat.testbit n 3,
   Nat.testbit n 2, Nat.testbit n 1, Nat.testbit n 0).

Definition b64_char (x : sextet) : ascii :=
  nth (sextet_index x) b64_alphabet "A"%char.

Fixpoint index_of (c : ascii) (l : list ascii) : option nat :=
  match l with
  | [] => None
  | x :: rest => if Ascii.eqb c x then Some 0%nat else S <$> index_of c rest
  end.

Definition b64_value (c : ascii) : option sextet :=
  if Ascii.eqb c "-" then Some (sextet_of_index 62)
  else if Ascii.eqb c "_" then Some (sextet_of_index 63)
  else sextet_of_index <$> index_of c b64_alphabet.

(** [buf.toString('base64')], with [=] padding. *)
Fixpoint b64_encode (l : bytes) : string :=
  match l with
  | [] => ""
  | [Ascii a0 a1 a2 a3 a4 a5 a6 a7] =>
      String (b64_char (a7, a6, a5, a4, a3, a2))
        (String (b64_char (a1, a0, false, false, false, false)) "==")
  | [Ascii a0 a1 a2 a3 a4 a5 a6 a7; Ascii b0 b1 b2 b3 b4 b5 b6 b7] =>
      String (b64_char (a7, a6, a5, a4, a3, a2))
        (String (b64_char (a1, a0, b7, b6, b5, b4))
           (String (b64_char (b3, b2, b1, b0, false, false)) "="))
  | Ascii a0 a1 a2 a3 a4 a5 a6 a7 :: Ascii b0 b1 b2 b3 b4 b5 b6 b7
      :: Ascii c0 c1 c2 c3 c4 c5 c6 c7 :: rest =>
      String (b64_char (a7, a6, a5, a4, a3, a2))
        (String (b64_char (a1, a0, b7, b6, b5, b4))
           (String (b64_char (b3, b2, b1, b0, c7, c6))
              (String (b64_char (c5, c4, c3, c2, c1, c0)) (b64_encode rest))))
  end.

(** The sextets of a base64 text: reading stops at the padding character and
    characters outside the alphabet are skipped. *)
Fixpoint b64_sextets (s : string) : list sextet :=
  match s with
  | EmptyString => []
  | String c rest =>
      if Ascii.eqb c "=" then []
      else match b64_value c with
           | Some x => x :: b64_sextets rest
           | None => b64_sextets rest
           end
  end.

(** Four sextets make three bytes; a last group of three makes two and a last
    group of two makes one. *)
Fixpoint b64_bytes (l : list sextet) : bytes :=
  match l with
  | (a7, a6, a5, a4, a3, a2) :: (a1, a0, b7, b6, b5, b4)
      :: (b3, b2, b1, b0, c7, c6) :: (c5, c4, c3, c2, c1, c0) :: rest =>
      Ascii a0 a1 a2 a3 a4 a5 a6 a7 :: Ascii b0 b1 b2 b3 b4 b5 b6 b7
        :: Ascii c0 c1 c2 c3 c4 c5 c6 c7 :: b64_bytes rest
  | [(a7, a6, a5, a4, a3, a2); (a1, a0, b7, b6, b5, b4); (b3, b2, b1, b0, _, _)] =>
      [Ascii a0 a1 a2 a3 a4 a5 a6 a7; Ascii b0 b1 b2 b3 b4 b5 b6 b7]
  | [(a7, a6, a5, a4, a3, a2); (a1, a0, _, _, _, _)] =>
      [Ascii a0 a1 a2 a3 a4 a5 a6 a7]
  | _ => []
  end.

(** [Buffer.from(s, 'base64')] *)
Definition b64_decode (s : string) : bytes := b64_bytes (b64_sextets s).

(** [buf.slice(start, end)]: a negative index counts from the end, and both
    ends are clamped to the buffer. *)
Definition clamp_index (len i : Z) : Z :=
  if i <? 0 then Z.max (len + i) 0 else Z.min i len.

Definition slice {A} (l : list A) (start : Z) (stop : option Z) : list A :=
  let len := Z.of_nat (length l) in
  let s := clamp_index len start in
  let e := match stop with Some e => clamp_index len e | None => len end in
  take (Z.to_nat (e - s)) (drop (Z.to_nat s) l).

End Encoding.

(** ** Encryption utilities ([utils/encryption.js]) *)

Module Encryption.
Import Encoding.

Definition ALGORITHM : string := "aes-256-gcm".
Definition KEY_LENGTH : nat := 32.
Definition IV_LENGTH : nat := 16.
Definition TAG_LENGTH : nat := 16.

(** What a GCM cipher object computes: a counter-mode keystream transform
    [gctr key iv data] and an authentication tag [gtag key iv aad ciphertext]
    over the associated data and the ciphertext.  The functions below take
    it as an argument for the calls they make on a cipher object. *)
Record GcmPrimitive : Type := {
  gctr : bytes → bytes → bytes → bytes;
  gtag : bytes → bytes → bytes → bytes → bytes
}.

(** [Buffer.from(text, 'utf8')] and [buf.toString('utf8')] *)
Definition utf8 (text : string) : bytes := list_ascii_of_string text.
Definition utf8_string (b : bytes) : string := string_of_list_ascii b.

(** A cipher (or decipher) object: its key and IV, the associated data and the
    tag set on it. *)
Record Cipher : Type := {
  cipherKey : bytes;
  cipherIV : bytes;
  cipherAAD : bytes;
  cipherTag : bytes
}.

(** [crypto.createCipherGCM(ALGORITHM, key, iv)] and
    [crypto.createDecipherGCM(ALGORITHM, key, iv)], with [crypto] the module
    [require('crypto')] returns: Node's [crypto] module has no property of
    either name (its constructors are [createCipheriv] and
    [createDecipheriv]), so each call is a call of [undefined] and throws a
    [TypeError] with the message below, whatever the arguments. *)
Definition createCipherGCM (algorithm : string) (key iv : bytes) : Result Cipher :=
  Err "crypto.createCipherGCM is not a function".

Definition createDecipherGCM (algorithm : string) (key iv : bytes) : Result Cipher :=
  Err "crypto.createDecipherGCM is not a function".

Definition setAAD (c : Cipher) (aad : bytes) : Cipher :=
  {| cipherKey := cipherKey c; cipherIV := cipherIV c; cipherAAD := aad;
     cipherTag := cipherTag c |}.

Definition setAuthTag (c : Cipher) (tag : bytes) : Cipher :=
  {| cipherKey := cipherKey c; cipherIV := cipherIV c; cipherAAD := cipherAAD c;
     cipherTag := tag |}.

(** [cipher.update(data)] followed by [cipher.final()]: the ciphertext. *)
Definition cipherUpdateFinal (G : GcmPrimitive) (c : Cipher) (data : bytes) : bytes :=
  gctr G (cipherKey c) (cipherIV c) data.

(** [cipher.getAuthTag()] once [data] has been encrypted to [ct]. *)
Definition getAuthTag (G : GcmPrimitive) (c : Cipher) (ct : bytes) : bytes :=
  gtag G (cipherKey c) (cipherIV c) (cipherAAD c) ct.

(** [decipher.update(ct)] followed by [decipher.final()]: [final] throws unless
    the tag set on the decipher is the tag of the ciphertext, and the
    plaintext [update] produced is dropped with the exception. *)
Definition decipherUpdateFinal (G : GcmPrimitive) (c : Cipher) (ct : bytes) : Result bytes :=
  if decide (cipherTag c = gtag G (cipherKey c) (cipherIV c) (cipherAAD c) ct)
  then Ok (gctr G (cipherKey c) (cipherIV c) ct)
  else Err "Unsupported state or unable to authenticate data".

Record Encrypted : Type := {
  encryptedContent : string;
  key : string
}.

(** [encryptMessage(message)]; [rndKey] and [rndIV] are the bytes
    [crypto.randomBytes(KEY_LENGTH)] and [generateIV()] return. *)
Definition encryptMessage (G : GcmPrimitive) (rndKey rndIV : bytes) (message : string)
  : Result Encrypted :=
  rethrow "Message encryption failed: "
    (let key := rndKey in
     let iv := rndIV in
     cipher ← createCipherGCM ALGORITHM key iv;
     let cipher := setAAD cipher (utf8 "aviation-message") in
     let ct := cipherUpdateFinal G cipher (utf8 message) in
     let encrypted := hex_encode ct in
     let tag := getAuthTag G cipher ct in
     let combined := hex_encode iv +:+ ":" +:+ encrypted +:+ ":" +:+ hex_encode tag in
     Ok {| encryptedContent := combined; key := b64_encode key |}).

(** [decryptMessage(encryptedMessage, keyBase64)] *)
Definition decryptMessage (G : GcmPrimitive) (encryptedMessage keyBase64 : string)
  : Result string :=
  rethrow "Message decryption failed: "
    (let key := b64_decode keyBase64 in
     match split_on ":" encryptedMessage with
     | [part0; part1; part2] =>
         let iv := hex_decode part0 in
         let encrypted := part1 in
         let tag := hex_decode part2 in
         decipher ← createDecipherGCM ALGORITHM key iv;
         let decipher := setAAD decipher (utf8 "aviation-message") in
         let decipher := setAuthTag decipher tag in
         decrypted ← decipherUpdateFinal G decipher (hex_decode encrypted);
         Ok (utf8_string decrypted)
     | _ => Err "Invalid encrypted message format"
     end).

(** [encryptFile(fileBuffer)] *)
Definition encryptFile (G : GcmPrimitive) (rndKey rndIV : bytes) (fileBuffer : bytes)
  : Result Encrypted :=
  rethrow "File encryption failed: "
    (let key := rndKey in
     let iv := rndIV in
     cipher ← createCipherGCM ALGORITHM key iv;
     let cipher := setAAD cipher (utf8 "aviation-document") in
     let encrypted := cipherUpdateFinal G cipher fileBuffer in
     let tag := getAuthTag G cipher encrypted in
     let combined := iv ++ encrypted ++ tag in
     Ok {| encryptedContent := b64_encode combined; key := b64_encode key |}).

(** [decryptFile(encryptedFileBase64, keyBase64)] *)
Definition decryptFile (G : GcmPrimitive) (encryptedFileBase64 keyBase64 : string)
  : Result bytes :=
  rethrow "File decryption failed: "
    (let key := b64_decode keyBase64 in
     let combined := b64_decode encryptedFileBase64 in
     let iv := slice combined 0 (Some (Z.of_nat IV_LENGTH)) in
     let tag := slice combined (- Z.of_nat TAG_LENGTH) None in
     let encrypted := slice combined (Z.of_nat IV_LENGTH) (Some (- Z.of_nat TAG_LENGTH)) in
     decipher ← createDecipherGCM ALGORITHM key iv;
     let decipher := setAAD decipher (utf8 "aviation-document") in
     let decipher := setAuthTag decipher tag in
     decipherUpdateFinal G decipher encrypted).

(** A small instance of the primitive, to evaluate the functions above and
    the handlers on concrete data: the keystream repeats one byte drawn from
    the key and the IV, and the tag is a checksum of the ciphertext and of
    the associated data. *)
Definition xor_byte (a b : ascii) : ascii :=
  let 'Ascii a0 a1 a2 a3 a4 a5 a6 a7 := a in
  let 'Ascii b0 b1 b2 b3 b4 b5 b6 b7 := b in
  Ascii (xorb a0 b0) (xorb a1 b1) (xorb a2 b2) (xorb a3 b3)
        (xorb a4 b4) (xorb a5 b5) (xorb a6 b6) (xorb a7 b7).

Definition xor_fold (l : bytes) : ascii := foldr xor_byte zero l.

Definition checksumGcm : GcmPrimitive := {|
  gctr key iv data := xor_byte (xor_byte (hd zero key) (hd zero iv)) <$> data;
  gtag key iv aad ct :=
    xor_fold ct :: xor_byte (xor_fold key) (xor_fold aad)
      :: ascii_of_nat (length aad) :: replicate 13 zero
|}.

(** The [StringDecoder] behind [cipher.update(data, 'utf8', 'base64')] and
    [cipher.final('base64')]: [update] returns the base64 text of the bytes
    that make whole groups of three, and [final] that of the bytes left. *)
Definition base64Write (data : bytes) : string :=
  b64_encode (take (length data - length data mod 3) data).

Definition base64End (data : bytes) : string :=
  b64_encode (drop (length data - length data mod 3) data).

(** The object [encryptText] returns. *)
Record EncryptedText : Type := {
  textEncryptedContent : string;
  textKey : string;
  textIV : string;
  textTag : string
}.

(** [encryptText(text, keyBase64)]; a [keyBase64] that is [null] or empty is
    falsy, and the key is then the [crypto.randomBytes(KEY_LENGTH)] drawn,
    [rndKey]. *)
Definition encryptText (G : GcmPrimitive) (rndKey rndIV : bytes) (text : string)
    (keyBase64 : option string) : Result EncryptedText :=
  rethrow "Encryption failed: "
    (let key :=
       match keyBase64 with
       | Some k => if decide (k = "") then rndKey else b64_decode k
       | None => rndKey
       end in
     let iv := rndIV in
     cipher ← createCipherGCM ALGORITHM key iv;
     let cipher := setAAD cipher (utf8 "aviation-crew-api") in
     let ct := cipherUpdateFinal G cipher (utf8 text) in
     let encrypted := base64Write ct +:+ base64End ct in
     let tag := getAuthTag G cipher ct in
     Ok {| textEncryptedContent := encrypted; textKey := b64_encode key;
           textIV := b64_encode iv; textTag := b64_encode tag |}).

(** [decryptText(encryptedContent, keyBase64, ivBase64, tagBase64)] *)
Definition decryptText (G : GcmPrimitive)
    (encryptedContent' keyBase64 ivBase64 tagBase64 : string) : Result string :=
  rethrow "Decryption failed: "
    (let key := b64_decode keyBase64 in
     let iv := b64_decode ivBase64 in
     let tag := b64_decode tagBase64 in
     decipher ← createDecipherGCM ALGORITHM key iv;
     let decipher := setAAD decipher (utf8 "aviation-crew-api") in
     let decipher := setAuthTag decipher tag in
     decrypted ← decipherUpdateFinal G decipher (b64_decode encryptedContent');
     Ok (utf8_string decrypted)).

(** [crypto.createHmac(algorithm, secret).update(data).digest()]: the digest,
    or the error [createHmac] throws for an algorithm it does not know. *)
Definition Hmac : Type := string → string → string → Result bytes.

(** [generateHMAC(data, secret, algorithm)]; [algorithm] defaults to
    ['sha256']. *)
Definition generateHMAC (hmac : Hmac) (data secret : string) (algorithm : option string)
  : Result string :=
  rethrow "HMAC generation failed: "
    (digest ← hmac (default "sha256" algorithm) secret data;
     Ok (hex_encode digest)).

(** [crypto.timingSafeEqual(a, b)] throws unless the two buffers have the
    same length. *)
Definition timingSafeEqual (a b : bytes) : Result bool :=
  if decide (length a = length b) then Ok (bool_decide (a = b))
  else Err "Input buffers must have the same byte length".

(** [verifyHMAC(data, signature, secret, algorithm)]: [false] on any error. *)
Definition verifyHMAC (hmac : Hmac) (data signature secret : string)
    (algorithm : option string) : bool :=
  match (expectedSignature ← generateHMAC hmac data secret algorithm;
         timingSafeEqual (hex_decode signature) (hex_decode expectedSignature)) with
  | Ok equal => equal
  | Err _ => false
  end.

End Encryption.

(** ** JSON values and handler outcomes *)

(** A JavaScript value as it is sent in a response.  An object is the list of
    its own properties, in insertion order. *)
#[local] Unset Elimination Schemes.
Inductive JsValue : Type :=
| JNull
| JBool (b : bool)
| JNum (n : Z)
| JStr (s : string)
| JTime (t : Z)
| JArr (items : list JsValue)
| JObj (fields : list (string * JsValue)).
#[local] Set Elimination Schemes.

Abbreviation JsObject := (list (string * JsValue)) (only parsing).

Definition optJ {A} (f : A → JsValue) (o : option A) : JsValue :=
  match o with Some a => f a | None => JNull end.

(** [obj[key]]: [None] when the object has no such property. *)
Fixpoint getField (key : string) (o : JsObject) : option JsValue :=
  match o with
  | [] => None
  | (k, v) :: rest => if String.eqb k key then Some v else getField key rest
  end.

(** [const { k1: _, k2: __, ...rest } = obj], and [delete obj.k] on a copy. *)
Definition omit (keys : list string) (o : JsObject) : JsObject :=
  filter (λ kv, kv.1 ∉ keys) o.

(** [new AppError(message, statusCode, code, details)] *)
Record AppError : Type := {
  message : string;
  statusCode : Z;
  code : string;
  details : option JsValue
}.

Definition appError (message : string) (statusCode : Z) (code : string) : AppError :=
  {| message := message; statusCode := statusCode; code := code; details := None |}.

(** What a route handler does: it throws an [AppError], it lets another
    [Error] escape (which the global error handler answers with status 500),
    it replies with a status and a JSON body, or it sends a file. *)
Inductive Outcome : Type :=
| Threw (e : AppError)
| Escaped (msg : string)
| Replied (status : Z) (body : JsObject)
| SentFile (contentType fileName : string) (content : bytes).

Definition threwCode (o : Outcome) : option string :=
  match o with Threw e => Some (code e) | _ => None end.

Definition replied (o : Outcome) : bool :=
  match o with Replied _ _ => true | _ => false end.

(** ** The [bcrypt] and [jsonwebtoken] libraries *)

(** [bcrypt.hash(password, saltRounds)] draws a salt, and
    [bcrypt.compare(password, hash)] checks a password against a hash. *)
Record BcryptLib : Type := {
  bcryptHash : string → Z → string → string;
  bcryptCompare : string → string → bool
}.


(** ** Objects used as counters *)

(** [counts[key(x)] = (counts[key(x)] || 0) + 1] for every [x] of an array,
    starting from the object [counts].  The keys are the object's own
    properties: a key that names a property every object inherits (such as
    [constructor]) is outside this model. *)
Definition tally `{Countable K} {A} (key : A → K) (l : list A) (counts : gmap K Z)
  : gmap K Z :=
  foldl (λ counts x, <[key x := default 0 (counts !! key x) + 1]> counts) counts l.

(** ** The users store ([data/users.js]) *)

Module Users.

Record User : Type := {
  id : string;
  employeeId : string;
  password : string;
  name : string;
  role : string;
  department : string;
  clearanceLevel : Z;
  airline : string;
  isActive : bool;
  createdAt : Z;
  updatedAt : Z;
  lastLoginAt : option Z;
  failedLoginAttempts : Z;
  accountLockedUntil : option Z
}.

(** Assignments to the properties the code writes. *)
Definition setPassword (v : string) (u : User) : User :=
  {| id := id u; employeeId := employeeId u; password := v; name := name u;
     role := role u; department := department u; clearanceLevel := clearanceLevel u;
     airline := airline u; isActive := isActive u; createdAt := createdAt u;
     updatedAt := updatedAt u; lastLoginAt := lastLoginAt u;
     failedLoginAttempts := failedLoginAttempts u;
     accountLockedUntil := accountLockedUntil u |}.

Definition setName (v : string) (u : User) : User :=
  {| id := id u; employeeId := employeeId u; password := password u; name := v;
     role := role u; department := department u; clearanceLevel := clearanceLevel u;
     airline := airline u; isActive := isActive u; createdAt := createdAt u;
     updatedAt := updatedAt u; lastLoginAt := lastLoginAt u;
     failedLoginAttempts := failedLoginAttempts u;
     accountLockedUntil := accountLockedUntil u |}.

Definition setDepartment (v : string) (u : User) : User :=
  {| id := id u; employeeId := employeeId u; password := password u; name := name u;
     role := role u; department := v; clearanceLevel := clearanceLevel u;
     airline := airline u; isActive := isActive u; createdAt := createdAt u;
     updatedAt := updatedAt u; lastLoginAt := lastLoginAt u;
     failedLoginAttempts := failedLoginAttempts u;
     accountLockedUntil := accountLockedUntil u |}.

Definition setIsActive (v : bool) (u : User) : User :=
  {| id := id u; employeeId := employeeId u; password := password u; name := name u;
     role := role u; department := department u; clearanceLevel := clearanceLevel u;
     airline := airline u; isActive := v; createdAt := createdAt u;
     updatedAt := updatedAt u; lastLoginAt := lastLoginAt u;
     failedLoginAttempts := failedLoginAttempts u;
     accountLockedUntil := accountLockedUntil u |}.

Definition setUpdatedAt (v : Z) (u : User) : User :=
  {| id := id u; employeeId := employeeId u; password := password u; name := name u;
     role := role u; department := department u; clearanceLevel := clearanceLevel u;
     airline := airline u; isActive := isActive u; createdAt := createdAt u;
     updatedAt := v; lastLoginAt := lastLoginAt u;
     failedLoginAttempts := failedLoginAttempts u;
     accountLockedUntil := accountLockedUntil u |}.

Definition setLastLoginAt (v : option Z) (u : User) : User :=
  {| id := id u; employeeId := employeeId u; password := password u; name := name u;
     role := role u; department := department u; clearanceLevel := clearanceLevel u;
     airline := airline u; isActive := isActive u; createdAt := createdAt u;
     updatedAt := updatedAt u; lastLoginAt := v;
     failedLoginAttempts := failedLoginAttempts u;
     accountLockedUntil := accountLockedUntil u |}.

Definition setFailedLoginAttempts (v : Z) (u : User) : User :=
  {| id := id u; employeeId := employeeId u; password := password u; name := name u;
     role := role u; department := department u; clearanceLevel := clearanceLevel u;
     airline := airline u; isActive := isActive u; createdAt := createdAt u;
     updatedAt := updatedAt u; lastLoginAt := lastLoginAt u;
     failedLoginAttempts := v;
     accountLockedUntil := accountLockedUntil u |}.

Definition setAccountLockedUntil (v : option Z) (u : User) : User :=
  {| id := id u; employeeId := employeeId u; password := password u; name := name u;
     role := role u; department := department u; clearanceLevel := clearanceLevel u;
     airline := airline u; isActive := isActive u; createdAt := createdAt u;
     updatedAt := updatedAt u; lastLoginAt := lastLoginAt u;
     failedLoginAttempts := failedLoginAttempts u;
     accountLockedUntil := v |}.

(** The user as a JSON object. *)
Definition toObject (u : User) : JsObject :=
  [("id", JStr (id u)); ("employeeId", JStr (employeeId u));
   ("password", JStr (password u)); ("name", JStr (name u));
   ("role", JStr (role u)); ("department", JStr (department u));
   ("clearanceLevel", JNum (clearanceLevel u)); ("airline", JStr (airline u));
   ("isActive", JBool (isActive u)); ("createdAt", JTime (createdAt u));
   ("updatedAt", JTime (updatedAt u)); ("lastLoginAt", optJ JTime (lastLoginAt u));
   ("failedLoginAttempts", JNum (failedLoginAttempts u));
   ("accountLockedUntil", optJ JTime (accountLockedUntil u))].

(** The store the module starts with. *)
Definition initialUsers : list User := [
  {| id := "user-001"; employeeId := "AA12345";
     password := "$2b$12$LQv3c1yqBWVHxkd0LHAkCOYz6TtxMQJqhN8/LewdBPj6hsbtws5Lm";
     name := "Captain Sarah Johnson"; role := "pilot"; department := "flight-operations";
     clearanceLevel := 5; airline := "American Airlines"; isActive := true;
     createdAt := 1705305600000; updatedAt := 1705305600000; lastLoginAt := None;
     failedLoginAttempts := 0; accountLockedUntil := None |};
  {| id := "user-002"; employeeId := "AA12346";
     password := "$2b$12$LQv3c1yqBWVHxkd0LHAkCOYz6TtxMQJqhN8/LewdBPj6hsbtws5Lm";
     name := "First Officer Mike Chen"; role := "co-pilot"; department := "flight-operations";
     clearanceLevel := 4; airline := "American Airlines"; isActive := true;
     createdAt := 1705307400000; updatedAt := 1705307400000; lastLoginAt := None;
     failedLoginAttempts := 0; accountLockedUntil := None |};
  {| id := "user-003"; employeeId := "AA12347";
     password := "$2b$12$LQv3c1yqBWVHxkd0LHAkCOYz6TtxMQJqhN8/LewdBPj6hsbtws5Lm";
     name := "Flight Attendant Lisa Martinez"; role := "flight-attendant"; department := "cabin-crew";
     clearanceLevel := 2; airline := "American Airlines"; isActive := true;
     createdAt := 1705309200000; updatedAt := 1705309200000; lastLoginAt := None;
     failedLoginAttempts := 0; accountLockedUntil := None |};
  {| id := "user-004"; employeeId := "AB12345";
     password := "$2b$12$.ndLzxB/aSLpsgfPxeRiqeXlinsTcL5b3dJZ/wx4XUvX/QgblU.36";
     name := "Demo Test Pilot"; role := "pilot"; department := "flight-operations";
     clearanceLevel := 5; airline := "Demo Airlines"; isActive := true;
     createdAt := 1753912800000; updatedAt := 1753912800000; lastLoginAt := None;
     failedLoginAttempts := 0; accountLockedUntil := None |};
  {| id := "user-005"; employeeId := "AA12348";
     password := "$2b$12$LQv3c1yqBWVHxkd0LHAkCOYz6TtxMQJqhN8/LewdBPj6hsbtws5Lm";
     name := "Gate Agent Robert Davis"; role := "gate-agent"; department := "ground-operations";
     clearanceLevel := 2; airline := "American Airlines"; isActive := true;
     createdAt := 1705311000000; updatedAt := 1705311000000; lastLoginAt := None;
     failedLoginAttempts := 0; accountLockedUntil := None |};
  {| id := "user-006"; employeeId := "AA12349";
     password := "$2b$12$LQv3c1yqBWVHxkd0LHAkCOYz6TtxMQJqhN8/LewdBPj6hsbtws5Lm";
     name := "Dispatcher Jennifer Wilson"; role := "dispatcher"; department := "dispatch";
     clearanceLevel := 4; airline := "American Airlines"; isActive := true;
     createdAt := 1705312800000; updatedAt := 1705312800000; lastLoginAt := None;
     failedLoginAttempts := 0; accountLockedUntil := None |};
  {| id := "user-006"; employeeId := "DL54321";
     password := "$2b$12$LQv3c1yqBWVHxkd0LHAkCOYz6TtxMQJqhN8/LewdBPj6hsbtws5Lm";
     name := "Captain James Thompson"; role := "pilot"; department := "flight-operations";
     clearanceLevel := 5; airline := "Delta Air Lines"; isActive := true;
     createdAt := 1705314600000; updatedAt := 1705314600000; lastLoginAt := None;
     failedLoginAttempts := 0; accountLockedUntil := None |};
  {| id := "user-007"; employeeId := "UA98765";
     password := "$2b$12$LQv3c1yqBWVHxkd0LHAkCOYz6TtxMQJqhN8/LewdBPj6hsbtws5Lm";
     name := "Ground Crew Lead Mark Rodriguez"; role := "ground-crew"; department := "ground-operations";
     clearanceLevel := 3; airline := "United Airlines"; isActive := true;
     createdAt := 1705316400000; updatedAt := 1705316400000; lastLoginAt := None;
     failedLoginAttempts := 0; accountLockedUntil := None |}
].

(** [users.find(user => user.employeeId === employeeId)], with the index of
    the object found: a later assignment to a property of the object writes
    the array at that index. *)
Definition findByEmployeeId (employeeId' : string) (users : list User)
  : option (nat * User) :=
  list_find (λ u, employeeId u = employeeId') users.

(** [findUserByEmployeeId(employeeId)] *)
Definition findUserByEmployeeId (employeeId' : string) (users : list User) : option User :=
  snd <$> findByEmployeeId employeeId' users.

Definition findById (id' : string) (users : list User) : option (nat * User) :=
  list_find (λ u, id u = id') users.

(** [findUserById(id)] *)
Definition findUserById (id' : string) (users : list User) : option User :=
  snd <$> findById id' users.

(** [addUser(user)] *)
Definition addUser (user : User) (users : list User) : list User :=
  users ++ [user].

(** [updateUser(updatedUser)]: the first user with the same [id] is replaced
    by [{ ...users[index], ...updatedUser }]; every user object carries every
    property, so the spread is [updatedUser]. *)
Definition updateUser (updatedUser : User) (users : list User) : list User * bool :=
  match findById (id updatedUser) users with
  | Some (index, _) => (<[index := updatedUser]> users, true)
  | None => (users, false)
  end.

(** A handler that has found [user] at index [at_] assigns to its properties,
    which writes the array in place, and then calls [updateUser(user)]. *)
Definition writeBack (at_ : nat) (user : User) (users : list User) : list User * bool :=
  updateUser user (<[at_ := user]> users).

(** [deleteUser(id)]: a soft delete. *)
Definition deleteUser (now : Z) (id' : string) (users : list User) : list User * bool :=
  match findById id' users with
  | Some (at_, user) =>
      let user := setIsActive false user in
      let user := setUpdatedAt now user in
      writeBack at_ user users
  | None => (users, false)
  end.

(** [resetUserPassword(employeeId, newPassword)], an admin function. *)
Definition resetUserPassword (B : BcryptLib) (now : Z) (salt : string)
    (employeeId' newPassword : string) (users : list User) : list User * bool :=
  match findByEmployeeId employeeId' users with
  | None => (users, false)
  | Some (at_, user) =>
      let saltRounds := 12 in
      let hashedPassword := bcryptHash B newPassword saltRounds salt in
      let user := setPassword hashedPassword user in
      let user := setUpdatedAt now user in
      let user := setFailedLoginAttempts 0 user in
      let user := setAccountLockedUntil None user in
      writeBack at_ user users
  end.

(** [setUserLockStatus(employeeId, locked)] *)
Definition setUserLockStatus (now : Z) (employeeId' : string) (locked : bool)
    (users : list User) : list User * bool :=
  match findByEmployeeId employeeId' users with
  | None => (users, false)
  | Some (at_, user) =>
      let user :=
        if locked
        then setAccountLockedUntil (Some (now + 24 * 60 * 60 * 1000)) user
        else setFailedLoginAttempts 0 (setAccountLockedUntil None user) in
      let user := setUpdatedAt now user in
      writeBack at_ user users
  end.

(** The [filters] argument of [getAllUsers]; a property that is absent, an
    empty string or the number 0 is falsy, and its filter is not applied. *)
Record Filters : Type := {
  filterRole : option string;
  filterDepartment : option string;
  filterAirline : option string;
  filterClearanceLevel : option Z
}.

Definition noFilters : Filters :=
  {| filterRole := None; filterDepartment := None; filterAirline := None;
     filterClearanceLevel := None |}.

Definition truthy (o : option string) : option string :=
  match o with
  | Some v => if decide (v = "") then None else Some v
  | None => None
  end.

(** The [filteredUsers] of [getAllUsers], before the passwords are taken
    out. *)
Definition filteredUsers (filters : Filters) (users : list User) : list User :=
  let filteredUsers := filter (λ user, isActive user = true) users in
  let filteredUsers :=
    match truthy (filterRole filters) with
    | Some role' => filter (λ user, role user = role') filteredUsers
    | None => filteredUsers
    end in
  let filteredUsers :=
    match truthy (filterDepartment filters) with
    | Some department' => filter (λ user, department user = department') filteredUsers
    | None => filteredUsers
    end in
  let filteredUsers :=
    match truthy (filterAirline filters) with
    | Some airline' => filter (λ user, airline user = airline') filteredUsers
    | None => filteredUsers
    end in
  match filterClearanceLevel filters with
  | Some level =>
      if decide (level = 0) then filteredUsers
      else filter (λ user, clearanceLevel user >= level) filteredUsers
  | None => filteredUsers
  end.

(** [const { password, ...userWithoutPassword } = user] *)
Definition withoutPassword (user : User) : JsObject := omit ["password"] (toObject user).

(** [getAllUsers(filters)] *)
Definition getAllUsers (filters : Filters) (users : list User) : list JsObject :=
  withoutPassword <$> filteredUsers filters users.

(** [getUsersByRole(role)], [getUsersByDepartment(department)] and
    [getUsersByAirline(airline)] *)
Definition getUsersByRole (role' : string) (users : list User) : list JsObject :=
  getAllUsers {| filterRole := Some role'; filterDepartment := None;
                 filterAirline := None; filterClearanceLevel := None |} users.

Definition getUsersByDepartment (department' : string) (users : list User)
  : list JsObject :=
  getAllUsers {| filterRole := None; filterDepartment := Some department';
                 filterAirline := None; filterClearanceLevel := None |} users.

Definition getUsersByAirline (airline' : string) (users : list User) : list JsObject :=
  getAllUsers {| filterRole := None; filterDepartment := None;
                 filterAirline := Some airline'; filterClearanceLevel := None |} users.

(** [isEmployeeIdAvailable(employeeId)] *)
Definition isEmployeeIdAvailable (employeeId' : string) (users : list User) : bool :=
  bool_decide (findUserByEmployeeId employeeId' users = None).

(** [getUserStats()]: the four counters are filled in one pass over the
    active users. *)
Record UserStats : Type := {
  total : Z;
  byRole : gmap string Z;
  byDepartment : gmap string Z;
  byAirline : gmap string Z;
  byClearanceLevel : gmap Z Z
}.

Definition getUserStats (users : list User) : UserStats :=
  let activeUsers := filter (λ user, isActive user = true) users in
  {| total := Z.of_nat (length activeUsers);
     byRole := tally role activeUsers ∅;
     byDepartment := tally department activeUsers ∅;
     byAirline := tally airline activeUsers ∅;
     byClearanceLevel := tally clearanceLevel activeUsers ∅ |}.

End Users.

(** ** JWT utilities ([utils/jwt.js]) *)

Module Jwt.

(** The claims this API signs into a token and reads back from one. *)
Record Payload : Type := {
  employeeId : string;
  name : option string;
  role : option string;
  department : option string;
  clearanceLevel : option Z;
  airline : option string;
  type : option string;
  tokenId : option string
}.

Record SignOptions : Type := {
  expiresIn : string;
  issuer : string;
  audience : string
}.

Record VerifyOptions : Type := {
  requiredIssuer : option string;
  requiredAudience : option string
}.

(** [jwt.verify] returns the decoded payload or throws an error with a
    [name] ([TokenExpiredError], [JsonWebTokenError], ...) and a [message]. *)
Inductive Verified : Type :=
| Decoded (payload : Payload)
| Thrown (name message : string).

(** The library: [sign payload secret options now] is the token,
    [verify token secret options now] checks signature, expiry, issuer and
    audience, and [decodeExp token] is the [exp] claim (in seconds) that
    [jwt.decode] reads without any check. *)
Record Lib : Type := {
  sign : Payload → string → SignOptions → Z → string;
  verify : string → string → VerifyOptions → Z → Verified;
  decodeExp : string → option Z
}.

(** [process.env] *)
Record Env : Type := {
  JWT_SECRET : string;
  JWT_REFRESH_SECRET : option string;
  JWT_EXPIRES_IN : option string;
  JWT_REFRESH_EXPIRES_IN : option string
}.

Definition apiOptions : VerifyOptions :=
  {| requiredIssuer := Some "aviation-crew-api"; requiredAudience := Some "aviation-crew" |}.

Definition noOptions : VerifyOptions :=
  {| requiredIssuer := None; requiredAudience := None |}.

(** [value || fallback] for an environment variable: an unset variable and
    an empty one are both falsy. *)
Definition orString (value : option string) (fallback : string) : string :=
  match value with
  | Some v => if decide (v = "") then fallback else v
  | None => fallback
  end.

(** [verifyAccessToken(token)] *)
Definition verifyAccessToken (J : Lib) (env : Env) (now : Z) (token : string)
  : Result Payload :=
  match verify J token (JWT_SECRET env) apiOptions now with
  | Decoded payload => Ok payload
  | Thrown _ msg => Err ("Invalid access token: " +:+ msg)
  end.

(** [verifyRefreshToken(token)] *)
Definition verifyRefreshToken (J : Lib) (env : Env) (now : Z) (token : string)
  : Result Payload :=
  match verify J token (orString (JWT_REFRESH_SECRET env) (JWT_SECRET env)) apiOptions now with
  | Decoded decoded =>
      if decide (type decoded = Some "refresh") then Ok decoded
      else Err "Invalid refresh token: Invalid token type"
  | Thrown _ msg => Err ("Invalid refresh token: " +:+ msg)
  end.

(** [generateTokens(user)]; [tokenId] is the [crypto.randomUUID()] drawn for
    the refresh token. *)
Definition generateTokens (J : Lib) (env : Env) (now : Z) (tokenId' : string)
    (user : Users.User) : string * string :=
  let payload :=
    {| employeeId := Users.employeeId user; name := Some (Users.name user);
       role := Some (Users.role user); department := Some (Users.department user);
       clearanceLevel := Some (Users.clearanceLevel user);
       airline := Some (Users.airline user); type := None; tokenId := None |} in
  let accessToken :=
    sign J payload (JWT_SECRET env)
      {| expiresIn := orString (JWT_EXPIRES_IN env) "15m";
         issuer := "aviation-crew-api"; audience := "aviation-crew" |} now in
  let refreshToken :=
    sign J
      {| employeeId := Users.employeeId user; name := None; role := None;
         department := None; clearanceLevel := None; airline := None;
         type := Some "refresh"; tokenId := Some tokenId' |}
      (orString (JWT_REFRESH_SECRET env) (JWT_SECRET env))
      {| expiresIn := orString (JWT_REFRESH_EXPIRES_IN env) "7d";
         issuer := "aviation-crew-api"; audience := "aviation-crew" |} now in
  (accessToken, refreshToken).

(** [decoded.exp] where [jwt.decode(token)] gave a payload with a truthy
    [exp]: a payload without [exp], and one whose [exp] is 0, are treated
    alike by [!decoded.exp]. *)
Definition truthyExp (J : Lib) (token : string) : option Z :=
  match decodeExp J token with
  | Some exp => if decide (exp = 0) then None else Some exp
  | None => None
  end.

(** [getTokenExpiration(token)]: [null] when [!decoded || !decoded.exp]. *)
Definition getTokenExpiration (J : Lib) (token : string) : option Z :=
  (λ exp, exp * 1000) <$> truthyExp J token.

(** [global.tokenBlacklist]: undefined until the first [blacklistToken], then
    a [Map] from the token string to the time its entry expires. *)
Abbreviation Blacklist := (option (gmap string Z)) (only parsing).

(** [cleanupBlacklist()] *)
Definition cleanupBlacklist (now : Z) (bl : Blacklist) : Blacklist :=
  filter (λ kv, ¬ (now > kv.2)) <$> bl.

(** [blacklistToken(token, expiresAt)] *)
Definition blacklistToken (J : Lib) (now : Z) (bl : Blacklist) (token : string)
    (expiresAt : option Z) : Blacklist :=
  let m := default ∅ bl in
  let expiry :=
    match expiresAt with
    | Some t => t
    | None => default (now + 24 * 60 * 60 * 1000) (getTokenExpiration J token)
    end in
  cleanupBlacklist now (Some (<[token := expiry]> m)).

(** [isTokenBlacklisted(token)]: the answer and the blacklist afterwards (an
    expired entry is deleted on lookup). *)
Definition isTokenBlacklisted (now : Z) (bl : Blacklist) (token : string)
  : bool * Blacklist :=
  match bl with
  | None => (false, bl)
  | Some m =>
      match m !! token with
      | None => (false, bl)
      | Some expiry =>
          if decide (now > expiry) then (false, Some (delete token m))
          else (true, bl)
      end
  end.

(** [extractTokenFromHeader(authHeader)]: the header must be the word
    [Bearer], one space and the token. *)
Definition extractTokenFromHeader (authHeader : option string) : option string :=
  match authHeader with
  | None => None
  | Some h =>
      if decide (h = "") then None
      else match Encoding.split_on " " h with
           | [scheme; token] => if decide (scheme = "Bearer") then Some token else None
           | _ => None
           end
  end.

(** [isTokenExpired(token)]; [Math.floor(Date.now() / 1000)] is
    [now `div` 1000]. *)
Definition isTokenExpired (J : Lib) (now : Z) (token : string) : bool :=
  match truthyExp J token with
  | None => true
  | Some exp => bool_decide (exp < now `div` 1000)
  end.

(** [getTokenTimeRemaining(token)] *)
Definition getTokenTimeRemaining (J : Lib) (now : Z) (token : string) : Z :=
  match truthyExp J token with
  | None => -1
  | Some exp => Z.max 0 (exp - now `div` 1000)
  end.

(** [isValidTokenFormat(token)]: [Buffer.from(part, 'base64url')] skips the
    characters that are not of the alphabet and throws for no string, so the
    loop over the parts always runs to its end. *)
Definition isValidTokenFormat (token : string) : bool :=
  if decide (token = "") then false
  else if decide (length (Encoding.split_on "." token) ≠ 3%nat) then false
  else true.

End Jwt.

(** ** Authentication middleware ([middleware/auth.js]) *)

Module Middleware.

(** [req.user], as [authenticateToken] attaches it. *)
Record ReqUser : Type := {
  employeeId : string;
  name : string;
  role : string;
  department : string;
  clearanceLevel : Z;
  airline : string
}.

(** The middleware ends the request with a response, or calls [next()] with
    [req.user] set. *)
Inductive Auth : Type :=
| Rejected (status : Z) (body : JsObject)
| Next (user : ReqUser).

Definition rejection (status : Z) (error message code : string) : Auth :=
  Rejected status
    [("error", JStr error); ("message", JStr message); ("code", JStr code)].

Definition rejectionCode (a : Auth) : option JsValue :=
  match a with
  | Rejected _ body => getField "code" body
  | Next _ => None
  end.

(** [authHeader && authHeader.split(' ')[1]]; an absent header, a header with
    no second part and an empty second part are all falsy. *)
Definition bearerToken (authHeader : option string) : option string :=
  match authHeader with
  | None => None
  | Some h =>
      match Encoding.split_on " " h !! 1%nat with
      | Some token => if decide (token = "") then None else Some token
      | None => None
      end
  end.

(** [authenticateToken(req, res, next)] *)
Definition authenticateToken (J : Jwt.Lib) (env : Jwt.Env) (users : list Users.User)
    (now : Z) (authHeader : option string) : Auth :=
  match bearerToken authHeader with
  | None =>
      rejection 401 "Access denied"
        "No token provided. Please login to access this resource." "NO_TOKEN"
  | Some token =>
      match Jwt.verify J token (Jwt.JWT_SECRET env) Jwt.noOptions now with
      | Jwt.Decoded decoded =>
          match Users.findUserByEmployeeId (Jwt.employeeId decoded) users with
          | None =>
              rejection 401 "Access denied" "Invalid token. User not found."
                "USER_NOT_FOUND"
          | Some user =>
              if negb (Users.isActive user)
              then rejection 401 "Access denied"
                     "Account is deactivated. Please contact administrator."
                     "ACCOUNT_DEACTIVATED"
              else Next {| employeeId := Users.employeeId user;
                           name := Users.name user;
                           role := Users.role user;
                           department := Users.department user;
                           clearanceLevel := Users.clearanceLevel user;
                           airline := Users.airline user |}
          end
      | Jwt.Thrown errorName _ =>
          if decide (errorName = "TokenExpiredError")
          then rejection 401 "Token expired"
                 "Your session has expired. Please login again." "TOKEN_EXPIRED"
          else if decide (errorName = "JsonWebTokenError")
          then rejection 401 "Invalid token"
                 "Invalid authentication token provided." "INVALID_TOKEN"
          else rejection 500 "Authentication error"
                 "Internal server error during authentication." "AUTH_ERROR"
      end
  end.

(** [requireClearance(minClearanceLevel)] *)
Definition requireClearance (minClearanceLevel : Z) (user : option ReqUser) : Auth :=
  match user with
  | None =>
      rejection 401 "Authentication required"
        "Please authenticate before accessing this resource." "AUTH_REQUIRED"
  | Some u =>
      if decide (clearanceLevel u < minClearanceLevel)
      then Rejected 403
             [("error", JStr "Access denied");
              ("message", JStr ("Insufficient security clearance. Required level: "
                                +:+ pretty minClearanceLevel));
              ("code", JStr "INSUFFICIENT_CLEARANCE");
              ("userClearance", JNum (clearanceLevel u));
              ("requiredClearance", JNum minClearanceLevel)]
      else Next u
  end.

(** [requireRole(allowedRoles)] *)
Definition requireRole (allowedRoles : list string) (user : option ReqUser) : Auth :=
  match user with
  | None =>
      rejection 401 "Authentication required"
        "Please authenticate before accessing this resource." "AUTH_REQUIRED"
  | Some u =>
      if decide (role u ∉ allowedRoles)
      then Rejected 403
             [("error", JStr "Access denied");
              ("message", JStr ("Insufficient permissions. Required roles: "
                                +:+ String.concat ", " allowedRoles));
              ("code", JStr "INSUFFICIENT_ROLE");
              ("userRole", JStr (role u));
              ("requiredRoles", JArr (JStr <$> allowedRoles))]
      else Next u
  end.

(** [requireDepartment(allowedDepartments)] *)
Definition requireDepartment (allowedDepartments : list string) (user : option ReqUser)
  : Auth :=
  match user with
  | None =>
      rejection 401 "Authentication required"
        "Please authenticate before accessing this resource." "AUTH_REQUIRED"
  | Some u =>
      if decide (department u ∉ allowedDepartments)
      then Rejected 403
             [("error", JStr "Access denied");
              ("message", JStr ("Access restricted to: "
                                +:+ String.concat ", " allowedDepartments
                                +:+ " departments"));
              ("code", JStr "DEPARTMENT_RESTRICTED");
              ("userDepartment", JStr (department u));
              ("allowedDepartments", JArr (JStr <$> allowedDepartments))]
      else Next u
  end.

(** [optionalAuth(req, res, next)]: [req.user] when [next()] is called; the
    middleware never ends the request. *)
Definition optionalAuth (J : Jwt.Lib) (env : Jwt.Env) (users : list Users.User)
    (now : Z) (authHeader : option string) : option ReqUser :=
  match bearerToken authHeader with
  | None => None
  | Some token =>
      match Jwt.verify J token (Jwt.JWT_SECRET env) Jwt.noOptions now with
      | Jwt.Decoded decoded =>
          match Users.findUserByEmployeeId (Jwt.employeeId decoded) users with
          | Some user =>
              if Users.isActive user
              then Some {| employeeId := Users.employeeId user;
                           name := Users.name user;
                           role := Users.role user;
                           department := Users.department user;
                           clearanceLevel := Users.clearanceLevel user;
                           airline := Users.airline user |}
              else None
          | None => None
          end
      | Jwt.Thrown _ _ => None
      end
  end.

(** [req.user] as a JSON object. *)
Definition toObject (u : ReqUser) : JsObject :=
  [("employeeId", JStr (employeeId u)); ("name", JStr (name u));
   ("role", JStr (role u)); ("department", JStr (department u));
   ("clearanceLevel", JNum (clearanceLevel u)); ("airline", JStr (airline u))].

End Middleware.

(** ** Authentication routes ([routes/auth.js]) *)

Module Auth.

Definition success (message : option string) (data : option JsObject) : JsObject :=
  [("status", JStr "success")]
  ++ match message with Some m => [("message", JStr m)] | None => [] end
  ++ match data with Some d => [("data", JObj d)] | None => [] end.

(** [Math.ceil(ms / 1000 / 60)] for a positive number of milliseconds. *)
Definition ceilMinutes (ms : Z) : Z := (ms + 59999) / 60000.

Record Registration : Type := {
  employeeId : string;
  password : string;
  name : string;
  role : string;
  department : string;
  clearanceLevel : Z;
  airline : string
}.

(** [POST /auth/register]; [newId], [salt] and [tokenId] are the random
    draws of [uuidv4()], [bcrypt.hash] and [crypto.randomUUID()]. *)
Definition register (B : BcryptLib) (J : Jwt.Lib) (env : Jwt.Env) (now : Z)
    (newId salt tokenId : string) (body : Registration) (users : list Users.User)
  : Outcome * list Users.User :=
  match Users.findUserByEmployeeId (employeeId body) users with
  | Some _ =>
      (Threw (appError "Employee ID already registered" 409 "USER_EXISTS"), users)
  | None =>
      let saltRounds := 12 in
      let hashedPassword := bcryptHash B (password body) saltRounds salt in
      let newUser :=
        {| Users.id := newId; Users.employeeId := employeeId body;
           Users.password := hashedPassword; Users.name := name body;
           Users.role := role body; Users.department := department body;
           Users.clearanceLevel := clearanceLevel body;
           Users.airline := airline body; Users.isActive := true;
           Users.createdAt := now; Users.updatedAt := now;
           Users.lastLoginAt := None; Users.failedLoginAttempts := 0;
           Users.accountLockedUntil := None |} in
      let users := Users.addUser newUser users in
      let '(accessToken, refreshToken) := Jwt.generateTokens J env now tokenId newUser in
      let userWithoutPassword := omit ["password"] (Users.toObject newUser) in
      (Replied 201
         (success (Some "User registered successfully")
            (Some [("user", JObj userWithoutPassword);
                   ("accessToken", JStr accessToken);
                   ("refreshToken", JStr refreshToken);
                   ("expiresIn", JStr (Jwt.orString (Jwt.JWT_EXPIRES_IN env) "15m"))])),
       users)
  end.

(** [user.accountLockedUntil && new Date() < new Date(user.accountLockedUntil)] *)
Definition isLocked (now : Z) (user : Users.User) : bool :=
  match Users.accountLockedUntil user with
  | Some lockedUntil => bool_decide (now < lockedUntil)
  | None => false
  end.

(** [POST /auth/login] *)
Definition login (B : BcryptLib) (J : Jwt.Lib) (env : Jwt.Env) (now : Z)
    (tokenId : string) (employeeId' password' : string) (users : list Users.User)
  : Outcome * list Users.User :=
  match Users.findByEmployeeId employeeId' users with
  | None => (Threw (appError "Invalid credentials" 401 "INVALID_CREDENTIALS"), users)
  | Some (at_, user) =>
      if isLocked now user then
        let lockTimeRemaining :=
          ceilMinutes (default 0 (Users.accountLockedUntil user) - now) in
        (Threw {| message := "Account is locked. Try again in "
                             +:+ pretty lockTimeRemaining +:+ " minutes.";
                  statusCode := 423;
                  code := "ACCOUNT_LOCKED";
                  details :=
                    Some (JObj [("unlockTime",
                                 optJ JTime (Users.accountLockedUntil user))]) |},
         users)
      else if negb (Users.isActive user) then
        (Threw (appError "Account is deactivated. Contact administrator." 401
                  "ACCOUNT_DEACTIVATED"),
         users)
      else if negb (bcryptCompare B password' (Users.password user)) then
        let user :=
          Users.setFailedLoginAttempts (Users.failedLoginAttempts user + 1) user in
        let user :=
          if decide (Users.failedLoginAttempts user >= 5)
          then Users.setAccountLockedUntil (Some (now + 30 * 60 * 1000)) user
          else user in
        let user := Users.setUpdatedAt now user in
        (Threw (appError "Invalid credentials" 401 "INVALID_CREDENTIALS"),
         (Users.writeBack at_ user users).1)
      else
        let user := Users.setFailedLoginAttempts 0 user in
        let user := Users.setAccountLockedUntil None user in
        let user := Users.setLastLoginAt (Some now) user in
        let user := Users.setUpdatedAt now user in
        let users := (Users.writeBack at_ user users).1 in
        let '(accessToken, refreshToken) := Jwt.generateTokens J env now tokenId user in
        let userWithoutPassword := omit ["password"] (Users.toObject user) in
        (Replied 200
           (success (Some "Login successful")
              (Some [("user", JObj userWithoutPassword);
                     ("accessToken", JStr accessToken);
                     ("refreshToken", JStr refreshToken);
                     ("expiresIn", JStr (Jwt.orString (Jwt.JWT_EXPIRES_IN env) "15m"))])),
         users)
  end.

(** [POST /auth/refresh]: whatever goes wrong inside the [try], the handler
    throws the same error. *)
Definition refresh (J : Jwt.Lib) (env : Jwt.Env) (now : Z) (tokenId : string)
    (refreshToken : option string) (users : list Users.User) : Outcome :=
  match refreshToken with
  | None => Threw (appError "Refresh token is required" 400 "REFRESH_TOKEN_REQUIRED")
  | Some token =>
      let invalid := Threw (appError "Invalid refresh token" 401 "INVALID_REFRESH_TOKEN") in
      if decide (token = "")
      then Threw (appError "Refresh token is required" 400 "REFRESH_TOKEN_REQUIRED")
      else
        match Jwt.verifyRefreshToken J env now token with
        | Err _ => invalid
        | Ok decoded =>
            match Users.findUserByEmployeeId (Jwt.employeeId decoded) users with
            | None => invalid
            | Some user =>
                if negb (Users.isActive user) then invalid
                else
                  let '(accessToken, refreshToken) :=
                    Jwt.generateTokens J env now tokenId user in
                  Replied 200
                    (success (Some "Token refreshed successfully")
                       (Some [("accessToken", JStr accessToken);
                              ("refreshToken", JStr refreshToken);
                              ("expiresIn",
                               JStr (Jwt.orString (Jwt.JWT_EXPIRES_IN env) "15m"))]))
            end
        end
  end.

(** [POST /auth/logout]: the token is not blacklisted; the handler only
    replies. *)
Definition logout (reqUser : Middleware.ReqUser) : Outcome :=
  Replied 200 (success (Some "Logout successful") None).

(** [GET /auth/profile] *)
Definition profile (reqUser : Middleware.ReqUser) (users : list Users.User) : Outcome :=
  match Users.findUserByEmployeeId (Middleware.employeeId reqUser) users with
  | None => Threw (appError "User not found" 404 "USER_NOT_FOUND")
  | Some user =>
      Replied 200
        (success None (Some [("user", JObj (omit ["password"] (Users.toObject user)))]))
  end.

(** [PUT /auth/password]; [salt] is the salt [bcrypt.hash] draws. *)
Definition changePassword (B : BcryptLib) (now : Z) (salt : string)
    (reqUser : Middleware.ReqUser) (currentPassword newPassword : string)
    (users : list Users.User) : Outcome * list Users.User :=
  match Users.findByEmployeeId (Middleware.employeeId reqUser) users with
  | None => (Threw (appError "User not found" 404 "USER_NOT_FOUND"), users)
  | Some (at_, user) =>
      if negb (bcryptCompare B currentPassword (Users.password user)) then
        (Threw (appError "Current password is incorrect" 400 "INVALID_CURRENT_PASSWORD"),
         users)
      else
        let saltRounds := 12 in
        let hashedNewPassword := bcryptHash B newPassword saltRounds salt in
        let user := Users.setPassword hashedNewPassword user in
        let user := Users.setUpdatedAt now user in
        (Replied 200 (success (Some "Password updated successfully") None),
         (Users.writeBack at_ user users).1)
  end.

(** [GET /auth/verify], behind [optionalAuth]. *)
Definition verifyToken (reqUser : option Middleware.ReqUser) : Outcome :=
  match reqUser with
  | None => Threw (appError "No valid token provided" 401 "NO_VALID_TOKEN")
  | Some user =>
      Replied 200
        (success (Some "Token is valid")
           (Some [("user", JObj (Middleware.toObject user)); ("isValid", JBool true)]))
  end.

(** [POST /auth/forgot-password]: the same reply whether the employee exists
    or not. *)
Definition forgotPassword (employeeId' : option string) (users : list Users.User)
  : Outcome :=
  let reply :=
    Replied 200
      (success
         (Some "If the employee ID exists, a password reset link will be sent to the administrator.")
         None) in
  match employeeId' with
  | None => Threw (appError "Employee ID is required" 400 "EMPLOYEE_ID_REQUIRED")
  | Some e =>
      if decide (e = "")
      then Threw (appError "Employee ID is required" 400 "EMPLOYEE_ID_REQUIRED")
      else match Users.findUserByEmployeeId e users with
           | None => reply
           | Some _ => reply
           end
  end.

End Auth.

(** ** Crew routes ([routes/crew.js]): the one handler that writes a user *)

Module Crew.

(** [PUT /crew/:employeeId/profile]; the user object is assigned to in place
    and [updateUser] is not called. *)
Definition updateProfile (now : Z) (reqUser : Middleware.ReqUser) (employeeId' : string)
    (name department : option string) (users : list Users.User)
  : Outcome * list Users.User :=
  if decide (Middleware.employeeId reqUser ≠ employeeId'
             ∧ Middleware.clearanceLevel reqUser < 4)
  then (Threw (appError "Insufficient permissions to update this profile" 403
                 "UPDATE_PERMISSION_DENIED"),
        users)
  else
    match Users.findByEmployeeId employeeId' users with
    | None => (Threw (appError "Crew member not found" 404 "CREW_MEMBER_NOT_FOUND"), users)
    | Some (at_, crewMember) =>
        if negb (Users.isActive crewMember) then
          (Threw (appError "Cannot update inactive crew member" 400
                    "CREW_MEMBER_INACTIVE"),
           users)
        else
          let truthy (o : option string) :=
            match o with Some v => bool_decide (v ≠ "") | None => false end in
          let crewMember :=
            if truthy name then Users.setName (default "" name) crewMember
            else crewMember in
          let crewMember :=
            if truthy department
            then Users.setDepartment (default "" department) crewMember
            else crewMember in
          let crewMember := Users.setUpdatedAt now crewMember in
          let safeCrewMember :=
            omit ["password"; "failedLoginAttempts"; "accountLockedUntil"]
              (Users.toObject crewMember) in
          (Replied 200
             (Auth.success (Some "Profile updated successfully")
                (Some [("crewMember", JObj safeCrewMember)])),
           <[at_ := crewMember]> users)
    end.

End Crew.

(** ** The messages store ([data/messages.js]) and routes ([routes/messages.js]) *)

Module Messages.

Record Message : Type := {
  id : string;
  senderId : string;
  senderName : string;
  senderRole : string;
  recipientId : string;
  recipientName : string;
  recipientRole : string;
  content : string;
  originalContent : string;
  isEncrypted : bool;
  encryptionKey : option string;
  priority : string;
  category : string;
  flightNumber : option string;
  status : string;
  readAt : option Z;
  createdAt : Z;
  updatedAt : Z
}.

(** [message.readAt = ...; message.updatedAt = ...] *)
Definition markRead (now : Z) (m : Message) : Message :=
  {| id := id m; senderId := senderId m; senderName := senderName m;
     senderRole := senderRole m; recipientId := recipientId m;
     recipientName := recipientName m; recipientRole := recipientRole m;
     content := content m; originalContent := originalContent m;
     isEncrypted := isEncrypted m; encryptionKey := encryptionKey m;
     priority := priority m; category := category m;
     flightNumber := flightNumber m; status := status m;
     readAt := Some now; createdAt := createdAt m; updatedAt := now |}.

Definition toObject (m : Message) : JsObject :=
  [("id", JStr (id m)); ("senderId", JStr (senderId m));
   ("senderName", JStr (senderName m)); ("senderRole", JStr (senderRole m));
   ("recipientId", JStr (recipientId m)); ("recipientName", JStr (recipientName m));
   ("recipientRole", JStr (recipientRole m)); ("content", JStr (content m));
   ("originalContent", JStr (originalContent m));
   ("isEncrypted", JBool (isEncrypted m));
   ("encryptionKey", optJ JStr (encryptionKey m));
   ("priority", JStr (priority m)); ("category", JStr (category m));
   ("flightNumber", optJ JStr (flightNumber m)); ("status", JStr (status m));
   ("readAt", optJ JTime (readAt m)); ("createdAt", JTime (createdAt m));
   ("updatedAt", JTime (updatedAt m))].

(** [obj.content = value] on a response object. *)
Definition setContent (value : string) (o : JsObject) : JsObject :=
  (λ kv, if String.eqb kv.1 "content" then (kv.1, JStr value) else kv) <$> o.

(** The store the module starts with. *)
Definition initialMessages : list Message := [
  {| id := "msg-001"; senderId := "AA12345"; senderName := "Captain Sarah Johnson"; senderRole := "pilot";
     recipientId := "AA12346"; recipientName := "First Officer Mike Chen"; recipientRole := "co-pilot";
     content := "Weather update for flight AA1234 - expect turbulence over Chicago area around 2:30 PM EST.";
     originalContent := "Weather update for flight AA1234 - expect turbulence over Chicago area around 2:30 PM EST.";
     isEncrypted := false; encryptionKey := None; priority := "high"; category := "weather";
     flightNumber := Some "AA1234"; status := "sent"; readAt := Some 1705328100000;
     createdAt := 1705327800000; updatedAt := 1705328100000 |};
  {| id := "msg-002"; senderId := "AA12349"; senderName := "Dispatcher Jennifer Wilson"; senderRole := "dispatcher";
     recipientId := "AA12345"; recipientName := "Captain Sarah Johnson"; recipientRole := "pilot";
     content := "Flight plan revision: Route change due to air traffic. New routing via WYNDE waypoint.";
     originalContent := "Flight plan revision: Route change due to air traffic. New routing via WYNDE waypoint.";
     isEncrypted := false; encryptionKey := None; priority := "urgent"; category := "flight-plan";
     flightNumber := Some "AA1234"; status := "sent"; readAt := None;
     createdAt := 1705326300000; updatedAt := 1705326300000 |};
  {| id := "msg-003"; senderId := "AA12347"; senderName := "Flight Attendant Lisa Martinez"; senderRole := "flight-attendant";
     recipientId := "AA12345"; recipientName := "Captain Sarah Johnson"; recipientRole := "pilot";
     content := "Cabin secure for takeoff. All passengers seated and belted.";
     originalContent := "Cabin secure for takeoff. All passengers seated and belted.";
     isEncrypted := false; encryptionKey := None; priority := "normal"; category := "safety";
     flightNumber := Some "AA1234"; status := "sent"; readAt := Some 1705330920000;
     createdAt := 1705330800000; updatedAt := 1705330920000 |};
  {| id := "msg-004"; senderId := "AA12348"; senderName := "Gate Agent Robert Davis"; senderRole := "gate-agent";
     recipientId := "AA12345"; recipientName := "Captain Sarah Johnson"; recipientRole := "pilot";
     content := "Final passenger count: 156 passengers, 8 crew. Boarding complete.";
     originalContent := "Final passenger count: 156 passengers, 8 crew. Boarding complete.";
     isEncrypted := false; encryptionKey := None; priority := "normal"; category := "operational";
     flightNumber := Some "AA1234"; status := "sent"; readAt := None;
     createdAt := 1705330500000; updatedAt := 1705330500000 |}
].

(** [addMessage(message)] *)
Definition addMessage (message : Message) (messages : list Message) : list Message :=
  messages ++ [message].

Definition findById (id' : string) (messages : list Message) : option (nat * Message) :=
  list_find (λ m, id m = id') messages.

(** [findMessageById(id)] *)
Definition findMessageById (id' : string) (messages : list Message) : option Message :=
  snd <$> findById id' messages.

(** [findMessagesByFlight(flightNumber)] *)
Definition findMessagesByFlight (flightNumber' : string) (messages : list Message)
  : list Message :=
  filter (λ m, flightNumber m = Some flightNumber') messages.

(** [updateMessage(updatedMessage)] *)
Definition updateMessage (updatedMessage : Message) (messages : list Message)
  : list Message * bool :=
  match findById (id updatedMessage) messages with
  | Some (index, _) => (<[index := updatedMessage]> messages, true)
  | None => (messages, false)
  end.

(** [deleteMessage(id)]: [messages.splice(index, 1)]. *)
Definition deleteMessage (id' : string) (messages : list Message) : list Message * bool :=
  match findById id' messages with
  | Some (index, _) => (delete index messages, true)
  | None => (messages, false)
  end.

(** [cleanupOldMessages(daysToKeep)]; [cutoff] is the date [daysToKeep] days
    before now. *)
Definition cleanupOldMessages (cutoff : Z) (messages : list Message) : list Message :=
  filter (λ m, createdAt m > cutoff) messages.

Record SendBody : Type := {
  bodyRecipientId : string;
  bodyContent : string;
  bodyPriority : option string;
  bodyIsEncrypted : option bool;
  bodyFlightNumber : option string;
  bodyCategory : option string
}.

(** [POST /messages]; [newId], [rndKey] and [rndIV] are the draws of
    [uuidv4()], [crypto.randomBytes(KEY_LENGTH)] and [generateIV()]. *)
Definition send (G : Encryption.GcmPrimitive) (now : Z) (newId : string)
    (rndKey rndIV : bytes) (reqUser : Middleware.ReqUser) (body : SendBody)
    (users : list Users.User) (messages : list Message) : Outcome * list Message :=
  let recipientId' := bodyRecipientId body in
  let content' := bodyContent body in
  let priority' := default "normal" (bodyPriority body) in
  let isEncrypted' := default true (bodyIsEncrypted body) in
  let flightNumber' := bodyFlightNumber body in
  let category' := default "general" (bodyCategory body) in
  match Users.findUserByEmployeeId recipientId' users with
  | None => (Threw (appError "Recipient not found" 404 "RECIPIENT_NOT_FOUND"), messages)
  | Some recipient =>
      if negb (Users.isActive recipient) then
        (Threw (appError "Recipient account is inactive" 400 "RECIPIENT_INACTIVE"),
         messages)
      else
        let encryption : Result (string * option string) :=
          if isEncrypted' then
            encrypted ← Encryption.encryptMessage G rndKey rndIV content';
            Ok (Encryption.encryptedContent encrypted, Some (Encryption.key encrypted))
          else Ok (content', None) in
        match encryption with
        | Err msg => (Escaped msg, messages)
        | Ok (messageContent, encryptionKey') =>
            let newMessage :=
              {| id := newId;
                 senderId := Middleware.employeeId reqUser;
                 senderName := Middleware.name reqUser;
                 senderRole := Middleware.role reqUser;
                 recipientId := recipientId';
                 recipientName := Users.name recipient;
                 recipientRole := Users.role recipient;
                 content := messageContent;
                 originalContent := content';
                 isEncrypted := isEncrypted';
                 encryptionKey := encryptionKey';
                 priority := priority';
                 category := category';
                 flightNumber := flightNumber';
                 status := "sent";
                 readAt := None;
                 createdAt := now;
                 updatedAt := now |} in
            let messages := addMessage newMessage messages in
            let messageResponse :=
              omit ["encryptionKey"; "originalContent"] (toObject newMessage) in
            (Replied 201
               (Auth.success (Some "Message sent successfully")
                  (Some [("message", JObj messageResponse)])),
             messages)
        end
  end.

(** The response object of a message for the user [employeeId']: a copy
    without the key and the original content, decrypted for the recipient. *)
Definition forReader (G : Encryption.GcmPrimitive) (employeeId' : string) (msg : Message)
  : JsObject :=
  let processedMsg := omit ["encryptionKey"; "originalContent"] (toObject msg) in
  match encryptionKey msg with
  | Some key =>
      if bool_decide (recipientId msg = employeeId') && isEncrypted msg
         && bool_decide (key ≠ "")
      then match Encryption.decryptMessage G (content msg) key with
           | Ok text => setContent text processedMsg
           | Err _ => setContent "[Encrypted message - decryption failed]" processedMsg
           end
      else processedMsg
  | None => processedMsg
  end.

(** [GET /messages/:id] *)
Definition getMessage (G : Encryption.GcmPrimitive) (now : Z)
    (reqUser : Middleware.ReqUser) (id' : string) (messages : list Message)
  : Outcome * list Message :=
  match findById id' messages with
  | None => (Threw (appError "Message not found" 404 "MESSAGE_NOT_FOUND"), messages)
  | Some (at_, message) =>
      let employeeId' := Middleware.employeeId reqUser in
      if decide (senderId message ≠ employeeId' ∧ recipientId message ≠ employeeId')
      then (Threw (appError "Access denied" 403 "MESSAGE_ACCESS_DENIED"), messages)
      else
        let '(message, messages) :=
          if bool_decide (recipientId message = employeeId')
             && bool_decide (readAt message = None)
          then
            let message := markRead now message in
            (message, (updateMessage message (<[at_ := message]> messages)).1)
          else (message, messages) in
        (Replied 200
           (Auth.success None
              (Some [("message", JObj (forReader G employeeId' message))])),
         messages)
  end.

(** [PUT /messages/:id/read] *)
Definition putRead (now : Z) (reqUser : Middleware.ReqUser) (id' : string)
    (messages : list Message) : Outcome * list Message :=
  match findById id' messages with
  | None => (Threw (appError "Message not found" 404 "MESSAGE_NOT_FOUND"), messages)
  | Some (at_, message) =>
      if decide (recipientId message ≠ Middleware.employeeId reqUser)
      then (Threw (appError "Access denied" 403 "MESSAGE_ACCESS_DENIED"), messages)
      else if bool_decide (readAt message ≠ None)
      then (Threw (appError "Message already marked as read" 400 "MESSAGE_ALREADY_READ"),
            messages)
      else
        let message := markRead now message in
        (Replied 200 (Auth.success (Some "Message marked as read") None),
         (updateMessage message (<[at_ := message]> messages)).1)
  end.

(** [DELETE /messages/:id] *)
Definition deleteRoute (now : Z) (reqUser : Middleware.ReqUser) (id' : string)
    (messages : list Message) : Outcome * list Message :=
  match findMessageById id' messages with
  | None => (Threw (appError "Message not found" 404 "MESSAGE_NOT_FOUND"), messages)
  | Some message =>
      if decide (senderId message ≠ Middleware.employeeId reqUser)
      then (Threw (appError "Access denied. Only message sender can delete." 403
                     "DELETE_ACCESS_DENIED"),
            messages)
      else
        let messageAge := now - createdAt message in
        let maxDeleteTime := 5 * 60 * 1000 in
        if bool_decide (readAt message ≠ None) && bool_decide (messageAge > maxDeleteTime)
        then (Threw (appError "Cannot delete read message after 5 minutes" 400
                       "DELETE_TIME_EXPIRED"),
              messages)
        else
          let '(messages, deleted) := deleteMessage id' messages in
          if negb deleted
          then (Threw (appError "Failed to delete message" 500 "DELETE_FAILED"), messages)
          else (Replied 200 (Auth.success (Some "Message deleted successfully") None),
                messages)
  end.

(** [GET /messages/flight/:flightNumber], before sorting and pagination: the
    flight's messages as the response shows them.  The route is open to the
    roles pilot, co-pilot and dispatcher. *)
Definition flightMessages (flightNumber' : string) (messages : list Message)
  : list JsObject :=
  (λ msg,
     let processedMsg := omit ["encryptionKey"; "originalContent"] (toObject msg) in
     if isEncrypted msg then setContent "[Encrypted Message]" processedMsg
     else processedMsg)
  <$> findMessagesByFlight flightNumber' messages.

(** [findMessagesByUser(employeeId, type)] *)
Definition findMessagesByUser (employeeId' type : string) (messages : list Message)
  : list Message :=
  if decide (type = "sent")
  then filter (λ message, senderId message = employeeId') messages
  else if decide (type = "received")
  then filter (λ message, recipientId message = employeeId') messages
  else filter (λ message, senderId message = employeeId'
                          ∨ recipientId message = employeeId') messages.

(** [message.recipientId === employeeId && !message.readAt] *)
Definition unreadFor (employeeId' : string) (message : Message) : Prop :=
  recipientId message = employeeId' ∧ readAt message = None.

#[global] Instance unreadFor_dec employeeId' message : Decision (unreadFor employeeId' message).
Proof. unfold unreadFor. apply _. Defined.

(** [getUnreadCount(employeeId)] *)
Definition getUnreadCount (employeeId' : string) (messages : list Message) : Z :=
  Z.of_nat (length (filter (unreadFor employeeId') messages)).

(** The [priorityCounts] object before the messages are counted. *)
Definition noUnread : gmap string Z :=
  {[ "urgent" := 0; "high" := 0; "normal" := 0; "low" := 0 ]}.

(** [getUnreadByPriority(employeeId)] *)
Definition getUnreadByPriority (employeeId' : string) (messages : list Message)
  : gmap string Z :=
  let unreadMessages := filter (unreadFor employeeId') messages in
  tally priority unreadMessages noUnread.

(** [markAsRead(messageId, employeeId)] *)
Definition markAsRead (now : Z) (messageId employeeId' : string)
    (messages : list Message) : list Message * bool :=
  match findById messageId messages with
  | None => (messages, false)
  | Some (at_, message) =>
      if decide (recipientId message ≠ employeeId') then (messages, false)
      else match readAt message with
           | None =>
               let message := markRead now message in
               updateMessage message (<[at_ := message]> messages)
           | Some _ => (messages, true)
           end
  end.

(** [markMultipleAsRead(messageIds, employeeId)]: the store afterwards and
    [markedCount]. *)
Definition markMultipleAsRead (now : Z) (messageIds : list string) (employeeId' : string)
    (messages : list Message) : list Message * Z :=
  foldl (λ state messageId,
           let '(messages, markedCount) := state in
           let '(messages, marked) := markAsRead now messageId employeeId' messages in
           (messages, if marked then markedCount + 1 else markedCount))
    (messages, 0) messageIds.

(** [getMessagesRequiringAttention(employeeId)] *)
Definition getMessagesRequiringAttention (employeeId' : string) (messages : list Message)
  : list Message :=
  filter (λ message, recipientId message = employeeId' ∧ readAt message = None
                     ∧ (priority message = "urgent" ∨ priority message = "high"))
    messages.

(** [GET /messages/unread/count]: [totalUnread] and [byPriority]. *)
Definition unreadCount (reqUser : Middleware.ReqUser) (messages : list Message)
  : Z * gmap string Z :=
  let unreadMessages :=
    filter (unreadFor (Middleware.employeeId reqUser)) messages in
  (Z.of_nat (length unreadMessages), tally priority unreadMessages noUnread).

(** The query of [GET /messages]. *)
Record ListQuery : Type := {
  queryType : option string;
  queryPriority : option string;
  queryFlightNumber : option string;
  queryCategory : option string;
  queryPage : option Z;
  queryLimit : option Z;
  queryUnreadOnly : option string
}.

(** The [userMessages] of [GET /messages] once the filters are applied. *)
Definition userMessages (employeeId' : string) (query : ListQuery)
    (messages : list Message) : list Message :=
  let type := default "all" (queryType query) in
  let userMessages :=
    if decide (type = "sent")
    then filter (λ msg, senderId msg = employeeId') messages
    else if decide (type = "received")
    then filter (λ msg, recipientId msg = employeeId') messages
    else filter (λ msg, senderId msg = employeeId' ∨ recipientId msg = employeeId')
           messages in
  let userMessages :=
    match Users.truthy (queryPriority query) with
    | Some priority' => filter (λ msg, priority msg = priority') userMessages
    | None => userMessages
    end in
  let userMessages :=
    match Users.truthy (queryFlightNumber query) with
    | Some flightNumber' => filter (λ msg, flightNumber msg = Some flightNumber') userMessages
    | None => userMessages
    end in
  let userMessages :=
    match Users.truthy (queryCategory query) with
    | Some category' => filter (λ msg, category msg = category') userMessages
    | None => userMessages
    end in
  if decide (queryUnreadOnly query = Some "true")
  then filter (unreadFor employeeId') userMessages
  else userMessages.

(** The messages [GET /messages] puts in its response; [sort] stands for
    [Array.prototype.sort] by creation date, newest first. *)
Definition listed (G : Encryption.GcmPrimitive) (sort : list Message → list Message)
    (reqUser : Middleware.ReqUser) (query : ListQuery) (messages : list Message)
  : list JsObject :=
  let employeeId' := Middleware.employeeId reqUser in
  let page' := default 1 (queryPage query) in
  let limit' := default 20 (queryLimit query) in
  let userMessages := sort (userMessages employeeId' query messages) in
  let startIndex := (page' - 1) * limit' in
  let endIndex := startIndex + limit' in
  let paginatedMessages := Encoding.slice userMessages startIndex (Some endIndex) in
  forReader G employeeId' <$> paginatedMessages.

(** [GET /messages/flight/:flightNumber] behind its [requireRole]: the
    middleware's rejection, or the messages the response shows; [sort] stands
    for [Array.prototype.sort] by creation date, newest first. *)
Definition flightRoute (sort : list Message → list Message)
    (reqUser : Middleware.ReqUser) (flightNumber' : string) (page limit : option Z)
    (messages : list Message) : Middleware.Auth + list JsObject :=
  match Middleware.requireRole ["pilot"; "co-pilot"; "dispatcher"] (Some reqUser) with
  | Middleware.Next _ =>
      let page' := default 1 page in
      let limit' := default 20 limit in
      let flightMessages := sort (findMessagesByFlight flightNumber' messages) in
      let startIndex := (page' - 1) * limit' in
      let endIndex := startIndex + limit' in
      let paginatedMessages :=
        Encoding.slice flightMessages startIndex (Some endIndex) in
      inr ((λ msg,
              let processedMsg :=
                omit ["encryptionKey"; "originalContent"] (toObject msg) in
              if isEncrypted msg then setContent "[Encrypted Message]" processedMsg
              else processedMsg)
           <$> paginatedMessages)
  | rejected => inl rejected
  end.

End Messages.

(** ** The documents store ([data/documents.js]) and routes ([routes/documents.js]) *)

Module Documents.

Record LogEntry : Type := {
  action : string;
  employeeId : string;
  name : string;
  timestamp : Z;
  details : string
}.

Record Document : Type := {
  id : string;
  title : string;
  description : string;
  category : string;
  accessLevel : Z;
  flightNumber : option string;
  fileName : string;
  fileSize : Z;
  mimeType : string;
  encryptedContent : string;
  encryptionKey : string;
  uploadedBy : string;
  uploaderName : string;
  uploaderRole : string;
  status : string;
  downloadCount : Z;
  expiresAt : option Z;
  createdAt : Z;
  updatedAt : Z;
  accessLog : list LogEntry
}.

(** Assignments to the properties the code writes. *)
Definition setTitle (v : string) (d : Document) : Document :=
  {| id := id d; title := v; description := description d; category := category d;
     accessLevel := accessLevel d; flightNumber := flightNumber d;
     fileName := fileName d; fileSize := fileSize d; mimeType := mimeType d;
     encryptedContent := encryptedContent d; encryptionKey := encryptionKey d;
     uploadedBy := uploadedBy d; uploaderName := uploaderName d;
     uploaderRole := uploaderRole d; status := status d;
     downloadCount := downloadCount d; expiresAt := expiresAt d;
     createdAt := createdAt d; updatedAt := updatedAt d; accessLog := accessLog d |}.

Definition setDescription (v : string) (d : Document) : Document :=
  {| id := id d; title := title d; description := v; category := category d;
     accessLevel := accessLevel d; flightNumber := flightNumber d;
     fileName := fileName d; fileSize := fileSize d; mimeType := mimeType d;
     encryptedContent := encryptedContent d; encryptionKey := encryptionKey d;
     uploadedBy := uploadedBy d; uploaderName := uploaderName d;
     uploaderRole := uploaderRole d; status := status d;
     downloadCount := downloadCount d; expiresAt := expiresAt d;
     createdAt := createdAt d; updatedAt := updatedAt d; accessLog := accessLog d |}.

Definition setCategory (v : string) (d : Document) : Document :=
  {| id := id d; title := title d; description := description d; category := v;
     accessLevel := accessLevel d; flightNumber := flightNumber d;
     fileName := fileName d; fileSize := fileSize d; mimeType := mimeType d;
     encryptedContent := encryptedContent d; encryptionKey := encryptionKey d;
     uploadedBy := uploadedBy d; uploaderName := uploaderName d;
     uploaderRole := uploaderRole d; status := status d;
     downloadCount := downloadCount d; expiresAt := expiresAt d;
     createdAt := createdAt d; updatedAt := updatedAt d; accessLog := accessLog d |}.

Definition setAccessLevel (v : Z) (d : Document) : Document :=
  {| id := id d; title := title d; description := description d;
     category := category d; accessLevel := v; flightNumber := flightNumber d;
     fileName := fileName d; fileSize := fileSize d; mimeType := mimeType d;
     encryptedContent := encryptedContent d; encryptionKey := encryptionKey d;
     uploadedBy := uploadedBy d; uploaderName := uploaderName d;
     uploaderRole := uploaderRole d; status := status d;
     downloadCount := downloadCount d; expiresAt := expiresAt d;
     createdAt := createdAt d; updatedAt := updatedAt d; accessLog := accessLog d |}.

Definition setFlightNumber (v : option string) (d : Document) : Document :=
  {| id := id d; title := title d; description := description d;
     category := category d; accessLevel := accessLevel d; flightNumber := v;
     fileName := fileName d; fileSize := fileSize d; mimeType := mimeType d;
     encryptedContent := encryptedContent d; encryptionKey := encryptionKey d;
     uploadedBy := uploadedBy d; uploaderName := uploaderName d;
     uploaderRole := uploaderRole d; status := status d;
     downloadCount := downloadCount d; expiresAt := expiresAt d;
     createdAt := createdAt d; updatedAt := updatedAt d; accessLog := accessLog d |}.

Definition setStatus (v : string) (d : Document) : Document :=
  {| id := id d; title := title d; description := description d;
     category := category d; accessLevel := accessLevel d;
     flightNumber := flightNumber d; fileName := fileName d; fileSize := fileSize d;
     mimeType := mimeType d; encryptedContent := encryptedContent d;
     encryptionKey := encryptionKey d; uploadedBy := uploadedBy d;
     uploaderName := uploaderName d; uploaderRole := uploaderRole d; status := v;
     downloadCount := downloadCount d; expiresAt := expiresAt d;
     createdAt := createdAt d; updatedAt := updatedAt d; accessLog := accessLog d |}.

Definition setDownloadCount (v : Z) (d : Document) : Document :=
  {| id := id d; title := title d; description := description d;
     category := category d; accessLevel := accessLevel d;
     flightNumber := flightNumber d; fileName := fileName d; fileSize := fileSize d;
     mimeType := mimeType d; encryptedContent := encryptedContent d;
     encryptionKey := encryptionKey d; uploadedBy := uploadedBy d;
     uploaderName := uploaderName d; uploaderRole := uploaderRole d;
     status := status d; downloadCount := v; expiresAt := expiresAt d;
     createdAt := createdAt d; updatedAt := updatedAt d; accessLog := accessLog d |}.

Definition setExpiresAt (v : option Z) (d : Document) : Document :=
  {| id := id d; title := title d; description := description d;
     category := category d; accessLevel := accessLevel d;
     flightNumber := flightNumber d; fileName := fileName d; fileSize := fileSize d;
     mimeType := mimeType d; encryptedContent := encryptedContent d;
     encryptionKey := encryptionKey d; uploadedBy := uploadedBy d;
     uploaderName := uploaderName d; uploaderRole := uploaderRole d;
     status := status d; downloadCount := downloadCount d; expiresAt := v;
     createdAt := createdAt d; updatedAt := updatedAt d; accessLog := accessLog d |}.

Definition setUpdatedAt (v : Z) (d : Document) : Document :=
  {| id := id d; title := title d; description := description d;
     category := category d; accessLevel := accessLevel d;
     flightNumber := flightNumber d; fileName := fileName d; fileSize := fileSize d;
     mimeType := mimeType d; encryptedContent := encryptedContent d;
     encryptionKey := encryptionKey d; uploadedBy := uploadedBy d;
     uploaderName := uploaderName d; uploaderRole := uploaderRole d;
     status := status d; downloadCount := downloadCount d; expiresAt := expiresAt d;
     createdAt := createdAt d; updatedAt := v; accessLog := accessLog d |}.

Definition setAccessLog (v : list LogEntry) (d : Document) : Document :=
  {| id := id d; title := title d; description := description d;
     category := category d; accessLevel := accessLevel d;
     flightNumber := flightNumber d; fileName := fileName d; fileSize := fileSize d;
     mimeType := mimeType d; encryptedContent := encryptedContent d;
     encryptionKey := encryptionKey d; uploadedBy := uploadedBy d;
     uploaderName := uploaderName d; uploaderRole := uploaderRole d;
     status := status d; downloadCount := downloadCount d; expiresAt := expiresAt d;
     createdAt := createdAt d; updatedAt := updatedAt d; accessLog := v |}.

Definition logObject (e : LogEntry) : JsValue :=
  JObj [("action", JStr (action e)); ("employeeId", JStr (employeeId e));
        ("name", JStr (name e)); ("timestamp", JTime (timestamp e));
        ("details", JStr (details e))].

Definition toObject (d : Document) : JsObject :=
  [("id", JStr (id d)); ("title", JStr (title d));
   ("description", JStr (description d)); ("category", JStr (category d));
   ("accessLevel", JNum (accessLevel d));
   ("flightNumber", optJ JStr (flightNumber d));
   ("fileName", JStr (fileName d)); ("fileSize", JNum (fileSize d));
   ("mimeType", JStr (mimeType d));
   ("encryptedContent", JStr (encryptedContent d));
   ("encryptionKey", JStr (encryptionKey d));
   ("uploadedBy", JStr (uploadedBy d)); ("uploaderName", JStr (uploaderName d));
   ("uploaderRole", JStr (uploaderRole d)); ("status", JStr (status d));
   ("downloadCount", JNum (downloadCount d));
   ("expiresAt", optJ JTime (expiresAt d)); ("createdAt", JTime (createdAt d));
   ("updatedAt", JTime (updatedAt d));
   ("accessLog", JArr (logObject <$> accessLog d))].

(** [const { encryptedContent, encryptionKey, ...docResponse } = doc] *)
Definition docResponse (d : Document) : JsObject :=
  omit ["encryptedContent"; "encryptionKey"] (toObject d).

(** The store the module starts with. *)
Definition initialDocuments : list Document := [
  {| id := "doc-001"; title := "AA1234 Flight Plan";
     description := "Complete flight plan for AA1234 from JFK to LAX";
     category := "flight-plan"; accessLevel := 4; flightNumber := Some "AA1234";
     fileName := "AA1234-flight-plan.pdf"; fileSize := 2458621;
     mimeType := "application/pdf";
     encryptedContent := "encrypted_content_base64_string_here";
     encryptionKey := "encryption_key_base64_here";
     uploadedBy := "AA12349"; uploaderName := "Dispatcher Jennifer Wilson"; uploaderRole := "dispatcher";
     status := "active"; downloadCount := 3; expiresAt := None;
     createdAt := 1705320000000; updatedAt := 1705320000000;
     accessLog :=
       [{| action := "uploaded"; employeeId := "AA12349"; name := "Dispatcher Jennifer Wilson"; timestamp := 1705320000000; details := "Document uploaded" |};
        {| action := "downloaded"; employeeId := "AA12345"; name := "Captain Sarah Johnson"; timestamp := 1705324500000; details := "Document downloaded" |}] |};
  {| id := "doc-002"; title := "Weather Report - Chicago Area";
     description := "Current weather conditions and forecast for Chicago airspace";
     category := "weather"; accessLevel := 1; flightNumber := Some "AA1234";
     fileName := "chicago-weather-report.pdf"; fileSize := 1024576;
     mimeType := "application/pdf";
     encryptedContent := "encrypted_weather_content_base64_string_here";
     encryptionKey := "weather_encryption_key_base64_here";
     uploadedBy := "AA12349"; uploaderName := "Dispatcher Jennifer Wilson"; uploaderRole := "dispatcher";
     status := "active"; downloadCount := 5; expiresAt := Some 1705406400000;
     createdAt := 1705318200000; updatedAt := 1705318200000;
     accessLog :=
       [{| action := "uploaded"; employeeId := "AA12349"; name := "Dispatcher Jennifer Wilson"; timestamp := 1705318200000; details := "Document uploaded" |}] |};
  {| id := "doc-003"; title := "Aircraft Maintenance Log - N123AA";
     description := "Maintenance inspection report for aircraft N123AA";
     category := "maintenance"; accessLevel := 3; flightNumber := Some "AA1234";
     fileName := "N123AA-maintenance-log.xlsx"; fileSize := 512000;
     mimeType := "application/vnd.openxmlformats-officedocument.spreadsheetml.sheet";
     encryptedContent := "encrypted_maintenance_content_base64_string_here";
     encryptionKey := "maintenance_encryption_key_base64_here";
     uploadedBy := "AA12350"; uploaderName := "Maintenance Chief Tom Anderson"; uploaderRole := "maintenance";
     status := "active"; downloadCount := 2; expiresAt := None;
     createdAt := 1705312800000; updatedAt := 1705312800000;
     accessLog :=
       [{| action := "uploaded"; employeeId := "AA12350"; name := "Maintenance Chief Tom Anderson"; timestamp := 1705312800000; details := "Document uploaded" |}] |};
  {| id := "doc-004"; title := "Crew Manifest - AA1234";
     description := "Complete crew assignments and contact information for flight AA1234";
     category := "crew-manifest"; accessLevel := 2; flightNumber := Some "AA1234";
     fileName := "AA1234-crew-manifest.docx"; fileSize := 256000;
     mimeType := "application/vnd.openxmlformats-officedocument.wordprocessingml.document";
     encryptedContent := "encrypted_crew_content_base64_string_here";
     encryptionKey := "crew_encryption_key_base64_here";
     uploadedBy := "AA12348"; uploaderName := "Gate Agent Robert Davis"; uploaderRole := "gate-agent";
     status := "active"; downloadCount := 4; expiresAt := Some 1705449600000;
     createdAt := 1705309200000; updatedAt := 1705309200000;
     accessLog :=
       [{| action := "uploaded"; employeeId := "AA12348"; name := "Gate Agent Robert Davis"; timestamp := 1705309200000; details := "Document uploaded" |}] |};
  {| id := "doc-005"; title := "Safety Briefing - Winter Operations";
     description := "Updated safety procedures for winter weather operations";
     category := "safety"; accessLevel := 1; flightNumber := None;
     fileName := "winter-operations-safety.pdf"; fileSize := 3072000;
     mimeType := "application/pdf";
     encryptedContent := "encrypted_safety_content_base64_string_here";
     encryptionKey := "safety_encryption_key_base64_here";
     uploadedBy := "AA12351"; uploaderName := "Safety Officer Maria Garcia"; uploaderRole := "safety-officer";
     status := "active"; downloadCount := 12; expiresAt := Some 1709251200000;
     createdAt := 1704873600000; updatedAt := 1704873600000;
     accessLog :=
       [{| action := "uploaded"; employeeId := "AA12351"; name := "Safety Officer Maria Garcia"; timestamp := 1704873600000; details := "Document uploaded" |}] |}
].

(** [addDocument(document)] *)
Definition addDocument (document : Document) (documents : list Document)
  : list Document :=
  documents ++ [document].

Definition findById (id' : string) (documents : list Document)
  : option (nat * Document) :=
  list_find (λ d, id d = id') documents.

(** [findDocumentById(id)] *)
Definition findDocumentById (id' : string) (documents : list Document)
  : option Document :=
  snd <$> findById id' documents.

(** [findDocumentsByFlight(flightNumber)] *)
Definition findDocumentsByFlight (flightNumber' : string) (documents : list Document)
  : list Document :=
  filter (λ d, flightNumber d = Some flightNumber' ∧ status d = "active") documents.

(** [updateDocument(updatedDocument)] *)
Definition updateDocument (updatedDocument : Document) (documents : list Document)
  : list Document * bool :=
  match findById (id updatedDocument) documents with
  | Some (index, _) => (<[index := updatedDocument]> documents, true)
  | None => (documents, false)
  end.

(** Assignments to the document found at index [at_], then
    [updateDocument(document)]. *)
Definition writeBack (at_ : nat) (document : Document) (documents : list Document)
  : list Document * bool :=
  updateDocument document (<[at_ := document]> documents).

(** [deleteDocument(id)]: a soft delete. *)
Definition deleteDocument (now : Z) (id' : string) (documents : list Document)
  : list Document * bool :=
  match findById id' documents with
  | Some (at_, document) =>
      let document := setStatus "deleted" document in
      let document := setUpdatedAt now document in
      writeBack at_ document documents
  | None => (documents, false)
  end.

(** [logDocumentAccess(documentId, action, user, details)] *)
Definition logDocumentAccess (now : Z) (documentId action' : string)
    (user : Middleware.ReqUser) (details' : string) (documents : list Document)
  : list Document * bool :=
  match findById documentId documents with
  | None => (documents, false)
  | Some (at_, document) =>
      let logEntry :=
        {| action := action'; employeeId := Middleware.employeeId user;
           name := Middleware.name user; timestamp := now; details := details' |} in
      let document := setAccessLog (accessLog document ++ [logEntry]) document in
      let document := setUpdatedAt now document in
      writeBack at_ document documents
  end.

(** [cleanupExpiredDocuments()]: the store afterwards and the count. *)
Definition isCleanedUp (now : Z) (doc : Document) : bool :=
  match expiresAt doc with
  | Some t => bool_decide (t ≤ now) && bool_decide (status doc = "active")
  | None => false
  end.

Definition cleanupExpiredDocuments (now : Z) (documents : list Document)
  : list Document * Z :=
  ((λ doc, if isCleanedUp now doc
           then setUpdatedAt now (setStatus "expired" doc) else doc) <$> documents,
   Z.of_nat (length (filter (λ doc, isCleanedUp now doc = true) documents))).

(** [s.toLowerCase()] on ASCII letters, and [s.includes(sub)]. *)
Definition lowerChar (c : ascii) : ascii :=
  let n := nat_of_ascii c in
  if (65 <=? n)%nat && (n <=? 90)%nat then ascii_of_nat (n + 32) else c.

Fixpoint toLowerCase (s : string) : string :=
  match s with
  | EmptyString => EmptyString
  | String c rest => String (lowerChar c) (toLowerCase rest)
  end.

Fixpoint startsWith (sub s : string) : bool :=
  match sub, s with
  | EmptyString, _ => true
  | String a sub', String b s' => Ascii.eqb a b && startsWith sub' s'
  | String _ _, EmptyString => false
  end.

Fixpoint includes (sub s : string) : bool :=
  startsWith sub s
  || match s with
     | EmptyString => false
     | String _ s' => includes sub s'
     end.

(** A query parameter is used when it is a non-empty string. *)
Definition given (o : option string) : option string :=
  match o with
  | Some v => if decide (v = "") then None else Some v
  | None => None
  end.

(** [!doc.expiresAt || new Date() < new Date(doc.expiresAt)] *)
Definition notExpiredForList (now : Z) (doc : Document) : bool :=
  match expiresAt doc with
  | Some t => bool_decide (now < t)
  | None => true
  end.

(** [document.expiresAt && new Date() > new Date(document.expiresAt)] *)
Definition isExpired (now : Z) (document : Document) : bool :=
  match expiresAt document with
  | Some t => bool_decide (now > t)
  | None => false
  end.

Record ListQuery : Type := {
  queryCategory : option string;
  queryFlightNumber : option string;
  q : option string;
  page : option Z;
  limit : option Z;
  sortBy : option string;
  sortOrder : option string
}.

(** The first two filters of [GET /documents]: clearance and status, then
    expiry. *)
Definition accessibleDocuments (now : Z) (reqUser : Middleware.ReqUser)
    (documents : list Document) : list Document :=
  let userDocuments :=
    filter (λ doc, accessLevel doc ≤ Middleware.clearanceLevel reqUser
                   ∧ status doc = "active") documents in
  filter (λ doc, notExpiredForList now doc = true) userDocuments.

(** The category, flight and text filters of [GET /documents]. *)
Definition applyFilters (query : ListQuery) (userDocuments : list Document)
  : list Document :=
  let userDocuments :=
    match given (queryCategory query) with
    | Some category' => filter (λ doc, category doc = category') userDocuments
    | None => userDocuments
    end in
  let userDocuments :=
    match given (queryFlightNumber query) with
    | Some flightNumber' =>
        filter (λ doc, flightNumber doc = Some flightNumber') userDocuments
    | None => userDocuments
    end in
  match given (q query) with
  | Some searchQuery =>
      let query' := toLowerCase searchQuery in
      filter (λ doc, (includes query' (toLowerCase (title doc))
                      || includes query' (toLowerCase (description doc))
                      || includes query' (toLowerCase (fileName doc))) = true)
        userDocuments
  | None => userDocuments
  end.

(** [userDocuments.slice(startIndex, endIndex)] *)
Definition paginate {A} (page' limit' : Z) (l : list A) : list A :=
  let startIndex := (page' - 1) * limit' in
  let endIndex := startIndex + limit' in
  Encoding.slice l startIndex (Some endIndex).

(** [Math.ceil(total / limit)] for a positive limit. *)
Definition totalPages (total limit' : Z) : Z := (total + limit' - 1) / limit'.

(** [GET /documents].  [sort sortBy sortOrder] stands for
    [Array.prototype.sort] with the handler's comparator, which compares the
    [sortBy] property of two documents. *)
Definition listRoute (sort : string → string → list Document → list Document) (now : Z)
    (reqUser : Middleware.ReqUser) (query : ListQuery) (documents : list Document)
  : Outcome :=
  let page' := default 1 (page query) in
  let limit' := default 20 (limit query) in
  let sortBy' := default "createdAt" (sortBy query) in
  let sortOrder' := default "desc" (sortOrder query) in
  let userDocuments := accessibleDocuments now reqUser documents in
  let userDocuments := applyFilters query userDocuments in
  let userDocuments := sort sortBy' sortOrder' userDocuments in
  let paginatedDocuments := paginate page' limit' userDocuments in
  let responseDocuments := docResponse <$> paginatedDocuments in
  let totalDocuments := Z.of_nat (length userDocuments) in
  Replied 200
    (Auth.success None
       (Some [("documents", JArr (JObj <$> responseDocuments));
              ("pagination",
               JObj [("currentPage", JNum page');
                     ("totalPages", JNum (totalPages totalDocuments limit'));
                     ("totalDocuments", JNum totalDocuments);
                     ("hasNextPage",
                      JBool (bool_decide (page' < totalPages totalDocuments limit')));
                     ("hasPrevPage", JBool (bool_decide (page' > 1)))])])).

(** The documents [GET /documents] puts in its response. *)
Definition listed (sort : string → string → list Document → list Document) (now : Z)
    (reqUser : Middleware.ReqUser) (query : ListQuery) (documents : list Document)
  : list Document :=
  paginate (default 1 (page query)) (default 20 (limit query))
    (sort (default "createdAt" (sortBy query)) (default "desc" (sortOrder query))
       (applyFilters query (accessibleDocuments now reqUser documents))).

(** The documents [GET /documents/flight/:flightNumber] puts in its
    response; the route is open to the roles pilot, co-pilot,
    flight-attendant and dispatcher. *)
Definition listedForFlight (sort : list Document → list Document) (now : Z)
    (reqUser : Middleware.ReqUser) (flightNumber' : string) (page' limit' : Z)
    (documents : list Document) : list Document :=
  let flightDocuments := findDocumentsByFlight flightNumber' documents in
  let flightDocuments :=
    filter (λ doc, accessLevel doc ≤ Middleware.clearanceLevel reqUser
                   ∧ status doc = "active") flightDocuments in
  let flightDocuments :=
    filter (λ doc, notExpiredForList now doc = true) flightDocuments in
  paginate page' limit' (sort flightDocuments).

Definition logEntry (action' details' : string) (reqUser : Middleware.ReqUser) (now : Z)
  : LogEntry :=
  {| action := action'; employeeId := Middleware.employeeId reqUser;
     name := Middleware.name reqUser; timestamp := now; details := details' |}.

(** [GET /documents/:id] *)
Definition view (now : Z) (reqUser : Middleware.ReqUser) (id' : string)
    (documents : list Document) : Outcome * list Document :=
  match findById id' documents with
  | None => (Threw (appError "Document not found" 404 "DOCUMENT_NOT_FOUND"), documents)
  | Some (at_, document) =>
      if decide (accessLevel document > Middleware.clearanceLevel reqUser)
      then (Threw (appError "Insufficient clearance to access this document" 403
                     "ACCESS_DENIED"),
            documents)
      else if isExpired now document
      then (Threw (appError "Document has expired" 410 "DOCUMENT_EXPIRED"), documents)
      else
        let document :=
          setAccessLog
            (accessLog document
             ++ [logEntry "viewed" "Document details viewed" reqUser now])
            document in
        (Replied 200 (Auth.success None (Some [("document", JObj (docResponse document))])),
         (writeBack at_ document documents).1)
  end.

(** [GET /documents/:id/download] *)
Definition download (G : Encryption.GcmPrimitive) (now : Z)
    (reqUser : Middleware.ReqUser) (id' : string) (documents : list Document)
  : Outcome * list Document :=
  match findById id' documents with
  | None => (Threw (appError "Document not found" 404 "DOCUMENT_NOT_FOUND"), documents)
  | Some (at_, document) =>
      if decide (accessLevel document > Middleware.clearanceLevel reqUser)
      then (Threw (appError "Insufficient clearance to download this document" 403
                     "DOWNLOAD_ACCESS_DENIED"),
            documents)
      else if isExpired now document
      then (Threw (appError "Document has expired" 410 "DOCUMENT_EXPIRED"), documents)
      else
        match Encryption.decryptFile G (encryptedContent document)
                (encryptionKey document) with
        | Err _ =>
            (Threw (appError "Failed to decrypt document" 500 "DECRYPTION_FAILED"),
             documents)
        | Ok decryptedContent =>
            let document := setDownloadCount (downloadCount document + 1) document in
            let document :=
              setAccessLog
                (accessLog document
                 ++ [logEntry "downloaded" "Document downloaded" reqUser now])
                document in
            let document := setUpdatedAt now document in
            (SentFile (mimeType document) (fileName document) decryptedContent,
             (writeBack at_ document documents).1)
        end
  end.

Record UpdateBody : Type := {
  newTitle : option string;
  newDescription : option string;
  newCategory : option string;
  newAccessLevel : option Z;
  newFlightNumber : option (option string);
  newExpiresAt : option (option Z)
}.

(** [PUT /documents/:id].  A property of the body that is [undefined] is
    [None]; for [flightNumber] and [expiresAt], [Some None] is [null]. *)
Definition update (now : Z) (reqUser : Middleware.ReqUser) (id' : string)
    (body : UpdateBody) (documents : list Document) : Outcome * list Document :=
  match findById id' documents with
  | None => (Threw (appError "Document not found" 404 "DOCUMENT_NOT_FOUND"), documents)
  | Some (at_, document) =>
      if decide (uploadedBy document ≠ Middleware.employeeId reqUser
                 ∧ Middleware.clearanceLevel reqUser < 4)
      then (Threw (appError "Insufficient permissions to update this document" 403
                     "UPDATE_ACCESS_DENIED"),
            documents)
      else if match newAccessLevel body with
              | Some level =>
                  bool_decide (level ≠ 0 ∧ level > Middleware.clearanceLevel reqUser)
              | None => false
              end
      then (Threw (appError "Insufficient clearance to set this access level" 403
                     "INSUFFICIENT_CLEARANCE"),
            documents)
      else
        let document :=
          match given (newTitle body) with
          | Some v => setTitle v document | None => document end in
        let document :=
          match newDescription body with
          | Some v => setDescription v document | None => document end in
        let document :=
          match given (newCategory body) with
          | Some v => setCategory v document | None => document end in
        let document :=
          match newAccessLevel body with
          | Some level => if decide (level = 0) then document
                          else setAccessLevel level document
          | None => document end in
        let document :=
          match newFlightNumber body with
          | Some v => setFlightNumber v document | None => document end in
        let document :=
          match newExpiresAt body with
          | Some v => setExpiresAt v document | None => document end in
        let document := setUpdatedAt now document in
        let document :=
          setAccessLog
            (accessLog document
             ++ [logEntry "updated" "Document metadata updated" reqUser now])
            document in
        (Replied 200
           (Auth.success (Some "Document updated successfully")
              (Some [("document", JObj (docResponse document))])),
         (writeBack at_ document documents).1)
  end.

(** [DELETE /documents/:id] *)
Definition deleteRoute (now : Z) (reqUser : Middleware.ReqUser) (id' : string)
    (documents : list Document) : Outcome * list Document :=
  match findById id' documents with
  | None => (Threw (appError "Document not found" 404 "DOCUMENT_NOT_FOUND"), documents)
  | Some (at_, document) =>
      if decide (uploadedBy document ≠ Middleware.employeeId reqUser
                 ∧ Middleware.clearanceLevel reqUser < 5)
      then (Threw (appError "Insufficient permissions to delete this document" 403
                     "DELETE_ACCESS_DENIED"),
            documents)
      else
        let document := setStatus "deleted" document in
        let document := setUpdatedAt now document in
        let document :=
          setAccessLog
            (accessLog document ++ [logEntry "deleted" "Document deleted" reqUser now])
            document in
        (Replied 200 (Auth.success (Some "Document deleted successfully") None),
         (writeBack at_ document documents).1)
  end.

Record UploadFile : Type := {
  buffer : bytes;
  originalname : string;
  size : Z;
  mimetype : string
}.

Record UploadBody : Type := {
  bodyTitle : string;
  bodyDescription : option string;
  bodyCategory : string;
  bodyAccessLevel : Z;
  bodyFlightNumber : option string;
  bodyExpiresAt : option Z
}.

(** The random draws made for one uploaded file: [uuidv4()], and the key and
    IV of [encryptFile]. *)
Record Draw : Type := {
  drawId : string;
  drawKey : bytes;
  drawIV : bytes
}.

(** The loop of [POST /documents] over [req.files]: the store afterwards,
    and the documents uploaded or the error that escaped. *)
Fixpoint uploadEach (G : Encryption.GcmPrimitive) (now : Z)
    (reqUser : Middleware.ReqUser) (body : UploadBody) (several : bool)
    (files : list (UploadFile * Draw)) (documents uploaded : list Document)
  : list Document * Result (list Document) :=
  match files with
  | [] => (documents, Ok uploaded)
  | (file, draw) :: rest =>
      match Encryption.encryptFile G (drawKey draw) (drawIV draw) (buffer file) with
      | Err msg => (documents, Err msg)
      | Ok encrypted =>
          let newDocument :=
            {| id := drawId draw;
               title := if several
                        then bodyTitle body +:+ " - " +:+ originalname file
                        else bodyTitle body;
               description := default "" (bodyDescription body);
               category := bodyCategory body;
               accessLevel := bodyAccessLevel body;
               flightNumber := bodyFlightNumber body;
               fileName := originalname file;
               fileSize := size file;
               mimeType := mimetype file;
               encryptedContent := Encryption.encryptedContent encrypted;
               encryptionKey := Encryption.key encrypted;
               uploadedBy := Middleware.employeeId reqUser;
               uploaderName := Middleware.name reqUser;
               uploaderRole := Middleware.role reqUser;
               status := "active";
               downloadCount := 0;
               expiresAt := bodyExpiresAt body;
               createdAt := now;
               updatedAt := now;
               accessLog := [logEntry "uploaded" "Document uploaded" reqUser now] |} in
          uploadEach G now reqUser body several rest
            (addDocument newDocument documents) (uploaded ++ [newDocument])
      end
  end.

(** [POST /documents] *)
Definition upload (G : Encryption.GcmPrimitive) (now : Z)
    (reqUser : Middleware.ReqUser) (body : UploadBody)
    (files : list (UploadFile * Draw)) (documents : list Document)
  : Outcome * list Document :=
  if decide (length files = 0%nat)
  then (Threw (appError "No files uploaded" 400 "NO_FILES"), documents)
  else if decide (bodyAccessLevel body > Middleware.clearanceLevel reqUser)
  then (Threw (appError "Insufficient clearance to set this access level" 403
                 "INSUFFICIENT_CLEARANCE"),
        documents)
  else
    match uploadEach G now reqUser body (bool_decide (1 < length files)%nat)
            files documents [] with
    | (documents, Err msg) => (Escaped msg, documents)
    | (documents, Ok uploadedDocuments) =>
        (Replied 201
           (Auth.success
              (Some (pretty (Z.of_nat (length uploadedDocuments))
                     +:+ " document(s) uploaded successfully"))
              (Some [("documents", JArr ((λ doc, JObj (docResponse doc)) <$> uploadedDocuments))])),
         documents)
    end.

End Documents.

(** ** The crew directory: [searchUsers] of [data/users.js] and the handlers
    of [routes/crew.js] that read the users store *)

Module Directory.

(** [searchUsers(query)] *)
Definition searchUsers (query : string) (users : list Users.User) : list JsObject :=
  let lowercaseQuery := Documents.toLowerCase query in
  let matchingUsers :=
    filter (λ user,
              Users.isActive user = true
              ∧ (Documents.includes lowercaseQuery
                   (Documents.toLowerCase (Users.name user))
                 || Documents.includes lowercaseQuery
                      (Documents.toLowerCase (Users.employeeId user))) = true)
      users in
  Users.withoutPassword <$> matchingUsers.

(** The query of [GET /crew]; [clearanceLevel] is [parseInt] of the query
    parameter, and [None] when the parameter is absent, empty or not a
    number, which are all falsy. *)
Record CrewQuery : Type := {
  role : option string;
  department : option string;
  airline : option string;
  clearanceLevel : option Z;
  page : option Z;
  limit : option Z;
  sortBy : option string;
  sortOrder : option string
}.

(** The [filters] that [GET /crew] builds from its query. *)
Definition filtersOf (query : CrewQuery) : Users.Filters :=
  {| Users.filterRole := Users.truthy (role query);
     Users.filterDepartment := Users.truthy (department query);
     Users.filterAirline := Users.truthy (airline query);
     Users.filterClearanceLevel := clearanceLevel query |}.

(** The crew members [GET /crew] puts in its response; [sort sortBy
    sortOrder] stands for [Array.prototype.sort] with the handler's
    comparator. *)
Definition listed (sort : string → string → list JsObject → list JsObject)
    (query : CrewQuery) (users : list Users.User) : list JsObject :=
  let crewMembers := Users.getAllUsers (filtersOf query) users in
  let crewMembers :=
    sort (default "name" (sortBy query)) (default "asc" (sortOrder query)) crewMembers in
  Documents.paginate (default 1 (page query)) (default 20 (limit query)) crewMembers.

(** [GET /crew/search]: the error thrown, or the crew members put in the
    response. *)
Definition searched (q : option string) (page' limit' : Z) (users : list Users.User)
  : AppError + list JsObject :=
  match Users.truthy q with
  | None => inl (appError "Search query is required" 400 "SEARCH_QUERY_REQUIRED")
  | Some query => inr (Documents.paginate page' limit' (searchUsers query users))
  end.

(** [GET /crew/:employeeId] *)
Definition getCrewMember (reqUser : Middleware.ReqUser) (employeeId' : string)
    (users : list Users.User) : Outcome :=
  match Users.findUserByEmployeeId employeeId' users with
  | None => Threw (appError "Crew member not found" 404 "CREW_MEMBER_NOT_FOUND")
  | Some crewMember =>
      if negb (Users.isActive crewMember)
      then Threw (appError "Crew member account is inactive" 404 "CREW_MEMBER_INACTIVE")
      else
        let safeCrewMember :=
          omit ["password"; "failedLoginAttempts"; "accountLockedUntil"]
            (Users.toObject crewMember) in
        if decide (Middleware.employeeId reqUser ≠ employeeId'
                   ∧ Middleware.clearanceLevel reqUser < 3)
        then
          let limitedInfo :=
            (λ key, (key, default JNull (getField key safeCrewMember)))
            <$> ["employeeId"; "name"; "role"; "department"; "airline"] in
          Replied 200 (Auth.success None (Some [("crewMember", JObj limitedInfo)]))
        else Replied 200 (Auth.success None (Some [("crewMember", JObj safeCrewMember)]))
  end.

(** [GET /crew/meta/stats], behind [requireClearance(3)]; the outcome is the
    middleware's rejection or the statistics sent. *)
Definition getStats (reqUser : option Middleware.ReqUser) (users : list Users.User)
  : Middleware.Auth + Users.UserStats :=
  match Middleware.requireClearance 3 reqUser with
  | Middleware.Next _ => inr (Users.getUserStats users)
  | rejected => inl rejected
  end.

End Directory.

(** ** Operations on the stores *)

(** The operations that write the users store: the handlers of the
    authentication and crew routes that do, and the administrative functions
    of [data/users.js].  The other handlers only read it. *)
Inductive UserOp : Type :=
| OpRegister (now : Z) (newId salt tokenId : string) (body : Auth.Registration)
| OpLogin (now : Z) (tokenId employeeId password : string)
| OpChangePassword (now : Z) (salt : string) (reqUser : Middleware.ReqUser)
    (currentPassword newPassword : string)
| OpUpdateProfile (now : Z) (reqUser : Middleware.ReqUser) (employeeId : string)
    (name department : option string)
| OpDeleteUser (now : Z) (id : string)
| OpResetUserPassword (now : Z) (salt employeeId newPassword : string)
| OpSetUserLockStatus (now : Z) (employeeId : string) (locked : bool).

Definition runUserOp (B : BcryptLib) (J : Jwt.Lib) (env : Jwt.Env) (op : UserOp)
    (users : list Users.User) : list Users.User :=
  match op with
  | OpRegister now newId salt tokenId body =>
      (Auth.register B J env now newId salt tokenId body users).2
  | OpLogin now tokenId employeeId password =>
      (Auth.login B J env now tokenId employeeId password users).2
  | OpChangePassword now salt reqUser currentPassword newPassword =>
      (Auth.changePassword B now salt reqUser currentPassword newPassword users).2
  | OpUpdateProfile now reqUser employeeId name department =>
      (Crew.updateProfile now reqUser employeeId name department users).2
  | OpDeleteUser now id => (Users.deleteUser now id users).1
  | OpResetUserPassword now salt employeeId newPassword =>
      (Users.resetUserPassword B now salt employeeId newPassword users).1
  | OpSetUserLockStatus now employeeId locked =>
      (Users.setUserLockStatus now employeeId locked users).1
  end.

(** The operations that write the documents store: the handlers of the
    documents routes that do, and the functions of [data/documents.js] that
    change a stored document. *)
Inductive DocumentOp : Type :=
| OpUpload (now : Z) (reqUser : Middleware.ReqUser) (body : Documents.UploadBody)
    (files : list (Documents.UploadFile * Documents.Draw))
| OpView (now : Z) (reqUser : Middleware.ReqUser) (id : string)
| OpDownload (now : Z) (reqUser : Middleware.ReqUser) (id : string)
| OpUpdate (now : Z) (reqUser : Middleware.ReqUser) (id : string)
    (body : Documents.UpdateBody)
| OpDelete (now : Z) (reqUser : Middleware.ReqUser) (id : string)
| OpDeleteDocument (now : Z) (id : string)
| OpLogDocumentAccess (now : Z) (documentId action : string)
    (user : Middleware.ReqUser) (details : string)
| OpCleanupExpiredDocuments (now : Z).

Definition runDocumentOp (G : Encryption.GcmPrimitive) (op : DocumentOp)
    (documents : list Documents.Document) : list Documents.Document :=
  match op with
  | OpUpload now reqUser body files => (Documents.upload G now reqUser body files documents).2
  | OpView now reqUser id => (Documents.view now reqUser id documents).2
  | OpDownload now reqUser id => (Documents.download G now reqUser id documents).2
  | OpUpdate now reqUser id body => (Documents.update now reqUser id body documents).2
  | OpDelete now reqUser id => (Documents.deleteRoute now reqUser id documents).2
  | OpDeleteDocument now id => (Documents.deleteDocument now id documents).1
  | OpLogDocumentAccess now documentId action user details =>
      (Documents.logDocumentAccess now documentId action user details documents).1
  | OpCleanupExpiredDocuments now => (Documents.cleanupExpiredDocuments now documents).1
  end.

(** A run of login attempts for one employee: each attempt is the time, the
    token id drawn and the password presented. *)
Fixpoint loginAttempts (B : BcryptLib) (J : Jwt.Lib) (env : Jwt.Env) (employeeId : string)
    (attempts : list (Z * string * string)) (users : list Users.User)
  : list Outcome * list Users.User :=
  match attempts with
  | [] => ([], users)
  | (now, tokenId, password) :: rest =>
      let '(outcome, users) := Auth.login B J env now tokenId employeeId password users in
      let '(outcomes, users) := loginAttempts B J env employeeId rest users in
      (outcome :: outcomes, users)
  end.

(** ** Instances of the libraries, to evaluate the handlers on data *)

Module Demo.

(** A bcrypt whose hash keeps the password readable. *)
Definition bcrypt : BcryptLib := {|
  bcryptHash password saltRounds salt := "bcrypt:" +:+ password;
  bcryptCompare password hash := String.eqb hash ("bcrypt:" +:+ password)
|}.

(** A token on record: the string, what it carries, and the secret it was
    signed with. *)
Record Issued : Type := {
  token : string;
  payload : Jwt.Payload;
  secret : string;
  iss : string;
  aud : string;
  exp : Z
}.

#[global] Instance payload_eq_dec : EqDecision Jwt.Payload.
Proof. solve_decision. Defined.

(** A jsonwebtoken that knows the tokens of a registry: [verify] checks the
    signature, then the expiry, the audience and the issuer. *)
Definition jwt (issued : list Issued) : Jwt.Lib := {|
  Jwt.sign payload' secret' options now :=
    match list_find (λ t, payload t = payload' ∧ secret t = secret'
                          ∧ iss t = Jwt.issuer options ∧ aud t = Jwt.audience options)
            issued with
    | Some (_, t) => token t
    | None => ""
    end;
  Jwt.verify token' secret' options now :=
    match list_find (λ t, token t = token') issued with
    | None => Jwt.Thrown "JsonWebTokenError" "jwt malformed"
    | Some (_, t) =>
        if decide (secret t ≠ secret')
        then Jwt.Thrown "JsonWebTokenError" "invalid signature"
        else if decide (now `div` 1000 >= exp t)
        then Jwt.Thrown "TokenExpiredError" "jwt expired"
        else if match Jwt.requiredAudience options with
                | Some a => bool_decide (a ≠ aud t)
                | None => false
                end
        then Jwt.Thrown "JsonWebTokenError" "jwt audience invalid"
        else if match Jwt.requiredIssuer options with
                | Some i => bool_decide (i ≠ iss t)
                | None => false
                end
        then Jwt.Thrown "JsonWebTokenError" "jwt issuer invalid"
        else Jwt.Decoded (payload t)
    end;
  Jwt.decodeExp token' := (exp ∘ snd) <$> list_find (λ t, token t = token') issued
|}.

Definition env : Jwt.Env := {|
  Jwt.JWT_SECRET := "access-secret";
  Jwt.JWT_REFRESH_SECRET := Some "refresh-secret";
  Jwt.JWT_EXPIRES_IN := None;
  Jwt.JWT_REFRESH_EXPIRES_IN := None
|}.

(** [Array.prototype.sort] read as leaving the order as it is. *)
Definition keepOrder {A} (sortBy sortOrder : string) (l : list A) : list A := l.

End Demo.

(** * Properties *)

(** ** Encodings *)

Section EncodingFacts.
Import Encoding.

Example hex_encode_ex : hex_encode (list_ascii_of_string "Jz") = "4a7a".
Proof. reflexivity. Qed.

Example split_ex : split_on ":" "ab:cd:" = ["ab"; "cd"; ""].
Proof. reflexivity. Qed.

Example b64_encode_ex : b64_encode (list_ascii_of_string "Many") = "TWFueQ==".
Proof. reflexivity. Qed.

Example b64_decode_ex : b64_decode "TWFueQ==" = list_ascii_of_string "Many".
Proof. reflexivity. Qed.

Example slice_ex : slice [1; 2; 3; 4; 5] 1 (Some (-1)) = [2; 3; 4].
Proof. reflexivity. Qed.

Lemma hex_value_digit b0 b1 b2 b3 :
  hex_value (hex_digit b0 b1 b2 b3) = Some (b0, b1, b2, b3).
Proof. by destruct b0, b1, b2, b3. Qed.

Lemma hex_decode_encode (l : bytes) : hex_decode (hex_encode l) = l.
Proof.
  induction l as [|[b0 b1 b2 b3 b4 b5 b6 b7] l IH]; [done|].
  cbn [hex_encode hex_decode]. rewrite !hex_value_digit. by rewrite IH.
Qed.

(** A string in which the character [c] does not occur. *)
Fixpoint lacks (c : ascii) (s : string) : Prop :=
  match s with
  | EmptyString => True
  | String x rest => x ≠ c ∧ lacks c rest
  end.

Lemma split_on_lacks sep s : lacks sep s → split_on sep s = [s].
Proof.
  induction s as [|x s IH]; simpl; [done|]. intros [Hx Hs].
  rewrite IH by done. by rewrite (proj2 (Ascii.eqb_neq x sep)).
Qed.

Lemma split_on_app sep s1 s2 :
  lacks sep s1 → split_on sep (s1 +:+ String sep s2) = s1 :: split_on sep s2.
Proof.
  induction s1 as [|x s1 IH]; simpl.
  - intros _. by rewrite Ascii.eqb_refl.
  - intros [Hx Hs]. rewrite IH by done.
    by rewrite (proj2 (Ascii.eqb_neq x sep)).
Qed.

Lemma b64_value_char x : b64_value (b64_char x) = Some x.
Proof. by destruct x as [[[[[[] []] []] []] []] []]. Qed.

Lemma b64_char_not_pad x : Ascii.eqb (b64_char x) "=" = false.
Proof. by destruct x as [[[[[[] []] []] []] []] []]. Qed.

Lemma b64_sextets_char x s :
  b64_sextets (String (b64_char x) s) = x :: b64_sextets s.
Proof. cbn [b64_sextets]. by rewrite b64_char_not_pad, b64_value_char. Qed.

(** Induction on a list three elements at a time. *)
Lemma list_ind3 {A} (P : list A → Prop) :
  P [] → (∀ a, P [a]) → (∀ a b, P [a; b]) →
  (∀ a b c l, P l → P (a :: b :: c :: l)) →
  ∀ l, P l.
Proof.
  intros H0 H1 H2 H3 l.
  assert (P l ∧ (∀ a, P (a :: l)) ∧ (∀ a b, P (a :: b :: l))) as [? _]; [|done].
  induction l as [|x l (IH0 & IH1 & IH2)]; [by auto|].
  split_and!; auto.
Qed.

Lemma b64_encode_1 a0 a1 a2 a3 a4 a5 a6 a7 :
  b64_encode [Ascii a0 a1 a2 a3 a4 a5 a6 a7]
  = String (b64_char (a7, a6, a5, a4, a3, a2))
      (String (b64_char (a1, a0, false, false, false, false)) "==").
Proof. reflexivity. Qed.

Lemma b64_encode_2 a0 a1 a2 a3 a4 a5 a6 a7 b0 b1 b2 b3 b4 b5 b6 b7 :
  b64_encode [Ascii a0 a1 a2 a3 a4 a5 a6 a7; Ascii b0 b1 b2 b3 b4 b5 b6 b7]
  = String (b64_char (a7, a6, a5, a4, a3, a2))
      (String (b64_char (a1, a0, b7, b6, b5, b4))
         (String (b64_char (b3, b2, b1, b0, false, false)) "=")).
Proof. reflexivity. Qed.

Lemma b64_encode_3 a0 a1 a2 a3 a4 a5 a6 a7 b0 b1 b2 b3 b4 b5 b6 b7
    c0 c1 c2 c3 c4 c5 c6 c7 rest :
  b64_encode (Ascii a0 a1 a2 a3 a4 a5 a6 a7 :: Ascii b0 b1 b2 b3 b4 b5 b6 b7
              :: Ascii c0 c1 c2 c3 c4 c5 c6 c7 :: rest)
  = String (b64_char (a7, a6, a5, a4, a3, a2))
      (String (b64_char (a1, a0, b7, b6, b5, b4))
         (String (b64_char (b3, b2, b1, b0, c7, c6))
            (String (b64_char (c5, c4, c3, c2, c1, c0)) (b64_encode rest)))).
Proof. reflexivity. Qed.

Lemma b64_decode_encode (l : bytes) : b64_decode (b64_encode l) = l.
Proof.
  unfold b64_decode. induction l as [|a|a b|a b c l IH] using list_ind3.
  - done.
  - destruct a. by rewrite b64_encode_1, !b64_sextets_char.
  - destruct a, b. by rewrite b64_encode_2, !b64_sextets_char.
  - destruct a, b, c. rewrite b64_encode_3, !b64_sextets_char.
    cbn [b64_bytes]. by rewrite IH.
Qed.

End EncodingFacts.

(** ** Encryption: every call that builds a cipher throws *)

Section CipherFacts.
Import Encoding Encryption.
Context (G : GcmPrimitive).

Definition noCipher : string := "crypto.createCipherGCM is not a function".
Definition noDecipher : string := "crypto.createDecipherGCM is not a function".

Lemma encryptMessage_throws rndKey rndIV message :
  encryptMessage G rndKey rndIV message
  = Err ("Message encryption failed: " +:+ noCipher).
Proof. reflexivity. Qed.

Lemma encryptFile_throws rndKey rndIV fileBuffer :
  encryptFile G rndKey rndIV fileBuffer = Err ("File encryption failed: " +:+ noCipher).
Proof. reflexivity. Qed.

(** [decryptMessage] checks the format of its input before it builds the
    decipher. *)
Lemma decryptMessage_throws encryptedMessage keyBase64 :
  decryptMessage G encryptedMessage keyBase64
  = Err ("Message decryption failed: "
         +:+ if decide (length (split_on ":" encryptedMessage) = 3%nat)
             then noDecipher else "Invalid encrypted message format").
Proof.
  unfold decryptMessage.
  destruct (split_on ":" encryptedMessage) as [|p0 [|p1 [|p2 [|p3 rest]]]]; reflexivity.
Qed.

Lemma decryptFile_throws encryptedFileBase64 keyBase64 :
  decryptFile G encryptedFileBase64 keyBase64
  = Err ("File decryption failed: " +:+ noDecipher).
Proof. reflexivity. Qed.

End CipherFacts.

Definition demoKey : list ascii := replicate 32 "k"%char.
Definition demoIV : list ascii := replicate 16 "i"%char.

(** C3.  The round trip stops at its first step.  With a 32-byte key and a
    16-byte IV, [encryptMessage] and [encryptFile] throw on a plaintext
    instead of returning a ciphertext, and [decryptMessage] and
    [decryptFile] throw on a well-formed payload and key: each calls a
    constructor the [crypto] module does not have. *)
Theorem encryption_round_trip_throws :
  length demoKey = Encryption.KEY_LENGTH ∧ length demoIV = Encryption.IV_LENGTH
  ∧ Encryption.encryptMessage Encryption.checksumGcm demoKey demoIV "Cabin secure"
    = Err "Message encryption failed: crypto.createCipherGCM is not a function"
  ∧ Encryption.encryptFile Encryption.checksumGcm demoKey demoIV
      (Encryption.utf8 "Before start checklist")
    = Err "File encryption failed: crypto.createCipherGCM is not a function"
  ∧ Encryption.decryptMessage Encryption.checksumGcm
      "69696969696969696969696969696969:4163606b6c22716761777067:70451000000000000000000000000000"
      "a2tra2tra2tra2tra2tra2tra2tra2tra2tra2tra2s="
    = Err "Message decryption failed: crypto.createDecipherGCM is not a function"
  ∧ Encryption.decryptFile Encryption.checksumGcm
      (Encoding.b64_encode (demoIV ++ Encryption.utf8 "ciphertext" ++ demoIV))
      "a2tra2tra2tra2tra2tra2tra2tra2tra2tra2tra2s="
    = Err "File decryption failed: crypto.createDecipherGCM is not a function".
Proof. by split_and!. Qed.

(** ** The users store: writing a user back *)

Section UserStoreFacts.
Import Users.

Lemma writeBack_shape (users : list User) p u u' :
  users !! p = Some u → id u' = id u →
  ∃ q, (q ≤ p)%nat
       ∧ writeBack p u' users = (<[q := u']> (<[p := u']> users), true)
       ∧ ∀ j y, users !! j = Some y → (j < q)%nat → id y ≠ id u.
Proof.
  intros Hp Hid. unfold writeBack, updateUser, findById.
  assert (p < length users)%nat as Hlen by eauto using lookup_lt_Some.
  destruct (list_find _ (<[p := u']> users)) as [[q x]|] eqn:Hfind.
  - apply list_find_Some in Hfind as (Hq & Hx & Hleast).
    assert (q ≤ p)%nat as Hqp.
    { destruct (decide (q ≤ p)%nat) as [|Hn]; [done|].
      destruct (Hleast p u'); [|lia|done]. by apply list_lookup_insert_eq. }
    exists q. split_and!; [done..|].
    intros j y Hj Hjq Hy. apply (Hleast j y); [|done|congruence].
    by rewrite list_lookup_insert_ne by lia.
  - apply list_find_None in Hfind.
    rewrite Forall_forall in Hfind. destruct (Hfind u'); [|done].
    apply list_elem_of_lookup. exists p. by apply list_lookup_insert_eq.
Qed.

(** The user a handler wrote back is the user found under its employee id
    afterwards. *)
Lemma find_writeBack (users : list User) e p u u' :
  findByEmployeeId e users = Some (p, u) →
  employeeId u' = e → id u' = id u →
  findUserByEmployeeId e (writeBack p u' users).1 = Some u'.
Proof.
  intros (Hp & He & Hleast)%list_find_Some He' Hid.
  destruct (writeBack_shape users p u u' Hp Hid) as (q & Hqp & -> & _).
  assert (p < length users)%nat as Hlen by eauto using lookup_lt_Some.
  unfold findUserByEmployeeId, findByEmployeeId. cbn [fst].
  rewrite (proj2 (list_find_Some _ _ q u')); [done|].
  split_and!; [|done|].
  - apply list_lookup_insert_eq. rewrite length_insert. lia.
  - intros j y Hj Hjq. rewrite !list_lookup_insert_ne in Hj by lia.
    apply (Hleast j y Hj). lia.
Qed.

(** With employee ids that are pairwise distinct, a write for one employee
    changes no other employee's record: whoever is found afterwards is the
    written record or a record that was there unchanged. *)
Lemma find_after_write (users : list User) e0 p q u u' v :
  NoDup (employeeId <$> users) →
  users !! p = Some u → employeeId u' = employeeId u →
  findUserByEmployeeId e0 (<[q := u']> (<[p := u']> users)) = Some v →
  (e0 = employeeId u ∧ v = u')
  ∨ (e0 ≠ employeeId u ∧ findUserByEmployeeId e0 users = Some v).
Proof.
  intros Hnd Hp He. unfold findUserByEmployeeId, findByEmployeeId.
  intros ([j v'] & Hfind & ->)%fmap_Some. cbn [snd].
  apply list_find_Some in Hfind as (Hj & Hv & _).
  apply list_lookup_insert_Some in Hj as [(-> & -> & _)|[Hjq Hj]]; [left; by rewrite <- He|].
  apply list_lookup_insert_Some in Hj as [(-> & -> & _)|[Hjp Hj]]; [left; by rewrite <- He|].
  assert (∀ i y, users !! i = Some y → employeeId y = e0 → i = j) as Huniq.
  { intros i y Hi Hy. eapply (NoDup_lookup _ i j e0 Hnd).
    - by rewrite list_lookup_fmap, Hi; cbn; rewrite Hy.
    - by rewrite list_lookup_fmap, Hj; cbn; rewrite Hv. }
  right. split.
  - intros ->. destruct Hjp. by eapply Huniq.
  - rewrite (proj2 (list_find_Some _ _ j v')); [done|].
    split_and!; [done..|]. intros i y Hi Hij Hy.
    specialize (Huniq i y Hi Hy). lia.
Qed.

End UserStoreFacts.

(** ** Login: the lockout state machine *)

Section LoginFacts.
Import Users.
Context (B : BcryptLib) (J : Jwt.Lib) (env : Jwt.Env).

Definition invalidCredentials : Outcome :=
  Threw (appError "Invalid credentials" 401 "INVALID_CREDENTIALS").

(** The record of a user after a failed credential check at [now]. *)
Definition afterFailure (now : Z) (u : User) : User :=
  let u := setFailedLoginAttempts (failedLoginAttempts u + 1) u in
  let u := if decide (failedLoginAttempts u >= 5)
           then setAccountLockedUntil (Some (now + 30 * 60 * 1000)) u else u in
  setUpdatedAt now u.

(** The record of a user after a successful login at [now]. *)
Definition afterSuccess (now : Z) (u : User) : User :=
  setUpdatedAt now (setLastLoginAt (Some now)
    (setAccountLockedUntil None (setFailedLoginAttempts 0 u))).

Lemma afterFailure_fields now u :
  id (afterFailure now u) = id u
  ∧ employeeId (afterFailure now u) = employeeId u
  ∧ password (afterFailure now u) = password u
  ∧ isActive (afterFailure now u) = isActive u
  ∧ failedLoginAttempts (afterFailure now u) = failedLoginAttempts u + 1
  ∧ accountLockedUntil (afterFailure now u)
    = if decide (failedLoginAttempts u + 1 >= 5)
      then Some (now + 30 * 60 * 1000) else accountLockedUntil u.
Proof. unfold afterFailure. cbn. by case_decide. Qed.

Lemma login_unknown now tokenId e pw users :
  findUserByEmployeeId e users = None →
  Auth.login B J env now tokenId e pw users = (invalidCredentials, users).
Proof.
  unfold findUserByEmployeeId, Auth.login.
  by destruct (findByEmployeeId e users) as [[??]|].
Qed.

Lemma login_locked now tokenId e pw users u :
  findUserByEmployeeId e users = Some u → Auth.isLocked now u = true →
  threwCode (Auth.login B J env now tokenId e pw users).1 = Some "ACCOUNT_LOCKED"
  ∧ (Auth.login B J env now tokenId e pw users).2 = users.
Proof.
  unfold findUserByEmployeeId, Auth.login.
  destruct (findByEmployeeId e users) as [[p u']|]; [|done].
  intros [= ->] ->. done.
Qed.

Lemma login_deactivated now tokenId e pw users u :
  findUserByEmployeeId e users = Some u → Auth.isLocked now u = false →
  isActive u = false →
  threwCode (Auth.login B J env now tokenId e pw users).1 = Some "ACCOUNT_DEACTIVATED"
  ∧ (Auth.login B J env now tokenId e pw users).2 = users.
Proof.
  unfold findUserByEmployeeId, Auth.login.
  destruct (findByEmployeeId e users) as [[p u']|]; [|done].
  intros [= ->] -> ->. done.
Qed.

Lemma login_wrong_password now tokenId e pw users u :
  findUserByEmployeeId e users = Some u → Auth.isLocked now u = false →
  isActive u = true → bcryptCompare B pw (password u) = false →
  (Auth.login B J env now tokenId e pw users).1 = invalidCredentials
  ∧ findUserByEmployeeId e (Auth.login B J env now tokenId e pw users).2
    = Some (afterFailure now u).
Proof.
  unfold findUserByEmployeeId at 1. unfold Auth.login.
  destruct (findByEmployeeId e users) as [[p u']|] eqn:Hfind; [|done].
  intros [= ->] -> -> ->. cbn [negb fst snd]. split; [done|].
  pose proof Hfind as (_ & He & _)%list_find_Some.
  destruct (afterFailure_fields now u) as (Hid & Hemp & _).
  apply (find_writeBack users e p u); [done| |done]. by rewrite Hemp.
Qed.

Lemma login_right_password now tokenId e pw users u :
  findUserByEmployeeId e users = Some u → Auth.isLocked now u = false →
  isActive u = true → bcryptCompare B pw (password u) = true →
  replied (Auth.login B J env now tokenId e pw users).1 = true
  ∧ findUserByEmployeeId e (Auth.login B J env now tokenId e pw users).2
    = Some (afterSuccess now u).
Proof.
  unfold findUserByEmployeeId at 1. unfold Auth.login.
  destruct (findByEmployeeId e users) as [[p u']|] eqn:Hfind; [|done].
  intros [= ->] -> -> ->. cbn [negb].
  destruct (Jwt.generateTokens _ _ _ _ _) as [accessToken refreshToken].
  cbn [fst snd]. split; [done|].
  pose proof Hfind as (_ & He & _)%list_find_Some.
  by apply (find_writeBack users e p u).
Qed.

Lemma loginAttempts_cons e now tokenId pw rest users :
  loginAttempts B J env e ((now, tokenId, pw) :: rest) users
  = ((Auth.login B J env now tokenId e pw users).1
       :: (loginAttempts B J env e rest (Auth.login B J env now tokenId e pw users).2).1,
     (loginAttempts B J env e rest (Auth.login B J env now tokenId e pw users).2).2).
Proof.
  cbn [loginAttempts]. destruct (Auth.login _ _ _ _ _ _ _ _) as [o us]. cbn [fst snd].
  by destruct (loginAttempts _ _ _ _ _ _) as [os us'].
Qed.

Lemma isLocked_later t t' u :
  Auth.isLocked t u = false → t ≤ t' → Auth.isLocked t' u = false.
Proof.
  unfold Auth.isLocked. destruct (accountLockedUntil u); [|done].
  rewrite !bool_decide_eq_false. lia.
Qed.

(** One failed credential check of an unlocked, active account whose counter
    stays below five. *)
Lemma login_failure_step now tokenId e pw users u :
  findUserByEmployeeId e users = Some u → Auth.isLocked now u = false →
  isActive u = true → bcryptCompare B pw (password u) = false →
  let u' := afterFailure now u in
  (Auth.login B J env now tokenId e pw users).1 = invalidCredentials
  ∧ findUserByEmployeeId e (Auth.login B J env now tokenId e pw users).2 = Some u'
  ∧ isActive u' = true ∧ password u' = password u
  ∧ failedLoginAttempts u' = failedLoginAttempts u + 1
  ∧ (failedLoginAttempts u + 1 < 5 → ∀ t, now ≤ t → Auth.isLocked t u' = false)
  ∧ (failedLoginAttempts u + 1 >= 5 → accountLockedUntil u' = Some (now + 30 * 60 * 1000)).
Proof.
  intros Hfind Hlock Hact Hpw u'.
  destruct (login_wrong_password now tokenId e pw users u) as [Ho Hu]; [done..|].
  destruct (afterFailure_fields now u) as (_ & _ & Hp & Ha & Hf & Hl).
  subst u'. split_and!; [done|done|congruence|done|done|..].
  - intros Hlt t Ht. unfold Auth.isLocked. rewrite Hl.
    rewrite decide_False by lia. by apply (isLocked_later now).
  - intros Hge. rewrite Hl. by rewrite decide_True.
Qed.

(** C2.  An active account that is not locked and has no failed attempt on
    record is locked by five failed logins in a row: each of the five is
    answered INVALID_CREDENTIALS, and the fifth sets the lock to thirty
    minutes after it.  Any attempt before that time, with whatever password,
    is answered ACCOUNT_LOCKED and changes nothing; from that time on the
    account is treated as unlocked again, and an attempt is decided by its
    password. *)
Theorem five_failed_logins_lock (users : list User) (e : string) (u : User)
    (t1 t2 t3 t4 t5 : Z) (k1 k2 k3 k4 k5 pw1 pw2 pw3 pw4 pw5 : string) :
  findUserByEmployeeId e users = Some u →
  isActive u = true → failedLoginAttempts u = 0 → Auth.isLocked t1 u = false →
  t1 ≤ t2 ∧ t2 ≤ t3 ∧ t3 ≤ t4 ∧ t4 ≤ t5 →
  Forall (λ pw, bcryptCompare B pw (password u) = false) [pw1; pw2; pw3; pw4; pw5] →
  let run :=
    loginAttempts B J env e
      [(t1, k1, pw1); (t2, k2, pw2); (t3, k3, pw3); (t4, k4, pw4); (t5, k5, pw5)]
      users in
  let lockedUntil := t5 + 30 * 60 * 1000 in
  run.1 = replicate 5 invalidCredentials
  ∧ (∃ u5, findUserByEmployeeId e run.2 = Some u5
           ∧ failedLoginAttempts u5 = 5
           ∧ accountLockedUntil u5 = Some lockedUntil)
  ∧ (∀ t k pw, t < lockedUntil →
       threwCode (Auth.login B J env t k e pw run.2).1 = Some "ACCOUNT_LOCKED"
       ∧ (Auth.login B J env t k e pw run.2).2 = run.2)
  ∧ (∀ t k pw, lockedUntil ≤ t →
       if bcryptCompare B pw (password u)
       then replied (Auth.login B J env t k e pw run.2).1 = true
       else (Auth.login B J env t k e pw run.2).1 = invalidCredentials).
Proof.
  intros Hfind Hact Hzero Hlock (H12 & H23 & H34 & H45) Hpw run lockedUntil.
  apply Forall_cons in Hpw as [Hpw1 Hpw]. apply Forall_cons in Hpw as [Hpw2 Hpw].
  apply Forall_cons in Hpw as [Hpw3 Hpw]. apply Forall_cons in Hpw as [Hpw4 Hpw].
  apply Forall_cons in Hpw as [Hpw5 _].
  destruct (login_failure_step t1 k1 e pw1 users u)
    as (Ho1 & Hf1 & Ha1 & Hp1 & Hc1 & Hl1 & _); [done..|].
  set (users1 := (Auth.login B J env t1 k1 e pw1 users).2) in *.
  set (u1 := afterFailure t1 u) in *.
  destruct (login_failure_step t2 k2 e pw2 users1 u1)
    as (Ho2 & Hf2 & Ha2 & Hp2 & Hc2 & Hl2 & _);
    [done|apply Hl1; lia|done|congruence|].
  set (users2 := (Auth.login B J env t2 k2 e pw2 users1).2) in *.
  set (u2 := afterFailure t2 u1) in *.
  destruct (login_failure_step t3 k3 e pw3 users2 u2)
    as (Ho3 & Hf3 & Ha3 & Hp3 & Hc3 & Hl3 & _);
    [done|apply Hl2; lia|done|congruence|].
  set (users3 := (Auth.login B J env t3 k3 e pw3 users2).2) in *.
  set (u3 := afterFailure t3 u2) in *.
  destruct (login_failure_step t4 k4 e pw4 users3 u3)
    as (Ho4 & Hf4 & Ha4 & Hp4 & Hc4 & Hl4 & _);
    [done|apply Hl3; lia|done|congruence|].
  set (users4 := (Auth.login B J env t4 k4 e pw4 users3).2) in *.
  set (u4 := afterFailure t4 u3) in *.
  destruct (login_failure_step t5 k5 e pw5 users4 u4)
    as (Ho5 & Hf5 & Ha5 & Hp5 & Hc5 & _ & Hl5);
    [done|apply Hl4; lia|done|congruence|].
  set (users5 := (Auth.login B J env t5 k5 e pw5 users4).2) in *.
  set (u5 := afterFailure t5 u4) in *.
  assert (run = (replicate 5 invalidCredentials, users5)) as Hrun.
  { unfold run. rewrite !loginAttempts_cons. cbn [loginAttempts fst snd].
    fold users1. fold users2. fold users3. fold users4. fold users5.
    by rewrite Ho1, Ho2, Ho3, Ho4, Ho5. }
  clearbody run. subst run. cbn [fst snd].
  assert (accountLockedUntil u5 = Some lockedUntil) as Hlocked by (apply Hl5; lia).
  split_and!.
  - done.
  - exists u5. split_and!; [done|lia|done].
  - intros t k pw Ht. apply (login_locked t k e pw users5 u5); [done|].
    unfold Auth.isLocked. rewrite Hlocked. by apply bool_decide_eq_true.
  - intros t k pw Ht.
    assert (Auth.isLocked t u5 = false) as Hunl.
    { unfold Auth.isLocked. rewrite Hlocked. apply bool_decide_eq_false. lia. }
    assert (password u5 = password u) as Hp by congruence.
    destruct (bcryptCompare B pw (password u)) eqn:Hcmp.
    + apply (login_right_password t k e pw users5 u5); congruence.
    + apply (login_wrong_password t k e pw users5 u5); congruence.
Qed.

(** C7, as amended.  [PUT /auth/password] throws INVALID_CURRENT_PASSWORD
    and writes nothing when the current password does not verify; when it
    does, the handler replies, and the user's password is the bcrypt hash of
    the new password while [failedLoginAttempts] and [accountLockedUntil]
    are what they were. *)
Theorem changePassword_keeps_lock_state (users : list User)
    (reqUser : Middleware.ReqUser) (u : User) (now : Z)
    (salt currentPassword newPassword : string) :
  findUserByEmployeeId (Middleware.employeeId reqUser) users = Some u →
  let result := Auth.changePassword B now salt reqUser currentPassword newPassword users in
  if bcryptCompare B currentPassword (password u)
  then replied result.1 = true
       ∧ ∃ u', findUserByEmployeeId (Middleware.employeeId reqUser) result.2 = Some u'
               ∧ password u' = bcryptHash B newPassword 12 salt
               ∧ failedLoginAttempts u' = failedLoginAttempts u
               ∧ accountLockedUntil u' = accountLockedUntil u
  else result
       = (Threw (appError "Current password is incorrect" 400 "INVALID_CURRENT_PASSWORD"),
          users).
Proof.
  unfold findUserByEmployeeId at 1. unfold Auth.changePassword.
  destruct (findByEmployeeId _ users) as [[p u']|] eqn:Hfind; [|done].
  intros [= ->]. cbn zeta.
  destruct (bcryptCompare B currentPassword (password u)); cbn [negb fst snd]; [|done].
  split; [done|].
  pose proof Hfind as (_ & He & _)%list_find_Some.
  eexists. split; [by apply (find_writeBack users _ p u)|done].
Qed.

(** The operations that put a user's counter of failed attempts back to
    zero: a login that succeeds, an administrative password reset, and an
    administrative unlock. *)
Definition resetsCounter (op : UserOp) (users : list User) (e : string) : Prop :=
  match op with
  | OpLogin now tokenId employeeId password =>
      employeeId = e
      ∧ replied (Auth.login B J env now tokenId employeeId password users).1 = true
  | OpResetUserPassword _ _ employeeId _ => employeeId = e
  | OpSetUserLockStatus _ employeeId locked => employeeId = e ∧ locked = false
  | _ => False
  end.

(** What an operation does to the store: nothing, or it appends a user whose
    employee id was free, or it writes a record [u'] over the record [u] it
    found (and over the first record with the same [id]); and a write takes
    a positive counter to zero only in an operation that resets it. *)
Lemma runUserOp_effect (op : UserOp) (users : list User) :
  runUserOp B J env op users = users
  ∨ (∃ new, runUserOp B J env op users = users ++ [new]
            ∧ findUserByEmployeeId (employeeId new) users = None)
  ∨ (∃ p q u u', users !! p = Some u ∧ employeeId u' = employeeId u
                 ∧ runUserOp B J env op users = <[q := u']> (<[p := u']> users)
                 ∧ (0 < failedLoginAttempts u → failedLoginAttempts u' = 0 →
                    resetsCounter op users (employeeId u))).
Proof.
  assert (∀ p u u', users !! p = Some u → id u' = id u →
            ∃ q, (writeBack p u' users).1 = <[q := u']> (<[p := u']> users)) as Hwrite.
  { intros p u u' Hp Hid.
    destruct (writeBack_shape users p u u' Hp Hid) as (q & _ & -> & _). eauto. }
  destruct op as [now newId salt tokenId body|now tokenId e pw
                 |now salt reqUser cur new|now reqUser e nm dept
                 |now i|now salt e new|now e locked]; cbn [runUserOp].
  - unfold Auth.register.
    destruct (findUserByEmployeeId _ users) eqn:Hfind; [by left|].
    destruct (Jwt.generateTokens _ _ _ _ _). right; left. eexists. by split.
  - unfold Auth.login.
    destruct (findByEmployeeId e users) as [[p u]|] eqn:Hfind; [|by left].
    pose proof Hfind as (Hp & He & _)%list_find_Some.
    assert (findUserByEmployeeId e users = Some u) as Hfound
      by (unfold findUserByEmployeeId; by rewrite Hfind).
    destruct (Auth.isLocked now u) eqn:Hl; [by left|].
    destruct (isActive u) eqn:Ha; [|by left].
    destruct (bcryptCompare B pw (password u)) eqn:Hcmp; cbn [negb]; cbn zeta.
    + destruct (Jwt.generateTokens _ _ _ _ _).
      destruct (Hwrite p u (afterSuccess now u) Hp) as [q Hq]; [done|].
      right; right. exists p, q, u, (afterSuccess now u). split_and!; [done..|].
      intros _ _. cbn [resetsCounter]. split; [done|].
      by destruct (login_right_password now tokenId e pw users u).
    + destruct (Hwrite p u (afterFailure now u) Hp) as [q Hq];
        [by destruct (afterFailure_fields now u)|].
      right; right. exists p, q, u, (afterFailure now u). split_and!; [done| |done|].
      * by destruct (afterFailure_fields now u) as (_ & ? & _).
      * destruct (afterFailure_fields now u) as (_ & _ & _ & _ & Hf & _). lia.
  - unfold Auth.changePassword.
    destruct (findByEmployeeId _ users) as [[p u]|] eqn:Hfind; [|by left].
    pose proof Hfind as (Hp & He & _)%list_find_Some.
    destruct (negb _); [by left|]. cbn zeta.
    match goal with |- context [writeBack p ?x users] => set (u' := x) end.
    destruct (Hwrite p u u' Hp) as [q Hq]; [done|].
    right; right. exists p, q, u, u'. split_and!; [done..|].
    subst u'; cbn. lia.
  - unfold Crew.updateProfile. case_decide; [by left|].
    destruct (findByEmployeeId _ users) as [[p u]|] eqn:Hfind; [|by left].
    pose proof Hfind as (Hp & He & _)%list_find_Some.
    destruct (negb _); [by left|]. cbn zeta.
    match goal with |- context [<[p := ?x]> users] => set (u' := x) end.
    right; right. exists p, p, u, u'. split_and!; [done| | |].
    + subst u'. by repeat case_match.
    + cbn [snd]. by rewrite list_insert_insert_eq.
    + subst u'. repeat case_match; cbn; lia.
  - unfold deleteUser.
    destruct (findById i users) as [[p u]|] eqn:Hfind; [|by left].
    pose proof Hfind as (Hp & He & _)%list_find_Some. cbn zeta.
    match goal with |- context [writeBack p ?x users] => set (u' := x) end.
    destruct (Hwrite p u u' Hp) as [q Hq]; [done|].
    right; right. exists p, q, u, u'. split_and!; [done..|].
    subst u'; cbn. lia.
  - unfold resetUserPassword.
    destruct (findByEmployeeId _ users) as [[p u]|] eqn:Hfind; [|by left].
    pose proof Hfind as (Hp & He & _)%list_find_Some. cbn zeta.
    match goal with |- context [writeBack p ?x users] => set (u' := x) end.
    destruct (Hwrite p u u' Hp) as [q Hq]; [done|].
    right; right. exists p, q, u, u'. split_and!; [done..|].
    intros _ _. by cbn.
  - unfold setUserLockStatus.
    destruct (findByEmployeeId _ users) as [[p u]|] eqn:Hfind; [|by left].
    pose proof Hfind as (Hp & He & _)%list_find_Some. cbn zeta.
    match goal with |- context [writeBack p ?x users] => set (u' := x) end.
    destruct (Hwrite p u u' Hp) as [q Hq]; [by subst u'; destruct locked|].
    right; right. exists p, q, u, u'. split_and!; [done|by subst u'; destruct locked|done|].
    subst u'. destruct locked; cbn; [lia|done].
Qed.

(** C10, as amended.  A positive counter of failed attempts goes to zero only
    through a login that succeeds, an administrative password reset or an
    administrative unlock ([setUserLockStatus] with [locked = false]); the
    lapse of a lock resets nothing.  So an active account whose lock is over
    while its counter is still five or more is locked again, for thirty
    minutes, by one more failed login. *)
Theorem counter_reset_and_relock :
  (∀ (op : UserOp) (users : list User) (e : string) (u u' : User),
     NoDup (employeeId <$> users) →
     findUserByEmployeeId e users = Some u →
     findUserByEmployeeId e (runUserOp B J env op users) = Some u' →
     0 < failedLoginAttempts u → failedLoginAttempts u' = 0 →
     resetsCounter op users e)
  ∧ (∀ (users : list User) (e : string) (u : User) (now : Z) (tokenId pw : string),
       findUserByEmployeeId e users = Some u → isActive u = true →
       failedLoginAttempts u >= 5 → Auth.isLocked now u = false →
       bcryptCompare B pw (password u) = false →
       (Auth.login B J env now tokenId e pw users).1 = invalidCredentials
       ∧ ∃ u', findUserByEmployeeId e (Auth.login B J env now tokenId e pw users).2
               = Some u'
               ∧ failedLoginAttempts u' = failedLoginAttempts u + 1
               ∧ accountLockedUntil u' = Some (now + 30 * 60 * 1000)
               ∧ ∀ t k pw', t < now + 30 * 60 * 1000 →
                   threwCode (Auth.login B J env t k e pw'
                                (Auth.login B J env now tokenId e pw users).2).1
                   = Some "ACCOUNT_LOCKED").
Proof.
  split.
  - intros op users e u0 u0' Hnd Hfind Hfind' Hpos Hzero.
    destruct (runUserOp_effect op users)
      as [Heq|[(new & Heq & Hnew)|(p & q & u & u' & Hp & He & Heq & Hreset)]].
    + rewrite Heq in Hfind'. assert (u0' = u0) by congruence. subst. lia.
    + rewrite Heq in Hfind'. unfold findUserByEmployeeId in *.
      destruct (findByEmployeeId e users) as [[i x]|] eqn:Hf; [|done].
      unfold findByEmployeeId in Hfind'.
      rewrite (list_find_app_l _ _ _ _ _ Hf) in Hfind'.
      cbn in *. assert (u0' = u0) by congruence. subst. lia.
    + rewrite Heq in Hfind'.
      destruct (find_after_write users e p q u u' u0' Hnd Hp He Hfind')
        as [[-> ->]|[_ Hsame]].
      * assert (u0 = u) as ->; [|by apply Hreset].
        unfold findUserByEmployeeId, findByEmployeeId in Hfind.
        apply fmap_Some in Hfind as ([j x] & (Hj & Hx & _)%list_find_Some & ->).
        cbn [snd]. assert (j = p) as ->; [|congruence].
        eapply (NoDup_lookup _ j p (employeeId u) Hnd).
        -- by rewrite list_lookup_fmap, Hj; cbn; rewrite Hx.
        -- by rewrite list_lookup_fmap, Hp.
      * assert (u0' = u0) by congruence. subst. lia.
  - intros users e u now tokenId pw Hfind Hact Hge Hlock Hpw.
    destruct (login_failure_step now tokenId e pw users u)
      as (Ho & Hf & _ & _ & Hc & _ & Hl); [done..|].
    split; [done|]. exists (afterFailure now u).
    split_and!; [done|done|apply Hl; lia|].
    intros t k pw' Ht. eapply login_locked; [done|].
    unfold Auth.isLocked. rewrite Hl by lia. by apply bool_decide_eq_true.
Qed.

End LoginFacts.

(** *** Evaluations on data *)

Section LoginWitnesses.
Import Users.

Definition captain : User :=
  {| id := "user-001"; employeeId := "AA12345";
     password := "$2b$12$LQv3c1yqBWVHxkd0LHAkCOYz6TtxMQJqhN8/LewdBPj6hsbtws5Lm";
     name := "Captain Sarah Johnson"; role := "pilot"; department := "flight-operations";
     clearanceLevel := 5; airline := "American Airlines"; isActive := true;
     createdAt := 1705305600000; updatedAt := 1705305600000; lastLoginAt := None;
     failedLoginAttempts := 0; accountLockedUntil := None |}.

(** The captain of the initial store after three failed logins and a lock
    that an administrator set, with a password [Demo.bcrypt] can check. *)
Definition troubledCaptain : User :=
  setAccountLockedUntil (Some 1705400000000)
    (setFailedLoginAttempts 3 (setPassword "bcrypt:OldPass1!" captain)).

Definition captainClaims : Middleware.ReqUser :=
  {| Middleware.employeeId := "AA12345"; Middleware.name := "Captain Sarah Johnson";
     Middleware.role := "pilot"; Middleware.department := "flight-operations";
     Middleware.clearanceLevel := 5; Middleware.airline := "American Airlines" |}.

Lemma five_failed_logins_lock_witness :
  findUserByEmployeeId "AA12345" initialUsers = Some captain
  ∧ isActive captain = true ∧ failedLoginAttempts captain = 0
  ∧ Auth.isLocked 1705400000000 captain = false
  ∧ (loginAttempts Demo.bcrypt (Demo.jwt []) Demo.env "AA12345"
       [(1705400000000, "t1", "guess1"); (1705400001000, "t2", "guess2");
        (1705400002000, "t3", "guess3"); (1705400003000, "t4", "guess4");
        (1705400004000, "t5", "guess5")] initialUsers).1
    = replicate 5 invalidCredentials.
Proof.
  split; [reflexivity|]. split; [reflexivity|]. split; [reflexivity|].
  split; [reflexivity|].
  refine (proj1 (five_failed_logins_lock Demo.bcrypt (Demo.jwt []) Demo.env
            initialUsers "AA12345" captain
            1705400000000 1705400001000 1705400002000 1705400003000 1705400004000
            "t1" "t2" "t3" "t4" "t5" "guess1" "guess2" "guess3" "guess4" "guess5"
            eq_refl eq_refl eq_refl eq_refl _ _)).
  - repeat split; discriminate.
  - repeat constructor.
Defined.

(** C7: a password change that succeeds for an account with three failed
    attempts and a lock on record leaves both in place. *)
Definition passwordChanged : Outcome * list User :=
  Auth.changePassword Demo.bcrypt 1705399000000 "salt" captainClaims
    "OldPass1!" "NewPass1!" [troubledCaptain].

Lemma changePassword_counterexample :
  replied passwordChanged.1 = true
  ∧ (password <$> findUserByEmployeeId "AA12345" passwordChanged.2)
    = Some "bcrypt:NewPass1!"
  ∧ (failedLoginAttempts <$> findUserByEmployeeId "AA12345" passwordChanged.2) = Some 3
  ∧ (accountLockedUntil <$> findUserByEmployeeId "AA12345" passwordChanged.2)
    = Some (Some 1705400000000).
Proof. vm_compute. done. Qed.

Lemma changePassword_keeps_lock_state_witness :
  findUserByEmployeeId "AA12345" [troubledCaptain] = Some troubledCaptain
  ∧ replied (Auth.changePassword Demo.bcrypt 1705399000000 "salt" captainClaims
               "OldPass1!" "NewPass1!" [troubledCaptain]).1 = true.
Proof.
  split; [reflexivity|].
  exact (proj1 (changePassword_keeps_lock_state Demo.bcrypt [troubledCaptain]
                  captainClaims troubledCaptain 1705399000000 "salt"
                  "OldPass1!" "NewPass1!" eq_refl)).
Defined.

(** C10: an administrative unlock puts the counter back to zero, and it is
    neither a login nor a password reset. *)
Definition adminUnlock : UserOp := OpSetUserLockStatus 1705399000000 "AA12345" false.

Lemma counter_reset_counterexample :
  (failedLoginAttempts <$> findUserByEmployeeId "AA12345" [troubledCaptain]) = Some 3
  ∧ (failedLoginAttempts
       <$> findUserByEmployeeId "AA12345"
             (runUserOp Demo.bcrypt (Demo.jwt []) Demo.env adminUnlock [troubledCaptain]))
    = Some 0
  ∧ (∀ now tokenId e pw, adminUnlock ≠ OpLogin now tokenId e pw)
  ∧ (∀ now salt e pw, adminUnlock ≠ OpResetUserPassword now salt e pw).
Proof. split_and!; [reflexivity|reflexivity|done|done]. Qed.

Lemma counter_reset_and_relock_witness :
  NoDup (employeeId <$> [troubledCaptain])
  ∧ resetsCounter Demo.bcrypt (Demo.jwt []) Demo.env
      (OpSetUserLockStatus 1705399000000 "AA12345" false) [troubledCaptain] "AA12345".
Proof.
  assert (NoDup (employeeId <$> [troubledCaptain])) as Hnd
    by (apply NoDup_singleton).
  split; [exact Hnd|].
  exact (proj1 (counter_reset_and_relock Demo.bcrypt (Demo.jwt []) Demo.env)
           (OpSetUserLockStatus 1705399000000 "AA12345" false) [troubledCaptain]
           "AA12345" troubledCaptain
           (setUpdatedAt 1705399000000
              (setFailedLoginAttempts 0 (setAccountLockedUntil None troubledCaptain)))
           Hnd eq_refl eq_refl ltac:(reflexivity) eq_refl).
Defined.

End LoginWitnesses.

(** ** Token verification and the blacklist *)

Section TokenFacts.
Context (J : Jwt.Lib) (env : Jwt.Env).

Lemma isTokenBlacklisted_true now (bl : option (gmap string Z)) token :
  (Jwt.isTokenBlacklisted now bl token).1 = true
  ↔ ∃ m expiry, bl = Some m ∧ m !! token = Some expiry ∧ now ≤ expiry.
Proof.
  unfold Jwt.isTokenBlacklisted. split.
  - destruct bl as [m|]; [|done]. destruct (m !! token) as [expiry|] eqn:Hm; [|done].
    case_decide; [done|]. intros _. exists m, expiry. split_and!; [done..|lia].
  - intros (m & expiry & -> & -> & Hle). by rewrite decide_False by lia.
Qed.

(** The codes [authenticateToken] rejects a request with. *)
Definition rejectionCodes : list string :=
  ["NO_TOKEN"; "USER_NOT_FOUND"; "ACCOUNT_DEACTIVATED"; "TOKEN_EXPIRED";
   "INVALID_TOKEN"; "AUTH_ERROR"].

Lemma authenticateToken_codes users now authHeader status body :
  Middleware.authenticateToken J env users now authHeader = Middleware.Rejected status body →
  ∃ c, getField "code" body = Some (JStr c) ∧ c ∈ rejectionCodes.
Proof.
  unfold Middleware.authenticateToken, Middleware.rejection, rejectionCodes.
  intros H. repeat case_match; simplify_eq; eexists; (split; [reflexivity|]);
    set_solver.
Qed.

(** C1, as amended.  Verification does not consult the blacklist.  For a
    token that [isTokenBlacklisted] reports (it reports exactly the tokens
    with an entry that has not expired), [verifyAccessToken] returns the
    claims when [jwt.verify] accepts the token under the access secret with
    the API's issuer and audience, and otherwise throws the "Invalid access
    token" error carrying [jwt.verify]'s message; [authenticateToken] lets
    the request through as the token's user when [jwt.verify] accepts the
    token and the user exists and is active, and its rejections carry one
    of six codes, none of them for a revoked token. *)
Theorem verification_ignores_blacklist (now : Z) (bl : option (gmap string Z))
    (token : string) (users : list Users.User) :
  (Jwt.isTokenBlacklisted now bl token).1 = true →
  (∃ m expiry, bl = Some m ∧ m !! token = Some expiry ∧ now ≤ expiry)
  ∧ (∀ payload,
       Jwt.verify J token (Jwt.JWT_SECRET env) Jwt.apiOptions now = Jwt.Decoded payload →
       Jwt.verifyAccessToken J env now token = Ok payload)
  ∧ (∀ errorName msg,
       Jwt.verify J token (Jwt.JWT_SECRET env) Jwt.apiOptions now
       = Jwt.Thrown errorName msg →
       Jwt.verifyAccessToken J env now token = Err ("Invalid access token: " +:+ msg))
  ∧ (∀ authHeader payload user,
       Middleware.bearerToken authHeader = Some token →
       Jwt.verify J token (Jwt.JWT_SECRET env) Jwt.noOptions now = Jwt.Decoded payload →
       Users.findUserByEmployeeId (Jwt.employeeId payload) users = Some user →
       Users.isActive user = true →
       ∃ reqUser,
         Middleware.authenticateToken J env users now authHeader = Middleware.Next reqUser
         ∧ Middleware.employeeId reqUser = Users.employeeId user
         ∧ Middleware.clearanceLevel reqUser = Users.clearanceLevel user)
  ∧ (∀ authHeader status body,
       Middleware.authenticateToken J env users now authHeader
       = Middleware.Rejected status body →
       ∃ c, getField "code" body = Some (JStr c) ∧ c ∈ rejectionCodes).
Proof.
  intros Hbl. split_and!.
  - by apply isTokenBlacklisted_true.
  - intros payload Hverify. unfold Jwt.verifyAccessToken. by rewrite Hverify.
  - intros errorName msg Hverify. unfold Jwt.verifyAccessToken. by rewrite Hverify.
  - intros authHeader payload user Hbearer Hverify Hfind Hact.
    unfold Middleware.authenticateToken. rewrite Hbearer, Hverify, Hfind, Hact.
    cbn [negb]. by eexists.
  - intros authHeader status body. apply authenticateToken_codes.
Qed.

End TokenFacts.

Section TokenWitnesses.

Definition captainToken : Demo.Issued := {|
  Demo.token := "header.captain.signature";
  Demo.payload :=
    {| Jwt.employeeId := "AA12345"; Jwt.name := Some "Captain Sarah Johnson";
       Jwt.role := Some "pilot"; Jwt.department := Some "flight-operations";
       Jwt.clearanceLevel := Some 5; Jwt.airline := Some "American Airlines";
       Jwt.type := None; Jwt.tokenId := None |};
  Demo.secret := "access-secret";
  Demo.iss := "aviation-crew-api";
  Demo.aud := "aviation-crew";
  Demo.exp := 1705400900
|}.

(** The captain's token, put on the blacklist until its own expiry. *)
Definition revoked : option (gmap string Z) :=
  Jwt.blacklistToken (Demo.jwt [captainToken]) 1705400000000 None
    "header.captain.signature" None.

(** C1: a token with a valid signature that is on the blacklist and has not
    expired is accepted by [verifyAccessToken] and by [authenticateToken]. *)
Lemma verification_counterexample :
  (Jwt.isTokenBlacklisted 1705400060000 revoked "header.captain.signature").1 = true
  ∧ Jwt.verifyAccessToken (Demo.jwt [captainToken]) Demo.env 1705400060000
      "header.captain.signature"
    = Ok (Demo.payload captainToken)
  ∧ Middleware.authenticateToken (Demo.jwt [captainToken]) Demo.env Users.initialUsers
      1705400060000 (Some "Bearer header.captain.signature")
    = Middleware.Next captainClaims.
Proof. split_and!; by vm_compute. Qed.

Lemma verification_ignores_blacklist_witness :
  (Jwt.isTokenBlacklisted 1705400060000 revoked "header.captain.signature").1 = true
  ∧ ∃ m expiry, revoked = Some m ∧ m !! "header.captain.signature" = Some expiry
                ∧ 1705400060000 ≤ expiry.
Proof.
  assert ((Jwt.isTokenBlacklisted 1705400060000 revoked "header.captain.signature").1
          = true) as Hbl by (by vm_compute).
  split; [exact Hbl|].
  exact (proj1 (verification_ignores_blacklist (Demo.jwt [captainToken]) Demo.env
                  1705400060000 revoked "header.captain.signature" Users.initialUsers
                  Hbl)).
Defined.

End TokenWitnesses.

(** ** Messages: reading, deleting and what is stored *)

Section JsonFacts.

Lemma getField_omit (key : string) (keys : list string) (o : JsObject) :
  getField key (omit keys o) = if decide (key ∈ keys) then None else getField key o.
Proof.
  unfold omit. induction o as [|[k v] o IH]; [by case_decide|].
  rewrite filter_cons. cbn [fst]. destruct (decide (k ∉ keys)) as [Hk|Hk].
  - cbn [getField]. rewrite IH.
    destruct (String.eqb_spec k key) as [->|]; [by rewrite decide_False|done].
  - rewrite IH. cbn [getField].
    destruct (String.eqb_spec k key) as [->|]; [|done].
    destruct (decide (key ∈ keys)); [done|]. by destruct Hk.
Qed.

Lemma getField_setContent_ne (key value : string) (o : JsObject) :
  getField key o = None → getField key (Messages.setContent value o) = None.
Proof.
  unfold Messages.setContent. induction o as [|[k v] o IH]; [done|].
  cbn [getField fmap list_fmap fst]. intros H.
  destruct (String.eqb_spec k key) as [->|Hne]; [done|].
  destruct (String.eqb k "content"); cbn [fst getField];
    rewrite (proj2 (String.eqb_neq k key)) by done; by apply IH.
Qed.

End JsonFacts.

Section MessageFacts.
Import Messages.
Context (G : Encryption.GcmPrimitive).

Definition accessDenied : AppError := appError "Access denied" 403 "MESSAGE_ACCESS_DENIED".

(** C5.  A requester who is neither the sender nor the recipient of a
    message gets MESSAGE_ACCESS_DENIED from [GET /messages/:id], whatever the
    clearance level in the claims, and the store is left as it was; the
    handler replies exactly when the requester is the sender or the
    recipient. *)
Theorem read_only_by_sender_or_recipient (now : Z) (reqUser : Middleware.ReqUser)
    (id' : string) (messages : list Message) (m : Message) :
  findMessageById id' messages = Some m →
  let e := Middleware.employeeId reqUser in
  (senderId m ≠ e ∧ recipientId m ≠ e →
     getMessage G now reqUser id' messages = (Threw accessDenied, messages))
  ∧ (replied (getMessage G now reqUser id' messages).1 = true
     ↔ senderId m = e ∨ recipientId m = e).
Proof.
  intros Hfind e. unfold findMessageById in Hfind. unfold getMessage.
  destruct (findById id' messages) as [[p m']|]; [|done].
  injection Hfind as ->. fold e. case_decide as Hd.
  - split; [done|]. cbn. split; [done|]. intros [?|?]; by destruct Hd.
  - split; [done|].
    destruct (bool_decide (recipientId m = e) && bool_decide (readAt m = None));
      cbn; (split; [intros _|done]);
      destruct (decide (senderId m = e)); auto;
      destruct (decide (recipientId m = e)); auto; by destruct Hd.
Qed.

Definition deleteDenied : AppError :=
  appError "Access denied. Only message sender can delete." 403 "DELETE_ACCESS_DENIED".

Definition deleteExpired : AppError :=
  appError "Cannot delete read message after 5 minutes" 400 "DELETE_TIME_EXPIRED".

Definition deleteDone : Outcome :=
  Replied 200 (Auth.success (Some "Message deleted successfully") None).

(** C6, as amended.  Only the sender of a message may delete it: anyone
    else gets DELETE_ACCESS_DENIED.  The sender deletes an unread message at
    any time; a message that has been read is deleted only while its age,
    counted from its creation, is at most five minutes, and later the
    sender gets DELETE_TIME_EXPIRED.  A delete that succeeds removes the
    record from the store; one that fails leaves the store as it was. *)
Theorem delete_by_sender_within_age (now : Z) (reqUser : Middleware.ReqUser)
    (id' : string) (messages : list Message) (at_ : nat) (m : Message) :
  findById id' messages = Some (at_, m) →
  let e := Middleware.employeeId reqUser in
  let result := deleteRoute now reqUser id' messages in
  (senderId m ≠ e → result = (Threw deleteDenied, messages))
  ∧ (senderId m = e → readAt m = None → result = (deleteDone, delete at_ messages))
  ∧ (senderId m = e → now - createdAt m ≤ 5 * 60 * 1000 →
       result = (deleteDone, delete at_ messages))
  ∧ (senderId m = e → readAt m ≠ None → now - createdAt m > 5 * 60 * 1000 →
       result = (Threw deleteExpired, messages)).
Proof.
  intros Hfind e result. subst result. unfold deleteRoute, findMessageById, deleteMessage.
  rewrite Hfind. cbn [fmap option_fmap option_map snd]. fold e.
  split_and!.
  - intros Hs. by rewrite decide_True.
  - intros Hs Hr. rewrite decide_False by (by intros ?). rewrite Hr. done.
  - intros Hs Hage. rewrite decide_False by (by intros ?).
    rewrite (bool_decide_eq_false_2 (now - createdAt m > 5 * 60 * 1000)) by lia.
    by rewrite andb_false_r.
  - intros Hs Hr Hage. rewrite decide_False by (by intros ?).
    by rewrite !bool_decide_eq_true_2.
Qed.

End MessageFacts.

Section MessageWitnesses.
Import Messages.

Definition weatherUpdate : Message :=
  {| id := "msg-001"; senderId := "AA12345"; senderName := "Captain Sarah Johnson";
     senderRole := "pilot"; recipientId := "AA12346";
     recipientName := "First Officer Mike Chen"; recipientRole := "co-pilot";
     content := "Weather update for flight AA1234 - expect turbulence over Chicago area around 2:30 PM EST.";
     originalContent := "Weather update for flight AA1234 - expect turbulence over Chicago area around 2:30 PM EST.";
     isEncrypted := false; encryptionKey := None; priority := "high";
     category := "weather"; flightNumber := Some "AA1234"; status := "sent";
     readAt := Some 1705328100000; createdAt := 1705327800000;
     updatedAt := 1705328100000 |}.

Definition dispatcherClaims : Middleware.ReqUser :=
  {| Middleware.employeeId := "AA12349"; Middleware.name := "Dispatcher Jennifer Wilson";
     Middleware.role := "dispatcher"; Middleware.department := "dispatch";
     Middleware.clearanceLevel := 4; Middleware.airline := "American Airlines" |}.

Lemma read_only_by_sender_or_recipient_witness :
  findMessageById "msg-001" initialMessages = Some weatherUpdate
  ∧ senderId weatherUpdate ≠ "AA12349" ∧ recipientId weatherUpdate ≠ "AA12349"
  ∧ getMessage Encryption.checksumGcm 1705400000000 dispatcherClaims "msg-001"
      initialMessages
    = (Threw accessDenied, initialMessages).
Proof.
  split; [reflexivity|]. split; [discriminate|]. split; [discriminate|].
  apply (proj1 (read_only_by_sender_or_recipient Encryption.checksumGcm 1705400000000
                  dispatcherClaims "msg-001" initialMessages weatherUpdate eq_refl)).
  split; discriminate.
Defined.

(** C6: one minute after the message was read, six minutes after it was
    created, its sender can no longer delete it. *)
Lemma delete_window_counterexample :
  findMessageById "msg-001" initialMessages = Some weatherUpdate
  ∧ senderId weatherUpdate = Middleware.employeeId captainClaims
  ∧ readAt weatherUpdate = Some 1705328100000
  ∧ 1705328160000 - 1705328100000 ≤ 5 * 60 * 1000
  ∧ deleteRoute 1705328160000 captainClaims "msg-001" initialMessages
    = (Threw deleteExpired, initialMessages).
Proof. split_and!; by vm_compute. Qed.

Lemma delete_by_sender_within_age_witness :
  findById "msg-001" initialMessages = Some (0%nat, weatherUpdate)
  ∧ senderId weatherUpdate ≠ "AA12349"
  ∧ deleteRoute 1705328160000 dispatcherClaims "msg-001" initialMessages
    = (Threw deleteDenied, initialMessages)
  ∧ senderId weatherUpdate = "AA12345"
  ∧ 1705328040000 - createdAt weatherUpdate ≤ 5 * 60 * 1000
  ∧ deleteRoute 1705328040000 captainClaims "msg-001" initialMessages
    = (deleteDone, delete 0%nat initialMessages).
Proof.
  split; [reflexivity|]. split; [discriminate|]. split.
  { apply (proj1 (delete_by_sender_within_age 1705328160000 dispatcherClaims "msg-001"
                    initialMessages 0 weatherUpdate eq_refl)).
    discriminate. }
  split; [reflexivity|]. split; [by vm_compute|].
  apply (proj1 (proj2 (proj2 (delete_by_sender_within_age 1705328040000 captainClaims
                                "msg-001" initialMessages 0 weatherUpdate eq_refl))));
    [reflexivity|by vm_compute].
Defined.

Definition firstOfficer : Users.User :=
  {| Users.id := "user-002"; Users.employeeId := "AA12346";
     Users.password := "$2b$12$LQv3c1yqBWVHxkd0LHAkCOYz6TtxMQJqhN8/LewdBPj6hsbtws5Lm";
     Users.name := "First Officer Mike Chen"; Users.role := "co-pilot";
     Users.department := "flight-operations"; Users.clearanceLevel := 4;
     Users.airline := "American Airlines"; Users.isActive := true;
     Users.createdAt := 1705307400000; Users.updatedAt := 1705307400000;
     Users.lastLoginAt := None; Users.failedLoginAttempts := 0;
     Users.accountLockedUntil := None |}.

Definition encryptedNote : SendBody :=
  {| bodyRecipientId := "AA12346"; bodyContent := "Cabin secure";
     bodyPriority := None; bodyIsEncrypted := None; bodyFlightNumber := None;
     bodyCategory := None |}.

(** C9.  [POST /messages] with [isEncrypted] true (the default when the
    body leaves it out), to a recipient who exists and is active, with a
    32-byte key drawn: [encryptMessage] throws before the record is built,
    the error escapes the handler, and the store is as it was.  No record is
    persisted. *)
Theorem encrypted_send_persists_nothing :
  default true (bodyIsEncrypted encryptedNote) = true
  ∧ Users.findUserByEmployeeId "AA12346" Users.initialUsers = Some firstOfficer
  ∧ Users.isActive firstOfficer = true
  ∧ length demoKey = Encryption.KEY_LENGTH
  ∧ send Encryption.checksumGcm 1705400000000 "msg-005" demoKey demoIV captainClaims
      encryptedNote Users.initialUsers initialMessages
    = (Escaped "Message encryption failed: crypto.createCipherGCM is not a function",
       initialMessages).
Proof. by split_and!. Qed.

End MessageWitnesses.

(** ** Documents: the store under the handlers *)

Section DocumentStoreFacts.
Import Documents.

(** Writing back the document found under [id'] replaces it where it was. *)
Lemma document_writeBack (documents : list Document) id' p d d' :
  findById id' documents = Some (p, d) → id d' = id d →
  writeBack p d' documents = (<[p := d']> documents, true).
Proof.
  intros (Hp & Hid & Hleast)%list_find_Some Hd'.
  unfold writeBack, updateDocument, findById.
  rewrite (proj2 (list_find_Some _ _ p d')).
  - by rewrite list_insert_insert_eq.
  - split_and!.
    + apply list_lookup_insert_eq. eauto using lookup_lt_Some.
    + done.
    + intros j y Hj Hjp. rewrite list_lookup_insert_ne in Hj by lia.
      rewrite Hd', Hid. by apply (Hleast j y).
Qed.

(** [keeps documents documents']: every record of [documents] is still at
    its index in [documents'], with its id and its encrypted content and
    key, and deleted if it was deleted. *)
Definition keeps (documents documents' : list Document) : Prop :=
  ∀ i d, documents !! i = Some d →
    ∃ d', documents' !! i = Some d'
          ∧ id d' = id d
          ∧ encryptedContent d' = encryptedContent d
          ∧ encryptionKey d' = encryptionKey d
          ∧ (status d = "deleted" → status d' = "deleted").

Lemma keeps_refl documents : keeps documents documents.
Proof. intros i d Hi. by exists d. Qed.

Lemma keeps_trans l1 l2 l3 : keeps l1 l2 → keeps l2 l3 → keeps l1 l3.
Proof.
  intros H12 H23 i d Hi.
  destruct (H12 i d Hi) as (d2 & Hi2 & Hid2 & Hc2 & Hk2 & Hs2).
  destruct (H23 i d2 Hi2) as (d3 & Hi3 & Hid3 & Hc3 & Hk3 & Hs3).
  exists d3. split_and!; [done|congruence..|auto].
Qed.

Lemma keeps_app documents more : keeps documents (documents ++ more).
Proof. intros i d Hi. exists d. split_and!; try done. by apply lookup_app_l_Some. Qed.

Lemma keeps_insert documents p d d' :
  documents !! p = Some d →
  id d' = id d → encryptedContent d' = encryptedContent d →
  encryptionKey d' = encryptionKey d →
  (status d = "deleted" → status d' = "deleted") →
  keeps documents (<[p := d']> documents).
Proof.
  intros Hp Hid Hc Hk Hs i x Hi. destruct (decide (i = p)) as [->|Hne].
  - assert (x = d) as -> by congruence. exists d'. split_and!; try done.
    apply list_lookup_insert_eq. eauto using lookup_lt_Some.
  - exists x. split_and!; try done. by rewrite list_lookup_insert_ne.
Qed.

Lemma keeps_writeBack documents id' p d d' :
  findById id' documents = Some (p, d) →
  id d' = id d → encryptedContent d' = encryptedContent d →
  encryptionKey d' = encryptionKey d →
  (status d = "deleted" → status d' = "deleted") →
  keeps documents (writeBack p d' documents).1.
Proof.
  intros Hfind Hid Hc Hk Hs. rewrite (document_writeBack _ _ _ _ _ Hfind Hid).
  apply list_find_Some in Hfind as (Hp & _). by eapply keeps_insert.
Qed.

Lemma uploadEach_appends G now reqUser body several files documents uploaded :
  ∃ more, (uploadEach G now reqUser body several files documents uploaded).1
          = documents ++ more.
Proof.
  revert documents uploaded. induction files as [|[file draw] rest IH]; intros documents uploaded.
  - exists []. cbn. by rewrite app_nil_r.
  - cbn [uploadEach].
    destruct (Encryption.encryptFile _ _ _ _) as [encrypted|msg].
    + match goal with |- context [uploadEach _ _ _ _ _ rest (addDocument ?d _) ?u] =>
        destruct (IH (addDocument d documents) u) as (more & ->); exists (d :: more)
      end.
      unfold addDocument. by rewrite <- app_assoc.
    + exists []. cbn. by rewrite app_nil_r.
Qed.

(** No operation on the documents store removes or moves a record, changes
    its id or its encrypted content and key, or takes it out of the status
    deleted. *)
Lemma runDocumentOp_keeps G op documents : keeps documents (runDocumentOp G op documents).
Proof.
  destruct op; cbn [runDocumentOp].
  - unfold upload.
    destruct (decide (length files = 0%nat)); [apply keeps_refl|].
    destruct (decide (bodyAccessLevel body > _)); [apply keeps_refl|].
    destruct (uploadEach_appends G now reqUser body
                (bool_decide (1 < length files)%nat) files documents []) as (more & Hmore).
    destruct (uploadEach _ _ _ _ _ _ _ _) as [documents' [uploaded|msg]];
      cbn [fst snd] in *; subst documents'; apply keeps_app.
  - unfold view. destruct (findById _ _) as [[at_ d]|] eqn:Hfind; [|apply keeps_refl].
    repeat case_match; try apply keeps_refl. cbn [snd].
    by eapply keeps_writeBack.
  - unfold download. destruct (findById _ _) as [[at_ d]|] eqn:Hfind; [|apply keeps_refl].
    repeat case_match; try apply keeps_refl. cbn [snd].
    by eapply keeps_writeBack.
  - unfold update. destruct (findById _ _) as [[at_ d]|] eqn:Hfind; [|apply keeps_refl].
    repeat case_match; try apply keeps_refl; cbn [snd];
      by eapply keeps_writeBack.
  - unfold deleteRoute. destruct (findById _ _) as [[at_ d]|] eqn:Hfind; [|apply keeps_refl].
    repeat case_match; try apply keeps_refl. cbn [snd].
    by eapply keeps_writeBack.
  - unfold deleteDocument. destruct (findById _ _) as [[at_ d]|] eqn:Hfind; [|apply keeps_refl].
    by eapply keeps_writeBack.
  - unfold logDocumentAccess.
    destruct (findById _ _) as [[at_ d]|] eqn:Hfind; [|apply keeps_refl].
    by eapply keeps_writeBack.
  - unfold cleanupExpiredDocuments. cbn [fst]. intros i d Hi.
    rewrite list_lookup_fmap, Hi. cbn [fmap option_fmap option_map].
    eexists. split; [reflexivity|]. unfold isCleanedUp.
    destruct (expiresAt d) as [t|]; [|done].
    destruct (bool_decide (t ≤ now)); [|done]. cbn [andb].
    case_bool_decide as Hs; [|done]. split_and!; try done.
    rewrite Hs. discriminate.
Qed.

Lemma runDocumentOps_keeps G ops documents :
  keeps documents (foldl (λ documents op, runDocumentOp G op documents) documents ops).
Proof.
  revert documents. induction ops as [|op ops IH]; intros documents; [apply keeps_refl|].
  cbn [foldl]. eapply keeps_trans; [apply runDocumentOp_keeps|apply IH].
Qed.

End DocumentStoreFacts.

(** ** Deleting documents and messages *)

Section DeletionFacts.
Context (G : Encryption.GcmPrimitive).

Definition documentDeleted : Outcome :=
  Replied 200 (Auth.success (Some "Document deleted successfully") None).

(** C8, as amended.  Deleting a document is a soft delete: the route sets
    the status of the stored record to deleted and leaves the record, with
    its encrypted content and key, where it was; and whatever operations run
    on the documents store afterwards, every record stays at its index with
    its id, its content and its key, and a record that is deleted stays
    deleted.  Deleting a message is not a soft delete: a delete that
    succeeds removes the record from the messages store, which is one
    record shorter and, ids being distinct, has no message of that id; and
    [cleanupOldMessages] keeps only the messages created after the cutoff. *)
Theorem documents_soft_deleted_messages_removed :
  (∀ now reqUser id' documents at_ document,
     Documents.findById id' documents = Some (at_, document) →
     Documents.uploadedBy document = Middleware.employeeId reqUser
     ∨ 5 ≤ Middleware.clearanceLevel reqUser →
     ∃ deleted,
       Documents.deleteRoute now reqUser id' documents
       = (documentDeleted, <[at_ := deleted]> documents)
       ∧ Documents.status deleted = "deleted"
       ∧ Documents.id deleted = id'
       ∧ Documents.encryptedContent deleted = Documents.encryptedContent document
       ∧ Documents.encryptionKey deleted = Documents.encryptionKey document
       ∧ Documents.findById id' (<[at_ := deleted]> documents) = Some (at_, deleted))
  ∧ (∀ ops documents,
       keeps documents
         (foldl (λ documents op, runDocumentOp G op documents) documents ops))
  ∧ (∀ now reqUser id' messages at_ message,
       Messages.findById id' messages = Some (at_, message) →
       replied (Messages.deleteRoute now reqUser id' messages).1 = true →
       (Messages.deleteRoute now reqUser id' messages).2 = delete at_ messages
       ∧ S (length (delete at_ messages)) = length messages
       ∧ (NoDup (Messages.id <$> messages) →
          Messages.findMessageById id' (delete at_ messages) = None))
  ∧ (∀ cutoff messages message,
       message ∈ Messages.cleanupOldMessages cutoff messages
       ↔ message ∈ messages ∧ Messages.createdAt message > cutoff).
Proof.
  split_and!.
  - intros now reqUser id' documents at_ document Hfind Hmay.
    pose proof Hfind as (Hat & Hid & Hleast)%list_find_Some.
    unfold Documents.deleteRoute. rewrite Hfind.
    rewrite decide_False by (intros [? ?]; destruct Hmay; [done|lia]).
    eexists. rewrite (document_writeBack _ _ _ _ _ Hfind) by done. cbn [fst].
    split; [reflexivity|]. split_and!; try done.
    apply list_find_Some. split_and!; [|done|].
    + apply list_lookup_insert_eq. eauto using lookup_lt_Some.
    + intros j y Hj Hlt. rewrite list_lookup_insert_ne in Hj by lia. by apply (Hleast j y).
  - intros ops documents. apply runDocumentOps_keeps.
  - intros now reqUser id' messages at_ message Hfind.
    pose proof Hfind as (Hat & Hid & Hleast)%list_find_Some.
    unfold Messages.deleteRoute, Messages.findMessageById, Messages.deleteMessage.
    rewrite Hfind. cbn [fmap option_fmap option_map snd].
    destruct (decide _); [done|].
    destruct (_ && _); [done|]. cbn [negb fst snd]. intros _.
    split; [done|]. split.
    + rewrite length_delete by eauto. apply lookup_lt_Some in Hat. lia.
    + intros Hnd. unfold Messages.findById.
      rewrite (proj2 (list_find_None _ (delete at_ messages))); [done|].
      apply Forall_lookup. intros j y Hj Hy.
      destruct (decide (j < at_)%nat) as [Hlt|Hge].
      * rewrite list_lookup_delete_lt in Hj by done. by apply (Hleast j y).
      * rewrite list_lookup_delete_ge in Hj by lia.
        assert (S j = at_); [|lia].
        eapply (NoDup_lookup _ (S j) at_ id' Hnd).
        -- by rewrite list_lookup_fmap, Hj; cbn; rewrite Hy.
        -- by rewrite list_lookup_fmap, Hat; cbn; rewrite Hid.
  - intros cutoff messages message. unfold Messages.cleanupOldMessages.
    rewrite list_elem_of_filter. tauto.
Qed.

End DeletionFacts.

Section DeletionWitnesses.

Definition flightPlan : Documents.Document :=
  {| Documents.id := "doc-001"; Documents.title := "AA1234 Flight Plan";
     Documents.description := "Complete flight plan for AA1234 from JFK to LAX";
     Documents.category := "flight-plan"; Documents.accessLevel := 4;
     Documents.flightNumber := Some "AA1234";
     Documents.fileName := "AA1234-flight-plan.pdf"; Documents.fileSize := 2458621;
     Documents.mimeType := "application/pdf";
     Documents.encryptedContent := "encrypted_content_base64_string_here";
     Documents.encryptionKey := "encryption_key_base64_here";
     Documents.uploadedBy := "AA12349";
     Documents.uploaderName := "Dispatcher Jennifer Wilson";
     Documents.uploaderRole := "dispatcher";
     Documents.status := "active"; Documents.downloadCount := 3;
     Documents.expiresAt := None;
     Documents.createdAt := 1705320000000; Documents.updatedAt := 1705320000000;
     Documents.accessLog :=
       [{| Documents.action := "uploaded"; Documents.employeeId := "AA12349";
           Documents.name := "Dispatcher Jennifer Wilson";
           Documents.timestamp := 1705320000000;
           Documents.details := "Document uploaded" |};
        {| Documents.action := "downloaded"; Documents.employeeId := "AA12345";
           Documents.name := "Captain Sarah Johnson";
           Documents.timestamp := 1705324500000;
           Documents.details := "Document downloaded" |}] |}.

(** The dispatcher deletes the unread message msg-002 she sent: the store
    has three messages left and none of that id. *)
Lemma message_delete_counterexample :
  (Messages.id <$> Messages.initialMessages) = ["msg-001"; "msg-002"; "msg-003"; "msg-004"]
  ∧ replied (Messages.deleteRoute 1705400000000 dispatcherClaims "msg-002"
               Messages.initialMessages).1 = true
  ∧ (Messages.id <$> (Messages.deleteRoute 1705400000000 dispatcherClaims "msg-002"
                        Messages.initialMessages).2)
    = ["msg-001"; "msg-003"; "msg-004"]
  ∧ Messages.findMessageById "msg-002"
      (Messages.deleteRoute 1705400000000 dispatcherClaims "msg-002"
         Messages.initialMessages).2 = None.
Proof. split_and!; by vm_compute. Qed.

Lemma documents_soft_deleted_witness :
  Documents.findById "doc-001" Documents.initialDocuments = Some (0%nat, flightPlan)
  ∧ 5 ≤ Middleware.clearanceLevel captainClaims
  ∧ ∃ deleted,
      Documents.deleteRoute 1705400000000 captainClaims "doc-001"
        Documents.initialDocuments
      = (documentDeleted, <[0%nat := deleted]> Documents.initialDocuments)
      ∧ Documents.status deleted = "deleted"
      ∧ Documents.findById "doc-001" (<[0%nat := deleted]> Documents.initialDocuments)
        = Some (0%nat, deleted).
Proof.
  split; [reflexivity|]. split; [by vm_compute|].
  destruct (proj1 (documents_soft_deleted_messages_removed Encryption.checksumGcm)
              1705400000000 captainClaims "doc-001" Documents.initialDocuments
              0%nat flightPlan eq_refl)
    as (deleted & Hroute & Hstatus & _ & _ & _ & Hfind).
  - right. by vm_compute.
  - by exists deleted.
Defined.

End DeletionWitnesses.

(** ** Documents: clearance and expiry on the read paths *)

Section ListingFacts.
Import Documents.






Lemma elem_of_slice {A} (l : list A) start stop x :
  x ∈ Encoding.slice l start stop → x ∈ l.
Proof.
  unfold Encoding.slice. intros H. eapply subseteq_drop, subseteq_take, H.
Qed.

(** The page on which the element at index [i] falls holds it. *)
Lemma paginate_covers {A} (l : list A) (limit' : Z) (i : nat) x :
  1 ≤ limit' → l !! i = Some x →
  x ∈ paginate (Z.of_nat i / limit' + 1) limit' l.
Proof.
  intros Hlimit Hi. pose proof (lookup_lt_Some _ _ _ Hi) as Hlen.
  unfold paginate, Encoding.slice, Encoding.clamp_index.
  replace (Z.of_nat i / limit' + 1 - 1) with (Z.of_nat i / limit') by lia.
  set (s := Z.of_nat i / limit' * limit').
  assert (0 ≤ s ≤ Z.of_nat i ∧ Z.of_nat i < s + limit') as [Hs Hi'].
  { subst s. pose proof (Z.div_mod (Z.of_nat i) limit' ltac:(lia)).
    pose proof (Z.mod_pos_bound (Z.of_nat i) limit' ltac:(lia)).
    assert (0 ≤ Z.of_nat i / limit') by (apply Z.div_pos; lia). nia. }
  rewrite (proj2 (Z.ltb_ge s 0)) by lia.
  rewrite (proj2 (Z.ltb_ge (s + limit') 0)) by lia.
  apply list_elem_of_lookup. exists (i - Z.to_nat s)%nat.
  rewrite lookup_take_lt by lia. rewrite lookup_drop.
  rewrite <- Hi. f_equal. lia.
Qed.

End ListingFacts.

Section DocumentAccessFacts.
Import Documents.
Context (G : Encryption.GcmPrimitive).

(** [Array.prototype.sort] rearranges the array it is given. *)
Context (sort : string → string → list Document → list Document).
Hypothesis sort_rearranges : ∀ sortBy' sortOrder' l, sort sortBy' sortOrder' l ≡ₚ l.


Definition downloadDenied : AppError :=
  appError "Insufficient clearance to download this document" 403
    "DOWNLOAD_ACCESS_DENIED".

Definition decryptionFailed : AppError :=
  appError "Failed to decrypt document" 500 "DECRYPTION_FAILED".




End DocumentAccessFacts.

Section DocumentAccessWitnesses.
Import Documents.


Definition flightAttendantClaims : Middleware.ReqUser :=
  {| Middleware.employeeId := "AA12347"; Middleware.name := "Flight Attendant Lisa Martinez";
     Middleware.role := "flight-attendant"; Middleware.department := "cabin-crew";
     Middleware.clearanceLevel := 2; Middleware.airline := "American Airlines" |}.


End DocumentAccessWitnesses.

(** * Further properties of the utilities and the middleware *)

(** ** Text encryption and HMAC signatures ([utils/encryption.js]) *)

Section TextCipherFacts.
Import Encoding Encryption.
Context (G : GcmPrimitive).

Lemma hex_decode_encode_app (l : bytes) (rest : string) :
  hex_decode (hex_encode l +:+ rest) = l ++ hex_decode rest.
Proof.
  induction l as [|[b0 b1 b2 b3 b4 b5 b6 b7] l IH]; [done|].
  change (hex_encode (Ascii b0 b1 b2 b3 b4 b5 b6 b7 :: l) +:+ rest)
    with (String (hex_digit b4 b5 b6 b7)
            (String (hex_digit b0 b1 b2 b3) (hex_encode l +:+ rest))).
  cbn [hex_decode]. rewrite !hex_value_digit. by rewrite IH.
Qed.

(** X1.  No function of [utils/encryption.js] that builds a cipher returns.
    [encryptText], [encryptMessage] and [encryptFile] throw for every
    plaintext and every key, and [decryptText], [decryptMessage] and
    [decryptFile] for every input, each with its own prefix before the
    message of the [TypeError]; [decryptMessage] reports a bad format
    instead when its input is not three parts separated by colons. *)
Theorem cipher_functions_always_throw :
  (∀ rndKey rndIV text keyBase64,
     encryptText G rndKey rndIV text keyBase64
     = Err "Encryption failed: crypto.createCipherGCM is not a function")
  ∧ (∀ encryptedContent' keyBase64 ivBase64 tagBase64,
       decryptText G encryptedContent' keyBase64 ivBase64 tagBase64
       = Err "Decryption failed: crypto.createDecipherGCM is not a function")
  ∧ (∀ rndKey rndIV message,
       encryptMessage G rndKey rndIV message
       = Err "Message encryption failed: crypto.createCipherGCM is not a function")
  ∧ (∀ encryptedMessage keyBase64,
       decryptMessage G encryptedMessage keyBase64
       = Err (if decide (length (split_on ":" encryptedMessage) = 3%nat)
              then "Message decryption failed: crypto.createDecipherGCM is not a function"
              else "Message decryption failed: Invalid encrypted message format"))
  ∧ (∀ rndKey rndIV fileBuffer,
       encryptFile G rndKey rndIV fileBuffer
       = Err "File encryption failed: crypto.createCipherGCM is not a function")
  ∧ (∀ encryptedFileBase64 keyBase64,
       decryptFile G encryptedFileBase64 keyBase64
       = Err "File decryption failed: crypto.createDecipherGCM is not a function").
Proof.
  split_and!; try reflexivity.
  intros encryptedMessage keyBase64. rewrite decryptMessage_throws. by case_decide.
Qed.

End TextCipherFacts.

Section HmacFacts.
Import Encoding Encryption.
Context (hmac : Hmac).

(** X2.  [verifyHMAC] accepts a signature exactly when the bytes it decodes
    to, as hexadecimal text, are the HMAC of the data: it accepts what
    [generateHMAC] returns, and also that text followed by anything that
    does not start with two hexadecimal digits; when the HMAC cannot be
    computed it accepts nothing. *)
Theorem verifyHMAC_compares_decoded_bytes (data signature secret : string)
    (algorithm : option string) :
  (verifyHMAC hmac data signature secret algorithm = true
   ↔ ∃ digest, hmac (default "sha256" algorithm) secret data = Ok digest
               ∧ hex_decode signature = digest)
  ∧ (∀ expected, generateHMAC hmac data secret algorithm = Ok expected →
       verifyHMAC hmac data expected secret algorithm = true
       ∧ ∀ rest, hex_decode rest = [] →
           verifyHMAC hmac data (expected +:+ rest) secret algorithm = true)
  ∧ (isOk (generateHMAC hmac data secret algorithm) = false →
     verifyHMAC hmac data signature secret algorithm = false).
Proof.
  assert (∀ sig, verifyHMAC hmac data sig secret algorithm = true
                 ↔ ∃ digest, hmac (default "sha256" algorithm) secret data = Ok digest
                             ∧ hex_decode sig = digest) as Hspec.
  { intros sig. unfold verifyHMAC, generateHMAC.
    destruct (hmac _ secret data) as [digest|msg]; cbn.
    - rewrite hex_decode_encode. unfold timingSafeEqual. case_decide as Hlen.
      + rewrite bool_decide_eq_true. split; [by eexists|]. by intros (? & [= <-] & ?).
      + split; [done|]. intros (? & [= <-] & Heq). by rewrite Heq in Hlen.
    - split; [done|]. by intros (? & ? & ?). }
  split_and!.
  - apply Hspec.
  - intros expected Hgen. unfold generateHMAC in Hgen.
    destruct (hmac _ secret data) as [digest|msg] eqn:Hd; [|done].
    cbn in Hgen. injection Hgen as <-. split.
    + apply Hspec. exists digest. split; [done|]. by rewrite hex_decode_encode.
    + intros rest Hrest. apply Hspec. exists digest. split; [done|].
      by rewrite hex_decode_encode_app, Hrest, app_nil_r.
  - unfold verifyHMAC. by destruct (generateHMAC _ _ _ _).
Qed.

End HmacFacts.
(** ** Token utilities ([utils/jwt.js]) and the optional authentication *)

Section HeaderFacts.
Import Encoding.

Lemma lacks_nonempty_split sep s : split_on sep s ≠ [].
Proof. destruct s as [|c s]; simpl; [done|]. by repeat case_match. Qed.

(** X3.  The two readings of the [Authorization] header.  Whenever
    [extractTokenFromHeader] finds a non-empty token, [authenticateToken]
    reads the same token; but the middleware takes the second word of the
    header whatever the first word is and whatever follows, where
    [extractTokenFromHeader] insists on the word [Bearer] and on exactly two
    words. *)
Theorem bearerToken_ignores_scheme :
  (∀ authHeader token,
     Jwt.extractTokenFromHeader authHeader = Some token → token ≠ "" →
     Middleware.bearerToken authHeader = Some token)
  ∧ (∀ scheme token,
       lacks " " scheme → lacks " " token → token ≠ "" →
       Middleware.bearerToken (Some (scheme +:+ " " +:+ token)) = Some token
       ∧ Jwt.extractTokenFromHeader (Some (scheme +:+ " " +:+ token))
         = if decide (scheme = "Bearer") then Some token else None)
  ∧ (∀ scheme token more,
       lacks " " scheme → lacks " " token → token ≠ "" →
       Middleware.bearerToken (Some (scheme +:+ " " +:+ token +:+ " " +:+ more))
       = Some token
       ∧ Jwt.extractTokenFromHeader (Some (scheme +:+ " " +:+ token +:+ " " +:+ more))
         = None).
Proof.
  split_and!.
  - intros [h|] token; [|done]. unfold Jwt.extractTokenFromHeader, Middleware.bearerToken.
    case_decide; [done|].
    destruct (split_on " " h) as [|scheme [|token' [|??]]]; try done.
    case_decide; [|done]. intros [= ->] Hne. cbn. by rewrite decide_False.
  - intros scheme token Hs Ht Hne.
    unfold Jwt.extractTokenFromHeader, Middleware.bearerToken.
    change (scheme +:+ " " +:+ token) with (scheme +:+ String " " token).
    rewrite split_on_app, split_on_lacks by done. cbn.
    rewrite decide_False by done. split; [done|].
    rewrite decide_False; [done|]. by destruct scheme.
  - intros scheme token more Hs Ht Hne.
    unfold Jwt.extractTokenFromHeader, Middleware.bearerToken.
    change (scheme +:+ " " +:+ token +:+ " " +:+ more)
      with (scheme +:+ String " " (token +:+ String " " more)).
    rewrite !split_on_app by done. cbn.
    rewrite decide_False by done. split; [done|].
    rewrite decide_False by (by destruct scheme).
    pose proof (lacks_nonempty_split " " more).
    by destruct (split_on " " more).
Qed.

(** The number of occurrences of a character in a string. *)
Fixpoint occurrences (c : ascii) (s : string) : nat :=
  match s with
  | EmptyString => 0
  | String x rest => (if Ascii.eqb x c then 1 else 0) + occurrences c rest
  end.

Lemma length_split_on sep s : length (split_on sep s) = S (occurrences sep s).
Proof.
  induction s as [|x s IH]; [done|]. cbn [split_on occurrences].
  destruct (Ascii.eqb x sep); cbn [length]; [by rewrite IH|].
  destruct (split_on sep s); cbn in *; [done|lia].
Qed.

(** X5.  [isValidTokenFormat] counts the dots and nothing else: a token is
    accepted exactly when it has two of them, whatever its three parts are
    made of, empty parts included. *)
Theorem isValidTokenFormat_counts_dots (token : string) :
  (Jwt.isValidTokenFormat token = true ↔ occurrences "." token = 2%nat)
  ∧ (∀ header payload signature,
       token = header +:+ "." +:+ payload +:+ "." +:+ signature →
       lacks "." header → lacks "." payload → lacks "." signature →
       Jwt.isValidTokenFormat token = true).
Proof.
  assert (Jwt.isValidTokenFormat token = true ↔ occurrences "." token = 2%nat) as Hiff.
  { unfold Jwt.isValidTokenFormat. rewrite length_split_on.
    case_decide as He; [by subst|]. case_decide; split; (done || lia). }
  split; [done|]. intros header payload signature -> Hh Hp Hs.
  unfold Jwt.isValidTokenFormat.
  change (header +:+ "." +:+ payload +:+ "." +:+ signature)
    with (header +:+ String "." (payload +:+ String "." signature)).
  rewrite !split_on_app, split_on_lacks by done. cbn [length].
  rewrite decide_False by (by destruct header). by rewrite decide_False by (by intros ?).
Qed.

End HeaderFacts.

Section ExpiryFacts.
Context (J : Jwt.Lib).

(** X4.  The remaining time of a token is -1 exactly when the token has no
    (non-zero) [exp] claim, and otherwise the seconds to [exp], at least 0.
    A token that [isTokenExpired] reports has no time remaining; an expired
    token with an [exp] claim reports 0 and not -1; and a token whose [exp]
    is the current second is not expired though it has 0 seconds left. *)
Theorem token_time_remaining (now : Z) (token : string) :
  -1 ≤ Jwt.getTokenTimeRemaining J now token
  ∧ (Jwt.getTokenTimeRemaining J now token = -1 ↔ Jwt.truthyExp J token = None)
  ∧ (Jwt.truthyExp J token = None → Jwt.isTokenExpired J now token = true)
  ∧ (Jwt.isTokenExpired J now token = true → Jwt.getTokenTimeRemaining J now token ≤ 0)
  ∧ (∀ exp, Jwt.truthyExp J token = Some exp →
       (Jwt.isTokenExpired J now token = true ↔ exp < now `div` 1000)
       ∧ (exp ≤ now `div` 1000 → Jwt.getTokenTimeRemaining J now token = 0)
       ∧ (now `div` 1000 < exp →
          Jwt.getTokenTimeRemaining J now token = exp - now `div` 1000)).
Proof.
  unfold Jwt.getTokenTimeRemaining, Jwt.isTokenExpired.
  destruct (Jwt.truthyExp J token) as [exp|]; split_and!; try (done || lia).
  - split; [lia|done].
  - rewrite bool_decide_eq_true. lia.
  - intros ? [= <-]. rewrite bool_decide_eq_true. split_and!; [done|lia..].
Qed.

End ExpiryFacts.
Section BlacklistFacts.
Context (J : Jwt.Lib).
Implicit Types (bl : option (gmap string Z)) (m : gmap string Z).

Lemma cleanupBlacklist_lookup now m token expiry :
  filter (λ kv : string * Z, ¬ now > kv.2) m !! token = Some expiry
  ↔ m !! token = Some expiry ∧ now ≤ expiry.
Proof. rewrite map_lookup_filter_Some. cbn. split; intros [??]; split; (done || lia). Qed.

Lemma isTokenBlacklisted_false now bl token :
  (Jwt.isTokenBlacklisted now bl token).1 = false
  ↔ ∀ m expiry, bl = Some m → m !! token = Some expiry → expiry < now.
Proof.
  unfold Jwt.isTokenBlacklisted. destruct bl as [m|]; [|done].
  destruct (m !! token) as [expiry|] eqn:Hm.
  - case_decide; cbn; split; try done.
    + intros _ ?? [= <-]. rewrite Hm. intros [= <-]. lia.
    + intros Hall. specialize (Hall m expiry eq_refl Hm). lia.
  - split; [|done]. intros _ ?? [= <-]. by rewrite Hm.
Qed.

(** X6.  Blacklisting a token with an expiry that is not yet past puts it
    on the blacklist until that expiry: [isTokenBlacklisted] answers true,
    leaving the blacklist as it is, up to and including the expiry, and
    false after it, when the lookup also drops the entry.  Blacklisting
    with an expiry already past records nothing.  The answers for other
    tokens are what they were.  With no expiry given, the entry expires
    with the token's [exp] claim, or after 24 hours when the token has
    none or has an [exp] of 0. *)
Theorem blacklistToken_round_trip (now : Z) bl (token : string) (expiry : Z) :
  let bl' := Jwt.blacklistToken J now bl token (Some expiry) in
  (now ≤ expiry →
     (∀ t, t ≤ expiry → Jwt.isTokenBlacklisted t bl' token = (true, bl'))
     ∧ (∀ t, expiry < t →
          (Jwt.isTokenBlacklisted t bl' token).1 = false
          ∧ ∀ t', (Jwt.isTokenBlacklisted t'
                     (Jwt.isTokenBlacklisted t bl' token).2 token).1 = false))
  ∧ (expiry < now → ∀ t, (Jwt.isTokenBlacklisted t bl' token).1 = false)
  ∧ (∀ other t, other ≠ token → now ≤ t →
       (Jwt.isTokenBlacklisted t bl' other).1 = (Jwt.isTokenBlacklisted t bl other).1)
  ∧ (Jwt.decodeExp J token = None ∨ Jwt.decodeExp J token = Some 0 →
     Jwt.blacklistToken J now bl token None
     = Jwt.blacklistToken J now bl token (Some (now + 24 * 60 * 60 * 1000)))
  ∧ (∀ exp, Jwt.decodeExp J token = Some exp → exp ≠ 0 →
       Jwt.blacklistToken J now bl token None
       = Jwt.blacklistToken J now bl token (Some (exp * 1000))).
Proof.
  intros bl'.
  assert (∃ m', bl' = Some m'
                ∧ ∀ k e, m' !! k = Some e
                         ↔ (<[token := expiry]> (default ∅ bl)) !! k = Some e ∧ now ≤ e)
    as (m' & Hbl' & Hm').
  { eexists. split; [reflexivity|]. intros k e. apply cleanupBlacklist_lookup. }
  split_and!.
  - intros Hle. assert (m' !! token = Some expiry) as Hin.
    { apply Hm'. split; [apply lookup_insert_eq|lia]. }
    split.
    + intros t Ht. rewrite Hbl'. unfold Jwt.isTokenBlacklisted. rewrite Hin.
      by rewrite decide_False by lia.
    + intros t Ht. rewrite Hbl'.
      assert (Jwt.isTokenBlacklisted t (Some m') token = (false, Some (delete token m')))
        as -> by (unfold Jwt.isTokenBlacklisted; rewrite Hin; by rewrite decide_True by lia).
      split; [done|].
      intros t'. cbn [snd]. unfold Jwt.isTokenBlacklisted. by rewrite lookup_delete_eq.
  - intros Hlt t. apply isTokenBlacklisted_false. intros m e Heq Hin.
    assert (m = m') as -> by congruence.
    apply Hm' in Hin as [Hin ?]. rewrite lookup_insert_eq in Hin.
    injection Hin as <-. lia.
  - intros other t Hne Ht.
    destruct (Jwt.isTokenBlacklisted t bl other).1 eqn:Hold.
    + apply isTokenBlacklisted_true in Hold as (m & e & -> & Hin & Hle).
      apply isTokenBlacklisted_true. exists m', e. split_and!; [done| |done].
      apply Hm'. rewrite lookup_insert_ne by done. split; [done|lia].
    + apply isTokenBlacklisted_false. intros m e Heq Hin.
      assert (m = m') as -> by congruence.
      apply Hm' in Hin as [Hin ?]. rewrite lookup_insert_ne in Hin by done.
      rewrite isTokenBlacklisted_false in Hold.
      destruct bl as [m0|]; [by eapply Hold|done].
  - intros Hexp.
    unfold Jwt.blacklistToken, Jwt.getTokenExpiration, Jwt.truthyExp.
    by destruct Hexp as [-> | ->].
  - intros exp Hexp Hne.
    unfold Jwt.blacklistToken, Jwt.getTokenExpiration, Jwt.truthyExp.
    rewrite Hexp. by rewrite decide_False.
Qed.

(** X7.  [cleanupBlacklist] drops the entries that have expired and keeps
    the others as they are; it changes no answer of [isTokenBlacklisted]
    from then on, running it twice is running it once, and it does not
    create the blacklist when there is none. *)
Theorem cleanupBlacklist_keeps_live_entries (now : Z) bl :
  (∀ m', Jwt.cleanupBlacklist now bl = Some m' →
     ∃ m, bl = Some m
          ∧ ∀ token expiry,
              m' !! token = Some expiry ↔ m !! token = Some expiry ∧ now ≤ expiry)
  ∧ (∀ token t, now ≤ t →
       (Jwt.isTokenBlacklisted t (Jwt.cleanupBlacklist now bl) token).1
       = (Jwt.isTokenBlacklisted t bl token).1)
  ∧ Jwt.cleanupBlacklist now (Jwt.cleanupBlacklist now bl) = Jwt.cleanupBlacklist now bl
  ∧ (Jwt.cleanupBlacklist now bl = None ↔ bl = None).
Proof.
  destruct bl as [m|]; [|by split_and!].
  unfold Jwt.cleanupBlacklist. cbn [fmap option_fmap option_map].
  split_and!.
  - intros m' [= <-]. exists m. split; [done|]. intros. apply cleanupBlacklist_lookup.
  - intros token t Ht.
    destruct (Jwt.isTokenBlacklisted t (Some m) token).1 eqn:Hold.
    + apply isTokenBlacklisted_true in Hold as (m0 & e & [= <-] & Hin & Hle).
      apply isTokenBlacklisted_true. eexists _, e. split_and!; [done| |done].
      apply cleanupBlacklist_lookup. split; [done|lia].
    + apply isTokenBlacklisted_false. intros m0 e [= <-] Hin.
      apply cleanupBlacklist_lookup in Hin as [Hin ?].
      rewrite isTokenBlacklisted_false in Hold. by eapply Hold.
  - f_equal. apply map_eq. intros token. apply option_eq. intros e.
    rewrite !cleanupBlacklist_lookup. tauto.
  - done.
Qed.

End BlacklistFacts.

Section RefreshFacts.
Context (J : Jwt.Lib) (env : Jwt.Env).

Definition refreshRequired : AppError :=
  appError "Refresh token is required" 400 "REFRESH_TOKEN_REQUIRED".

Definition refreshInvalid : AppError :=
  appError "Invalid refresh token" 401 "INVALID_REFRESH_TOKEN".

(** The secret refresh tokens are signed with:
    [process.env.JWT_REFRESH_SECRET || process.env.JWT_SECRET]. *)
Definition refreshSecret : string :=
  Jwt.orString (Jwt.JWT_REFRESH_SECRET env) (Jwt.JWT_SECRET env).

(** X8.  [POST /auth/refresh] throws REFRESH_TOKEN_REQUIRED for a missing
    or empty token.  For any other token it issues new tokens exactly when
    [jwt.verify] accepts the token under the refresh secret, the decoded
    [type] is [refresh], and the employee it names is a user who is active;
    in every other case, an access token presented as a refresh token
    included, it throws INVALID_REFRESH_TOKEN.  Whether the account is
    locked plays no part. *)
Theorem refresh_decides_on_token_and_activity (now : Z) (tokenId : string)
    (refreshToken : option string) (users : list Users.User) :
  let outcome := Auth.refresh J env now tokenId refreshToken users in
  (refreshToken = None ∨ refreshToken = Some "" → outcome = Threw refreshRequired)
  ∧ (∀ token, refreshToken = Some token → token ≠ "" →
       (replied outcome = true
        ↔ ∃ decoded user,
            Jwt.verify J token refreshSecret Jwt.apiOptions now = Jwt.Decoded decoded
            ∧ Jwt.type decoded = Some "refresh"
            ∧ Users.findUserByEmployeeId (Jwt.employeeId decoded) users = Some user
            ∧ Users.isActive user = true)
       ∧ (replied outcome = false → outcome = Threw refreshInvalid)
       ∧ (∀ decoded,
            Jwt.verify J token refreshSecret Jwt.apiOptions now = Jwt.Decoded decoded →
            Jwt.type decoded ≠ Some "refresh" → outcome = Threw refreshInvalid)
       ∧ (∀ decoded user,
            Jwt.verify J token refreshSecret Jwt.apiOptions now = Jwt.Decoded decoded →
            Jwt.type decoded = Some "refresh" →
            Users.findUserByEmployeeId (Jwt.employeeId decoded) users = Some user →
            Users.isActive user = true → Auth.isLocked now user = true →
            replied outcome = true)).
Proof.
  intros outcome. subst outcome. unfold Auth.refresh. split.
  - intros [->| ->]; [done|]. by rewrite decide_True.
  - intros token -> Hne. rewrite decide_False by done.
    unfold Jwt.verifyRefreshToken. fold refreshSecret.
    destruct (Jwt.verify J token refreshSecret Jwt.apiOptions now) as [decoded|n msg];
      [case_decide as Htype;
       [destruct (Users.findUserByEmployeeId _ users) as [user|] eqn:Hfind;
        [destruct (Users.isActive user) eqn:Hact; cbn [negb];
         [destruct (Jwt.generateTokens _ _ _ _ _) as [a r]; cbn|]|]|]|];
      (split_and!;
       [split; [intros Hr; try done; by eauto 10
               |intros (? & ? & ? & ? & ? & ?); simplify_eq; (done || congruence)]
       |done
       |intros; simplify_eq; (done || congruence)
       |intros; simplify_eq; (done || congruence)]).
Qed.

End RefreshFacts.

Section OptionalAuthFacts.
Context (J : Jwt.Lib) (env : Jwt.Env).

(** X9.  [optionalAuth] attaches a user to the request exactly when
    [authenticateToken] would let the request through, and it is the same
    user; so [GET /auth/verify] replies for these requests and answers
    every other one, whatever is wrong with its token, with
    NO_VALID_TOKEN. *)
Theorem optionalAuth_agrees_with_authenticateToken (users : list Users.User) (now : Z)
    (authHeader : option string) :
  let attached := Middleware.optionalAuth J env users now authHeader in
  (∀ user, attached = Some user
           ↔ Middleware.authenticateToken J env users now authHeader
             = Middleware.Next user)
  ∧ (∀ user, attached = Some user →
       Auth.verifyToken attached
       = Replied 200
           (Auth.success (Some "Token is valid")
              (Some [("user", JObj (Middleware.toObject user));
                     ("isValid", JBool true)])))
  ∧ ((∀ user, Middleware.authenticateToken J env users now authHeader
              ≠ Middleware.Next user) →
     Auth.verifyToken attached
     = Threw (appError "No valid token provided" 401 "NO_VALID_TOKEN")).
Proof.
  intros attached.
  assert (∀ user, attached = Some user
                  ↔ Middleware.authenticateToken J env users now authHeader
                    = Middleware.Next user) as Hiff.
  { intros user. subst attached.
    unfold Middleware.optionalAuth, Middleware.authenticateToken, Middleware.rejection.
    destruct (Middleware.bearerToken authHeader) as [token|]; [|done].
    destruct (Jwt.verify J token _ _ now) as [decoded|n msg].
    - destruct (Users.findUserByEmployeeId _ users) as [u|]; [|done].
      destruct (Users.isActive u); cbn [negb]; [|done].
      split; intros [= <-]; done.
    - repeat case_decide; done. }
  split_and!; [done| |].
  - by intros user ->.
  - intros Hno. destruct attached as [user|] eqn:Ha; [|done].
    by destruct (Hno user); apply Hiff.
Qed.

End OptionalAuthFacts.
Section UtilityWitnesses.
Import Encoding Encryption.

(** An HMAC for evaluation: the digest is the secret followed by the data. *)
Definition demoHmac : Hmac := λ algorithm secret data,
  if decide (algorithm = "sha256") then Ok (utf8 (secret +:+ data))
  else Err ("Invalid digest: " +:+ algorithm).

Lemma verifyHMAC_compares_decoded_bytes_witness :
  generateHMAC demoHmac "AA1234" "s3" None = Ok "7333414131323334"
  ∧ hex_decode "!" = []
  ∧ verifyHMAC demoHmac "AA1234" "7333414131323334!" "s3" None = true.
Proof.
  split; [reflexivity|]. split; [reflexivity|].
  exact (proj2 (proj1 (proj2 (verifyHMAC_compares_decoded_bytes demoHmac
                                "AA1234" "" "s3" None))
                  "7333414131323334" eq_refl) "!" eq_refl).
Defined.

Lemma bearerToken_ignores_scheme_witness :
  lacks " " "Basic" ∧ lacks " " "abc"
  ∧ Middleware.bearerToken (Some "Basic abc") = Some "abc"
  ∧ Jwt.extractTokenFromHeader (Some "Basic abc") = None.
Proof.
  assert (lacks " " "Basic") as Hs by (by repeat split).
  assert (lacks " " "abc") as Ht by (by repeat split).
  split; [exact Hs|]. split; [exact Ht|].
  exact (proj1 (proj2 bearerToken_ignores_scheme) "Basic" "abc" Hs Ht
           ltac:(discriminate)).
Defined.

Lemma isValidTokenFormat_counts_dots_witness :
  Jwt.isValidTokenFormat ".." = true.
Proof.
  exact (proj2 (isValidTokenFormat_counts_dots "..") "" "" "" eq_refl I I I).
Defined.

Lemma blacklistToken_round_trip_witness :
  1705400000000 ≤ 1705400900000
  ∧ 1705400060000 ≤ 1705400900000
  ∧ (Jwt.isTokenBlacklisted 1705400060000
       (Jwt.blacklistToken (Demo.jwt []) 1705400000000 None "header.payload.signature"
          (Some 1705400900000))
       "header.payload.signature").1 = true.
Proof.
  assert (1705400000000 ≤ 1705400900000) as H0 by lia.
  assert (1705400060000 ≤ 1705400900000) as H1 by lia.
  split; [exact H0|]. split; [exact H1|].
  exact (f_equal fst
           (proj1 (proj1 (blacklistToken_round_trip (Demo.jwt []) 1705400000000 None
                            "header.payload.signature" 1705400900000) H0)
              1705400060000 H1)).
Defined.

Definition captainRefresh : Demo.Issued := {|
  Demo.token := "header.refresh.signature";
  Demo.payload :=
    {| Jwt.employeeId := "AA12345"; Jwt.name := None; Jwt.role := None;
       Jwt.department := None; Jwt.clearanceLevel := None; Jwt.airline := None;
       Jwt.type := Some "refresh"; Jwt.tokenId := Some "token-1" |};
  Demo.secret := "refresh-secret";
  Demo.iss := "aviation-crew-api";
  Demo.aud := "aviation-crew";
  Demo.exp := 1706005000
|}.

Lemma refresh_decides_on_token_and_activity_witness :
  "header.refresh.signature" ≠ ""
  ∧ replied (Auth.refresh (Demo.jwt [captainRefresh]) Demo.env 1705400060000 "token-2"
               (Some "header.refresh.signature") Users.initialUsers) = true.
Proof.
  split; [discriminate|].
  destruct (proj2 (refresh_decides_on_token_and_activity (Demo.jwt [captainRefresh])
                     Demo.env 1705400060000 "token-2" (Some "header.refresh.signature")
                     Users.initialUsers)
              "header.refresh.signature" eq_refl ltac:(discriminate)) as (Hiff & _).
  apply Hiff. exists (Demo.payload captainRefresh), captain.
  split_and!; reflexivity.
Defined.

Lemma optionalAuth_agrees_witness :
  Middleware.authenticateToken (Demo.jwt [captainToken]) Demo.env Users.initialUsers
    1705400060000 (Some "Bearer header.captain.signature")
  = Middleware.Next captainClaims
  ∧ Middleware.optionalAuth (Demo.jwt [captainToken]) Demo.env Users.initialUsers
      1705400060000 (Some "Bearer header.captain.signature")
    = Some captainClaims.
Proof.
  assert (Middleware.authenticateToken (Demo.jwt [captainToken]) Demo.env
            Users.initialUsers 1705400060000 (Some "Bearer header.captain.signature")
          = Middleware.Next captainClaims) as Hauth by (by vm_compute).
  split; [exact Hauth|].
  exact (proj2 (proj1 (optionalAuth_agrees_with_authenticateToken
                         (Demo.jwt [captainToken]) Demo.env Users.initialUsers
                         1705400060000 (Some "Bearer header.captain.signature"))
                  captainClaims) Hauth).
Defined.

End UtilityWitnesses.

(** ** The crew directory *)

Section TallyFacts.
Context `{Countable K} {A : Type} (key : A → K).

(** The counter of a key after a tally: untouched when no element has the
    key, and otherwise raised by the number of elements that have it. *)
Lemma tally_lookup (l : list A) (counts : gmap K Z) (k : K) :
  tally key l counts !! k
  = if decide (filter (λ x, key x = k) l = []) then counts !! k
    else Some (default 0 (counts !! k)
               + Z.of_nat (length (filter (λ x, key x = k) l))).
Proof.
  revert counts. induction l as [|x l IH]; intros counts; [done|].
  change (tally key (x :: l) counts)
    with (tally key l (<[key x := default 0 (counts !! key x) + 1]> counts)).
  rewrite IH. destruct (decide (key x = k)) as [<-|Hne].
  - rewrite (filter_cons_True (λ y, key y = key x)) by reflexivity.
    rewrite (decide_False (P := _ :: _ = [])) by discriminate.
    rewrite lookup_insert_eq. cbn [default length].
    case_decide as Hnil; [rewrite Hnil; cbn [length]|unfold id]; f_equal; lia.
  - rewrite (filter_cons_False (λ y, key y = k)) by exact Hne.
    by rewrite lookup_insert_ne.
Qed.

Lemma tally_empty_lookup (l : list A) (k : K) (n : Z) :
  tally key l ∅ !! k = Some n
  ↔ n = Z.of_nat (length (filter (λ x, key x = k) l)) ∧ 0 < n.
Proof.
  rewrite tally_lookup, lookup_empty. cbn [default]. case_decide as Hnil.
  - rewrite Hnil. cbn. split; [done|lia].
  - split.
    + intros [= <-]. split; [lia|]. destruct (filter _ l); [done|]. cbn. lia.
    + intros [-> _]. f_equal; lia.
Qed.

End TallyFacts.

Section DirectoryFacts.
Import Users.

(** The number of active users with a property. *)
Definition activeWith (P : User → Prop) `{∀ u, Decision (P u)} (users : list User) : Z :=
  Z.of_nat (length (filter P (filter (λ user, isActive user = true) users))).

(** X12.  [getUserStats] counts the active users and only them: [total] is
    their number, and each counter has an entry for a role (department,
    airline, clearance level) exactly when some active user has it, the
    entry being the number of those users.  [GET /crew/meta/stats] sends
    these statistics to a requester of clearance 3 or more and rejects
    anyone below with INSUFFICIENT_CLEARANCE.  The counters are read as maps
    from the keys that occur, as [tally] models them. *)
Theorem getUserStats_counts_active_users (users : list User) :
  let stats := getUserStats users in
  total stats = Z.of_nat (length (filter (λ user, isActive user = true) users))
  ∧ (∀ r n, byRole stats !! r = Some n
            ↔ n = activeWith (λ u, role u = r) users ∧ 0 < n)
  ∧ (∀ d n, byDepartment stats !! d = Some n
            ↔ n = activeWith (λ u, department u = d) users ∧ 0 < n)
  ∧ (∀ a n, byAirline stats !! a = Some n
            ↔ n = activeWith (λ u, airline u = a) users ∧ 0 < n)
  ∧ (∀ c n, byClearanceLevel stats !! c = Some n
            ↔ n = activeWith (λ u, clearanceLevel u = c) users ∧ 0 < n)
  ∧ (∀ reqUser,
       if decide (Middleware.clearanceLevel reqUser < 3)
       then ∃ status body,
              Directory.getStats (Some reqUser) users
              = inl (Middleware.Rejected status body)
              ∧ status = 403
              ∧ getField "code" body = Some (JStr "INSUFFICIENT_CLEARANCE")
       else Directory.getStats (Some reqUser) users = inr stats).
Proof.
  intros stats. split_and!.
  - done.
  - intros. apply tally_empty_lookup.
  - intros. apply tally_empty_lookup.
  - intros. apply tally_empty_lookup.
  - intros. apply tally_empty_lookup.
  - intros reqUser. unfold Directory.getStats, Middleware.requireClearance.
    case_decide; [|done]. by eexists _, _.
Qed.

Lemma elem_of_filteredUsers filters users user :
  user ∈ filteredUsers filters users →
  user ∈ users ∧ isActive user = true
  ∧ (∀ r, truthy (filterRole filters) = Some r → role user = r)
  ∧ (∀ d, truthy (filterDepartment filters) = Some d → department user = d)
  ∧ (∀ a, truthy (filterAirline filters) = Some a → airline user = a)
  ∧ (∀ c, filterClearanceLevel filters = Some c → c ≠ 0 → clearanceLevel user >= c).
Proof.
  unfold filteredUsers.
  destruct (truthy (filterRole filters)), (truthy (filterDepartment filters)),
    (truthy (filterAirline filters)), (filterClearanceLevel filters) as [c|];
    try destruct (decide (c = 0));
    rewrite ?list_elem_of_filter; intros Hin;
    repeat match goal with Hc : _ ∧ _ |- _ => destruct Hc end;
    (split_and!; try done; intros; simplify_eq; (done || lia)).
Qed.

(** What an object of [getAllUsers] or [searchUsers] shows of its user. *)
Lemma withoutPassword_fields user :
  getField "password" (withoutPassword user) = None
  ∧ getField "employeeId" (withoutPassword user) = Some (JStr (employeeId user))
  ∧ getField "clearanceLevel" (withoutPassword user) = Some (JNum (clearanceLevel user))
  ∧ getField "failedLoginAttempts" (withoutPassword user)
    = Some (JNum (failedLoginAttempts user))
  ∧ getField "accountLockedUntil" (withoutPassword user)
    = Some (optJ JTime (accountLockedUntil user)).
Proof. by split_and!. Qed.

Context (sort : string → string → list JsObject → list JsObject).
Hypothesis sort_rearranges : ∀ sortBy' sortOrder' l, sort sortBy' sortOrder' l ≡ₚ l.

(** X11.  Every object [GET /crew] and [GET /crew/search] send, to any
    authenticated requester, is an active user of the store that passes the
    filters of the query, shown without its password but with its
    clearance level, its count of failed logins and the time its account is
    locked until. *)
Theorem crew_listing_shows_lock_state (users : list User) (shown : JsObject) :
  (∀ query, shown ∈ Directory.listed sort query users →
     ∃ user, user ∈ users ∧ isActive user = true ∧ shown = withoutPassword user
             ∧ (∀ r, truthy (Directory.role query) = Some r → role user = r)
             ∧ (∀ d, truthy (Directory.department query) = Some d → department user = d)
             ∧ (∀ a, truthy (Directory.airline query) = Some a → airline user = a))
  ∧ (∀ q page' limit' found,
       Directory.searched q page' limit' users = inr found → shown ∈ found →
       ∃ user, user ∈ users ∧ isActive user = true ∧ shown = withoutPassword user)
  ∧ (∀ user, shown = withoutPassword user →
       getField "password" shown = None
       ∧ getField "clearanceLevel" shown = Some (JNum (clearanceLevel user))
       ∧ getField "failedLoginAttempts" shown = Some (JNum (failedLoginAttempts user))
       ∧ getField "accountLockedUntil" shown
         = Some (optJ JTime (accountLockedUntil user))).
Proof.
  split_and!.
  - intros query Hin. unfold Directory.listed in Hin.
    apply elem_of_slice in Hin. rewrite sort_rearranges in Hin.
    unfold getAllUsers in Hin. apply list_elem_of_fmap in Hin as (user & -> & Hin).
    apply elem_of_filteredUsers in Hin as (Hu & Ha & Hr & Hd & Hair & _).
    exists user. split_and!; try done.
    + intros r Hq. apply Hr. cbn. unfold truthy in *. by repeat case_match.
    + intros d Hq. apply Hd. cbn. unfold truthy in *. by repeat case_match.
    + intros a Hq. apply Hair. cbn. unfold truthy in *. by repeat case_match.
  - intros q page' limit' found Hs Hin. unfold Directory.searched in Hs.
    destruct (truthy q) as [query|]; [|done]. injection Hs as <-.
    apply elem_of_slice in Hin. unfold Directory.searchUsers in Hin.
    apply list_elem_of_fmap in Hin as (user & -> & Hin).
    apply list_elem_of_filter in Hin as [[Ha _] Hu]. by exists user.
  - intros user ->. by destruct (withoutPassword_fields user) as (? & _ & ? & ? & ?).
Qed.

End DirectoryFacts.

Section CrewMemberFacts.
Import Users.

(** X10.  [GET /crew/:employeeId] answers CREW_MEMBER_NOT_FOUND for an
    unknown employee and CREW_MEMBER_INACTIVE for a deactivated one.  For
    an active member it never shows the password, the count of failed
    logins or the lock time; a requester other than the member whose
    clearance is below 3 is shown the employee id, name, role, department
    and airline and nothing else, and any other requester also the
    clearance level and the rest of the record. *)
Theorem getCrewMember_visibility (reqUser : Middleware.ReqUser) (e : string)
    (users : list User) :
  (findUserByEmployeeId e users = None →
   Directory.getCrewMember reqUser e users
   = Threw (appError "Crew member not found" 404 "CREW_MEMBER_NOT_FOUND"))
  ∧ (∀ member, findUserByEmployeeId e users = Some member → isActive member = false →
       Directory.getCrewMember reqUser e users
       = Threw (appError "Crew member account is inactive" 404 "CREW_MEMBER_INACTIVE"))
  ∧ (∀ member, findUserByEmployeeId e users = Some member → isActive member = true →
       ∃ shown,
         Directory.getCrewMember reqUser e users
         = Replied 200 (Auth.success None (Some [("crewMember", JObj shown)]))
         ∧ getField "password" shown = None
         ∧ getField "failedLoginAttempts" shown = None
         ∧ getField "accountLockedUntil" shown = None
         ∧ getField "employeeId" shown = Some (JStr (employeeId member))
         ∧ getField "name" shown = Some (JStr (name member))
         ∧ getField "role" shown = Some (JStr (role member))
         ∧ getField "department" shown = Some (JStr (department member))
         ∧ getField "airline" shown = Some (JStr (airline member))
         ∧ if decide (Middleware.employeeId reqUser ≠ e
                      ∧ Middleware.clearanceLevel reqUser < 3)
           then shown.*1 = ["employeeId"; "name"; "role"; "department"; "airline"]
           else getField "clearanceLevel" shown = Some (JNum (clearanceLevel member))
                ∧ getField "id" shown = Some (JStr (id member))
                ∧ getField "isActive" shown = Some (JBool true)).
Proof.
  unfold Directory.getCrewMember. split_and!.
  - by intros ->.
  - by intros member -> ->.
  - intros member -> Hact. destruct member. cbn in Hact. subst. cbn [negb isActive].
    case_decide; eexists; (split; [reflexivity|]); by split_and!.
Qed.

End CrewMemberFacts.
(** ** The users store: deactivation, locks, resets and registration *)

Section UserAdminFacts.
Import Users.
Context (B : BcryptLib) (J : Jwt.Lib) (env : Jwt.Env).

(** Writing back the user found under an id replaces it where it was. *)
Lemma user_writeBack_first (users : list User) id' p u u' :
  findById id' users = Some (p, u) → id u' = id u →
  writeBack p u' users = (<[p := u']> users, true).
Proof.
  intros (Hp & Hid & Hleast)%list_find_Some Hu'.
  unfold writeBack, updateUser, findById.
  rewrite (proj2 (list_find_Some _ _ p u')).
  - by rewrite list_insert_insert_eq.
  - split_and!.
    + apply list_lookup_insert_eq. eauto using lookup_lt_Some.
    + done.
    + intros j y Hj Hjp. rewrite list_lookup_insert_ne in Hj by lia.
      rewrite Hu', Hid. by apply (Hleast j y).
Qed.

Lemma find_insert_same (users : list User) e p u u' :
  findByEmployeeId e users = Some (p, u) → employeeId u' = e →
  findByEmployeeId e (<[p := u']> users) = Some (p, u').
Proof.
  intros (Hp & He & Hleast)%list_find_Some Hu'. apply list_find_Some. split_and!.
  - apply list_lookup_insert_eq. eauto using lookup_lt_Some.
  - done.
  - intros j y Hj Hjp. rewrite list_lookup_insert_ne in Hj by lia. by apply (Hleast j y).
Qed.

Definition deactivated : AppError :=
  appError "Account is deactivated. Contact administrator." 401 "ACCOUNT_DEACTIVATED".

(** X13.  [deleteUser] is a soft delete.  For a user who is the first of
    the store with its id and with its employee id, the store keeps its
    length and the record stays, with the same password, marked inactive.
    From then on the user is in no result of [getAllUsers], a login that is
    not stopped by a lock is answered ACCOUNT_DEACTIVATED whatever the
    password, a request with a token the library still accepts is rejected
    with ACCOUNT_DEACTIVATED, and the crew route answers
    CREW_MEMBER_INACTIVE.  For an id that no user has, [deleteUser] returns
    false and changes nothing. *)
Theorem deleteUser_deactivates (now : Z) (id' : string) (users : list User) :
  (findUserById id' users = None → deleteUser now id' users = (users, false))
  ∧ (∀ p u,
       findById id' users = Some (p, u) →
       findByEmployeeId (employeeId u) users = Some (p, u) →
       let users' := (deleteUser now id' users).1 in
       let u' := setUpdatedAt now (setIsActive false u) in
       deleteUser now id' users = (<[p := u']> users, true)
       ∧ findUserByEmployeeId (employeeId u) users' = Some u'
       ∧ isActive u' = false ∧ password u' = password u
       ∧ (∀ filters, u' ∉ filteredUsers filters users')
       ∧ (∀ t tokenId pw,
            Auth.isLocked t u = false →
            Auth.login B J env t tokenId (employeeId u) pw users'
            = (Threw deactivated, users'))
       ∧ (∀ t authHeader token decoded,
            Middleware.bearerToken authHeader = Some token →
            Jwt.verify J token (Jwt.JWT_SECRET env) Jwt.noOptions t = Jwt.Decoded decoded →
            Jwt.employeeId decoded = employeeId u →
            Middleware.rejectionCode
              (Middleware.authenticateToken J env users' t authHeader)
            = Some (JStr "ACCOUNT_DEACTIVATED"))
       ∧ (∀ reqUser,
            Directory.getCrewMember reqUser (employeeId u) users'
            = Threw (appError "Crew member account is inactive" 404
                       "CREW_MEMBER_INACTIVE"))).
Proof.
  split.
  - unfold findUserById, deleteUser. by destruct (findById id' users) as [[??]|].
  - intros p u Hid He users' u'.
    assert (deleteUser now id' users = (<[p := u']> users, true)) as Hdel.
    { unfold deleteUser. rewrite Hid. by apply (user_writeBack_first users id' p u). }
    subst users'. rewrite Hdel. cbn [fst].
    pose proof (find_insert_same users (employeeId u) p u u' He eq_refl) as Hfind.
    assert (findUserByEmployeeId (employeeId u) (<[p := u']> users) = Some u') as Hfind'
      by (unfold findUserByEmployeeId; by rewrite Hfind).
    split_and!; try done.
    + intros filters Hin. by apply elem_of_filteredUsers in Hin as (_ & ? & _).
    + intros t tokenId pw Hlock. unfold Auth.login. rewrite Hfind.
      assert (Auth.isLocked t u' = false) as -> by done. done.
    + intros t authHeader token decoded Hb Hv Hd.
      unfold Middleware.authenticateToken. by rewrite Hb, Hv, Hd, Hfind'.
    + intros reqUser. unfold Directory.getCrewMember. by rewrite Hfind'.
Qed.

(** X14.  [setUserLockStatus(employeeId, true)] locks the account for 24
    hours and leaves the count of failed logins as it is: until then every
    login, whatever the password, is answered ACCOUNT_LOCKED and changes
    nothing.  [setUserLockStatus(employeeId, false)] removes the lock and
    puts the count back to zero, after which a login of an active account
    is decided by its password.  For an unknown employee the function
    returns false and changes nothing. *)
Theorem setUserLockStatus_locks_and_unlocks (now : Z) (e : string) (users : list User) :
  (∀ locked, findUserByEmployeeId e users = None →
     setUserLockStatus now e locked users = (users, false))
  ∧ (∀ u, findUserByEmployeeId e users = Some u →
       let lockedUsers := (setUserLockStatus now e true users).1 in
       let unlockedUsers := (setUserLockStatus now e false users).1 in
       let locked := setUpdatedAt now
                       (setAccountLockedUntil (Some (now + 24 * 60 * 60 * 1000)) u) in
       let unlocked := setUpdatedAt now
                         (setFailedLoginAttempts 0 (setAccountLockedUntil None u)) in
       findUserByEmployeeId e lockedUsers = Some locked
       ∧ failedLoginAttempts locked = failedLoginAttempts u
       ∧ (∀ t tokenId pw, t < now + 24 * 60 * 60 * 1000 →
            threwCode (Auth.login B J env t tokenId e pw lockedUsers).1
            = Some "ACCOUNT_LOCKED"
            ∧ (Auth.login B J env t tokenId e pw lockedUsers).2 = lockedUsers)
       ∧ findUserByEmployeeId e unlockedUsers = Some unlocked
       ∧ (isActive u = true → ∀ t tokenId pw,
            if bcryptCompare B pw (password u)
            then replied (Auth.login B J env t tokenId e pw unlockedUsers).1 = true
            else (Auth.login B J env t tokenId e pw unlockedUsers).1
                 = invalidCredentials)).
Proof.
  split.
  - intros locked. unfold findUserByEmployeeId, setUserLockStatus.
    by destruct (findByEmployeeId e users) as [[??]|].
  - intros u Hfind lockedUsers unlockedUsers locked unlocked.
    unfold findUserByEmployeeId in Hfind.
    destruct (findByEmployeeId e users) as [[p u0]|] eqn:Hf; [|done].
    cbn in Hfind. injection Hfind as ->.
    pose proof Hf as (_ & He & _)%list_find_Some.
    assert (findUserByEmployeeId e lockedUsers = Some locked) as Hl.
    { subst lockedUsers. unfold setUserLockStatus. rewrite Hf.
      by apply (find_writeBack users e p u). }
    assert (findUserByEmployeeId e unlockedUsers = Some unlocked) as Hu.
    { subst unlockedUsers. unfold setUserLockStatus. rewrite Hf.
      by apply (find_writeBack users e p u). }
    split_and!; try done.
    + intros t tokenId pw Ht. apply (login_locked B J env t tokenId e pw _ locked Hl).
      unfold Auth.isLocked. cbn. apply bool_decide_eq_true. lia.
    + intros Hact t tokenId pw.
      destruct (bcryptCompare B pw (password u)) eqn:Hpw.
      * by apply (login_right_password B J env t tokenId e pw _ unlocked Hu).
      * by apply (login_wrong_password B J env t tokenId e pw _ unlocked Hu).
Qed.

(** X16.  [resetUserPassword] stores the bcrypt hash of the new password and
    clears the lock and the count of failed logins; so, for an active
    account, a login with a password that bcrypt matches to the new hash
    succeeds right away, even if the account was locked, and one with a
    password that does not match is answered INVALID_CREDENTIALS.  For an
    unknown employee the function returns false and changes nothing. *)
Theorem resetUserPassword_unlocks (now : Z) (salt e newPassword : string)
    (users : list User) :
  (findUserByEmployeeId e users = None →
   resetUserPassword B now salt e newPassword users = (users, false))
  ∧ (∀ u, findUserByEmployeeId e users = Some u →
       let users' := (resetUserPassword B now salt e newPassword users).1 in
       let hash := bcryptHash B newPassword 12 salt in
       ∃ u', findUserByEmployeeId e users' = Some u'
             ∧ password u' = hash
             ∧ failedLoginAttempts u' = 0 ∧ accountLockedUntil u' = None
             ∧ isActive u' = isActive u
             ∧ (isActive u = true → ∀ t tokenId pw,
                  if bcryptCompare B pw hash
                  then replied (Auth.login B J env t tokenId e pw users').1 = true
                  else (Auth.login B J env t tokenId e pw users').1
                       = invalidCredentials)).
Proof.
  split.
  - unfold findUserByEmployeeId, resetUserPassword.
    by destruct (findByEmployeeId e users) as [[??]|].
  - intros u Hfind users' hash.
    unfold findUserByEmployeeId in Hfind.
    destruct (findByEmployeeId e users) as [[p u0]|] eqn:Hf; [|done].
    cbn in Hfind. injection Hfind as ->.
    pose proof Hf as (_ & He & _)%list_find_Some.
    eexists. split.
    { subst users'. unfold resetUserPassword. rewrite Hf.
      by apply (find_writeBack users e p u). }
    split_and!; try done.
    intros Hact t tokenId pw.
    match goal with |- context [Auth.login _ _ _ _ _ _ _ ?us] => set (us' := us) end.
    assert (∃ u', findUserByEmployeeId e us' = Some u' ∧ password u' = hash
                  ∧ Auth.isLocked t u' = false ∧ isActive u' = true)
      as (u' & Hu' & Hp & Hl & Ha).
    { eexists. split.
      - subst us' users'. unfold resetUserPassword. rewrite Hf.
        by apply (find_writeBack users e p u).
      - done. }
    destruct (bcryptCompare B pw hash) eqn:Hpw.
    + apply (login_right_password B J env t tokenId e pw us' u'); congruence.
    + apply (login_wrong_password B J env t tokenId e pw us' u'); congruence.
Qed.

(** X17.  [POST /auth/register] answers USER_EXISTS, leaving the store as
    it is, when the employee id is taken.  Otherwise it appends one user:
    active, unlocked, with the clearance level the request asked for, and
    with the bcrypt hash of the password, not the password; the user object
    of the response has no password.  The new user is found by its
    employee id, and a login with a password bcrypt matches to the stored
    hash succeeds. *)
Theorem register_then_login (now : Z) (newId salt tokenId : string)
    (body : Auth.Registration) (users : list User) :
  let e := Auth.employeeId body in
  let hash := bcryptHash B (Auth.password body) 12 salt in
  (findUserByEmployeeId e users ≠ None →
   Auth.register B J env now newId salt tokenId body users
   = (Threw (appError "Employee ID already registered" 409 "USER_EXISTS"), users))
  ∧ (findUserByEmployeeId e users = None →
     ∃ newUser data,
       Auth.register B J env now newId salt tokenId body users
       = (Replied 201 (Auth.success (Some "User registered successfully") (Some data)),
          users ++ [newUser])
       ∧ getField "user" data = Some (JObj (withoutPassword newUser))
       ∧ getField "password" (withoutPassword newUser) = None
       ∧ findUserByEmployeeId e (users ++ [newUser]) = Some newUser
       ∧ id newUser = newId ∧ employeeId newUser = e
       ∧ password newUser = hash
       ∧ clearanceLevel newUser = Auth.clearanceLevel body
       ∧ role newUser = Auth.role body
       ∧ isActive newUser = true
       ∧ failedLoginAttempts newUser = 0 ∧ accountLockedUntil newUser = None
       ∧ (∀ t k pw, bcryptCompare B pw hash = true →
            replied (Auth.login B J env t k e pw (users ++ [newUser])).1 = true)).
Proof.
  intros e hash. unfold Auth.register. fold e. split.
  - by destruct (findUserByEmployeeId e users).
  - intros Hnone. rewrite Hnone.
    destruct (Jwt.generateTokens _ _ _ _ _) as [accessToken refreshToken].
    eexists _, _. split; [reflexivity|].
    match goal with |- context [withoutPassword ?u] => set (newUser := u) end.
    assert (findUserByEmployeeId e (users ++ [newUser]) = Some newUser) as Hfind.
    { unfold findUserByEmployeeId, findByEmployeeId in *.
      destruct (list_find _ users) as [[??]|] eqn:Hl; [done|].
      rewrite list_find_app_r by done. cbn. by rewrite decide_True. }
    split_and!; try done.
    intros t k pw Hpw.
    by apply (login_right_password B J env t k e pw _ newUser Hfind).
Qed.

End UserAdminFacts.
Section SharedIdFacts.
Import Users.

(** X15.  [updateUser] writes by [id], the handlers find by employee id.
    When the user found by employee id is not the first user of the store
    with its [id], a write for it also replaces that first user by a copy
    of the written record: after [setUserLockStatus], both places hold the
    record of the employee written, and the employee who was in the first
    place, if it had no other record, is no longer found. *)
Theorem shared_id_write_replaces_first_user (users : list User) (e : string)
    (p q : nat) (u v : User) :
  findByEmployeeId e users = Some (p, u) →
  findById (id u) users = Some (q, v) → q ≠ p →
  (∀ u', id u' = id u →
     writeBack p u' users = (<[q := u']> (<[p := u']> users), true))
  ∧ ∀ now locked,
      let users' := (setUserLockStatus now e locked users).1 in
      ∃ u', users' !! p = Some u' ∧ users' !! q = Some u' ∧ employeeId u' = e
            ∧ (employeeId v ≠ e →
               (∀ j y, users !! j = Some y → employeeId y = employeeId v → j = q) →
               findUserByEmployeeId (employeeId v) users' = None).
Proof.
  intros He Hid Hqp.
  pose proof He as (Hp & Hpe & _)%list_find_Some.
  pose proof Hid as (Hq & Hqid & Hleast)%list_find_Some.
  assert (q < p)%nat as Hlt.
  { destruct (decide (q < p)%nat); [done|]. destruct (Hleast p u Hp); [lia|done]. }
  assert (∀ u', id u' = id u →
            writeBack p u' users = (<[q := u']> (<[p := u']> users), true)) as Hwrite.
  { intros u' Hu'. unfold writeBack, updateUser, findById.
    rewrite (proj2 (list_find_Some _ _ q v)); [done|]. split_and!.
    - by rewrite list_lookup_insert_ne by lia.
    - congruence.
    - intros j y Hj Hjq. rewrite list_lookup_insert_ne in Hj by lia.
      rewrite Hu'. by apply (Hleast j y). }
  split; [done|]. intros now locked users'.
  set (u' := setUpdatedAt now
               (if locked
                then setAccountLockedUntil (Some (now + 24 * 60 * 60 * 1000)) u
                else setFailedLoginAttempts 0 (setAccountLockedUntil None u))).
  assert (users' = <[q := u']> (<[p := u']> users)) as ->.
  { subst users'. unfold setUserLockStatus. rewrite He.
    change ((writeBack p u' users).1 = <[q := u']> (<[p := u']> users)).
    rewrite (Hwrite u') by (subst u'; by destruct locked). done. }
  assert (employeeId u' = e) as Hu'e by (subst u'; by destruct locked).
  pose proof (lookup_lt_Some _ _ _ Hp). pose proof (lookup_lt_Some _ _ _ Hq).
  exists u'. split_and!.
  - rewrite list_lookup_insert_ne by done. by apply list_lookup_insert_eq.
  - apply list_lookup_insert_eq. by rewrite length_insert.
  - done.
  - intros Hne Honly. unfold findUserByEmployeeId, findByEmployeeId.
    rewrite (proj2 (list_find_None _ _)); [done|].
    apply Forall_lookup. intros j y Hj Hy.
    apply list_lookup_insert_Some in Hj as [(-> & -> & _)|[Hjq Hj]]; [congruence|].
    apply list_lookup_insert_Some in Hj as [(-> & -> & _)|[Hjp Hj]]; [congruence|].
    destruct Hjq. symmetry. by apply (Honly j y).
Qed.

End SharedIdFacts.

Section ProfileFacts.
Import Users.

(** What [PUT /crew/:employeeId/profile] takes from a body property. *)
Definition assigned (value : option string) (old : string) : string :=
  match value with
  | Some v => if decide (v = "") then old else v
  | None => old
  end.

(** X18.  [PUT /crew/:employeeId/profile] is refused with
    UPDATE_PERMISSION_DENIED, the store unchanged, unless the requester is
    the crew member or has clearance 4 or more.  For an active member it
    assigns the name and the department that the body gives (an empty one
    is ignored) and the update time, at the place of the record and
    nowhere else; role, clearance level, password, activity, lock and
    failed-login count stay as they are, and the response shows neither
    the password nor the lock nor the count. *)
Theorem updateProfile_changes_name_and_department (now : Z)
    (reqUser : Middleware.ReqUser) (e : string) (name' department' : option string)
    (users : list User) :
  (Middleware.employeeId reqUser ≠ e ∧ Middleware.clearanceLevel reqUser < 4 →
   Crew.updateProfile now reqUser e name' department' users
   = (Threw (appError "Insufficient permissions to update this profile" 403
               "UPDATE_PERMISSION_DENIED"), users))
  ∧ (Middleware.employeeId reqUser = e ∨ 4 ≤ Middleware.clearanceLevel reqUser →
     (findUserByEmployeeId e users = None →
      Crew.updateProfile now reqUser e name' department' users
      = (Threw (appError "Crew member not found" 404 "CREW_MEMBER_NOT_FOUND"), users))
     ∧ ∀ p member, findByEmployeeId e users = Some (p, member) →
         (isActive member = false →
          Crew.updateProfile now reqUser e name' department' users
          = (Threw (appError "Cannot update inactive crew member" 400
                      "CREW_MEMBER_INACTIVE"), users))
         ∧ (isActive member = true →
            ∃ member' shown,
              Crew.updateProfile now reqUser e name' department' users
              = (Replied 200
                   (Auth.success (Some "Profile updated successfully")
                      (Some [("crewMember", JObj shown)])),
                 <[p := member']> users)
              ∧ name member' = assigned name' (name member)
              ∧ department member' = assigned department' (department member)
              ∧ updatedAt member' = now
              ∧ id member' = id member ∧ employeeId member' = employeeId member
              ∧ password member' = password member
              ∧ role member' = role member
              ∧ clearanceLevel member' = clearanceLevel member
              ∧ airline member' = airline member
              ∧ isActive member' = true
              ∧ failedLoginAttempts member' = failedLoginAttempts member
              ∧ accountLockedUntil member' = accountLockedUntil member
              ∧ getField "name" shown = Some (JStr (name member'))
              ∧ getField "password" shown = None
              ∧ getField "failedLoginAttempts" shown = None
              ∧ getField "accountLockedUntil" shown = None)).
Proof.
  unfold Crew.updateProfile. split.
  - intros Hdenied. by rewrite decide_True.
  - intros Hmay. rewrite decide_False by (intros [??]; destruct Hmay; [done|lia]).
    split.
    + unfold findUserByEmployeeId. by destruct (findByEmployeeId e users) as [[??]|].
    + intros p member ->. split; [by intros ->|]. intros Hact. rewrite Hact.
      cbn [negb]. eexists _, _. split; [reflexivity|].
      destruct member. cbn [isActive] in Hact. subst. unfold assigned.
      destruct name' as [n|]; [destruct (decide (n = "")) as [->|Hn]|];
        (destruct department' as [d|]; [destruct (decide (d = "")) as [->|Hd]|]);
        rewrite ?(bool_decide_eq_true_2 (n ≠ "")) by done;
        rewrite ?(bool_decide_eq_true_2 (d ≠ "")) by done;
        by split_and!.
Qed.

End ProfileFacts.
Section DirectoryWitnesses.
Import Users.

Lemma getCrewMember_visibility_witness :
  findUserByEmployeeId "AA12345" initialUsers = Some captain
  ∧ isActive captain = true
  ∧ ∃ shown,
      Directory.getCrewMember flightAttendantClaims "AA12345" initialUsers
      = Replied 200 (Auth.success None (Some [("crewMember", JObj shown)]))
      ∧ shown.*1 = ["employeeId"; "name"; "role"; "department"; "airline"].
Proof.
  split; [reflexivity|]. split; [reflexivity|].
  destruct (proj2 (proj2 (getCrewMember_visibility flightAttendantClaims "AA12345"
                            initialUsers)) captain eq_refl eq_refl)
    as (shown & Hreply & _ & _ & _ & _ & _ & _ & _ & _ & Hkeys).
  exists shown. split; [exact Hreply|exact Hkeys].
Defined.

Lemma crew_listing_shows_lock_state_witness :
  (∀ sortBy' sortOrder' (l : list (list (string * JsValue))),
     Demo.keepOrder sortBy' sortOrder' l ≡ₚ l)
  ∧ getField "password" (withoutPassword troubledCaptain) = None
  ∧ getField "failedLoginAttempts" (withoutPassword troubledCaptain) = Some (JNum 3)
  ∧ getField "accountLockedUntil" (withoutPassword troubledCaptain)
    = Some (JTime 1705400000000).
Proof.
  split; [done|].
  destruct (proj2 (proj2 (crew_listing_shows_lock_state Demo.keepOrder
                            (λ _ _ _, reflexivity _) [troubledCaptain]
                            (withoutPassword troubledCaptain)))
              troubledCaptain eq_refl) as (Hp & _ & Hf & Hl).
  split; [exact Hp|]. split; [exact Hf|exact Hl].
Defined.

Lemma deleteUser_deactivates_witness :
  findById "user-001" initialUsers = Some (0%nat, captain)
  ∧ findByEmployeeId "AA12345" initialUsers = Some (0%nat, captain)
  ∧ Auth.isLocked 1705400060000 captain = false
  ∧ threwCode
      (Auth.login Demo.bcrypt (Demo.jwt []) Demo.env 1705400060000 "token-1" "AA12345"
         "any password" (deleteUser 1705400000000 "user-001" initialUsers).1).1
    = Some "ACCOUNT_DEACTIVATED".
Proof.
  split; [reflexivity|]. split; [reflexivity|]. split; [reflexivity|].
  destruct (proj2 (deleteUser_deactivates Demo.bcrypt (Demo.jwt []) Demo.env
                     1705400000000 "user-001" initialUsers)
              0%nat captain eq_refl eq_refl) as (_ & _ & _ & _ & _ & Hlogin & _).
  exact (f_equal (λ r, threwCode r.1)
           (Hlogin 1705400060000 "token-1" "any password" eq_refl)).
Defined.

Lemma setUserLockStatus_locks_and_unlocks_witness :
  findUserByEmployeeId "AA12345" initialUsers = Some captain
  ∧ 1705400060000 < 1705400000000 + 24 * 60 * 60 * 1000
  ∧ threwCode
      (Auth.login Demo.bcrypt (Demo.jwt []) Demo.env 1705400060000 "token-1" "AA12345"
         "any password" (setUserLockStatus 1705400000000 "AA12345" true initialUsers).1).1
    = Some "ACCOUNT_LOCKED".
Proof.
  split; [reflexivity|]. split; [lia|].
  destruct (proj2 (setUserLockStatus_locks_and_unlocks Demo.bcrypt (Demo.jwt []) Demo.env
                     1705400000000 "AA12345" initialUsers) captain eq_refl)
    as (_ & _ & Hlocked & _).
  apply (Hlocked 1705400060000 "token-1" "any password"). lia.
Defined.

(** In the store the module starts with, the dispatcher AA12349 and the
    captain DL54321 share the id user-006: locking the captain's account
    replaces the dispatcher's record, and the dispatcher is not found any
    more. *)
Lemma shared_id_write_replaces_first_user_witness :
  (∃ u v, findByEmployeeId "DL54321" initialUsers = Some (6%nat, u)
          ∧ findById (id u) initialUsers = Some (5%nat, v)
          ∧ employeeId v = "AA12349")
  ∧ findUserByEmployeeId "AA12349"
      (setUserLockStatus 1705400000000 "DL54321" true initialUsers).1 = None.
Proof.
  split; [by eexists _, _|].
  destruct (proj2 (shared_id_write_replaces_first_user initialUsers "DL54321" 6 5 _ _
                     eq_refl eq_refl ltac:(lia)) 1705400000000 true)
    as (u' & _ & _ & _ & Hgone).
  apply Hgone; [discriminate|].
  intros j y Hj Hy.
  do 8 (destruct j as [|j]; [injection Hj as <-; (done || discriminate)|]).
  done.
Defined.

Lemma resetUserPassword_unlocks_witness :
  findUserByEmployeeId "AA12345" [troubledCaptain] = Some troubledCaptain
  ∧ isActive troubledCaptain = true
  ∧ Auth.isLocked 1705399000000 troubledCaptain = true
  ∧ replied
      (Auth.login Demo.bcrypt (Demo.jwt []) Demo.env 1705399000000 "token-1" "AA12345"
         "NewPass1!"
         (resetUserPassword Demo.bcrypt 1705398000000 "salt" "AA12345" "NewPass1!"
            [troubledCaptain]).1).1 = true.
Proof.
  split; [reflexivity|]. split; [reflexivity|]. split; [reflexivity|].
  destruct (proj2 (resetUserPassword_unlocks Demo.bcrypt (Demo.jwt []) Demo.env
                     1705398000000 "salt" "AA12345" "NewPass1!" [troubledCaptain])
              troubledCaptain eq_refl) as (u' & _ & _ & _ & _ & _ & Hlogin).
  exact (Hlogin eq_refl 1705399000000 "token-1" "NewPass1!").
Defined.

Definition newPilot : Auth.Registration :=
  {| Auth.employeeId := "AA99999"; Auth.password := "Str0ng!Pass";
     Auth.name := "New Pilot"; Auth.role := "pilot";
     Auth.department := "flight-operations"; Auth.clearanceLevel := 5;
     Auth.airline := "American Airlines" |}.

Lemma register_then_login_witness :
  findUserByEmployeeId "AA99999" initialUsers = None
  ∧ ∃ newUser,
      (Auth.register Demo.bcrypt (Demo.jwt []) Demo.env 1705400000000 "user-009" "salt"
         "token-1" newPilot initialUsers).2 = initialUsers ++ [newUser]
      ∧ clearanceLevel newUser = 5
      ∧ replied
          (Auth.login Demo.bcrypt (Demo.jwt []) Demo.env 1705400060000 "token-2"
             "AA99999" "Str0ng!Pass" (initialUsers ++ [newUser])).1 = true.
Proof.
  split; [reflexivity|].
  destruct (proj2 (register_then_login Demo.bcrypt (Demo.jwt []) Demo.env 1705400000000
                     "user-009" "salt" "token-1" newPilot initialUsers) eq_refl)
    as (newUser & data & Hreg & _ & _ & _ & _ & _ & _ & Hc & _ & _ & _ & _ & Hlogin).
  exists newUser. split; [by rewrite Hreg|]. split; [exact Hc|].
  by apply Hlogin.
Defined.

Lemma updateProfile_witness :
  Middleware.employeeId flightAttendantClaims ≠ "AA12345"
  ∧ Middleware.clearanceLevel flightAttendantClaims < 4
  ∧ Crew.updateProfile 1705400000000 flightAttendantClaims "AA12345" (Some "Admin") None
      initialUsers
    = (Threw (appError "Insufficient permissions to update this profile" 403
                "UPDATE_PERMISSION_DENIED"), initialUsers).
Proof.
  assert (Middleware.employeeId flightAttendantClaims ≠ "AA12345") as H1 by discriminate.
  assert (Middleware.clearanceLevel flightAttendantClaims < 4) as H2 by (by vm_compute).
  split; [exact H1|]. split; [exact H2|].
  exact (proj1 (updateProfile_changes_name_and_department 1705400000000
                  flightAttendantClaims "AA12345" (Some "Admin") None initialUsers)
           (conj H1 H2)).
Defined.

End DirectoryWitnesses.

(** ** Messages: read marks and unread counters *)

Section CountingFacts.
Context {A : Type} (P : A → Prop) `{∀ x, Decision (P x)}.

(** Replacing one element changes the number of elements with a property by
    what the two elements differ in. *)
Lemma length_filter_insert (l : list A) (i : nat) (x y : A) :
  l !! i = Some x →
  (length (filter P (<[i := y]> l)) + (if decide (P x) then 1 else 0)
   = length (filter P l) + (if decide (P y) then 1 else 0))%nat.
Proof.
  intros Hi. pose proof (lookup_lt_Some _ _ _ Hi) as Hlen.
  rewrite insert_take_drop by done.
  rewrite <- (take_drop_middle l i x Hi) at 3.
  rewrite !filter_app, !filter_cons, !length_app.
  destruct (decide (P x)), (decide (P y)); cbn [length]; lia.
Qed.

Lemma length_filter_or (Q : A → Prop) `{∀ x, Decision (Q x)} (l : list A) :
  (∀ x, P x → Q x → False) →
  length (filter (λ x, P x ∨ Q x) l) = (length (filter P l) + length (filter Q l))%nat.
Proof.
  intros Hdisj. induction l as [|x l IH]; [done|].
  rewrite !filter_cons.
  destruct (decide (P x)) as [HP|HP], (decide (Q x)) as [HQ|HQ];
    try (by destruct (Hdisj x)).
  - rewrite decide_True by auto. cbn [length]. lia.
  - rewrite decide_True by auto. cbn [length]. lia.
  - rewrite decide_False by tauto. done.
Qed.

End CountingFacts.

Section ReadMarkFacts.
Import Messages.

(** Writing back the message found under an id replaces it where it was. *)
Lemma message_writeBack (messages : list Message) id' p m m' :
  findById id' messages = Some (p, m) → id m' = id m →
  updateMessage m' (<[p := m']> messages) = (<[p := m']> messages, true).
Proof.
  intros (Hp & Hid & Hleast)%list_find_Some Hm'.
  unfold updateMessage, findById.
  rewrite (proj2 (list_find_Some _ _ p m')).
  - by rewrite list_insert_insert_eq.
  - split_and!.
    + apply list_lookup_insert_eq. eauto using lookup_lt_Some.
    + done.
    + intros j y Hj Hjp. rewrite list_lookup_insert_ne in Hj by lia.
      rewrite Hm', Hid. by apply (Hleast j y).
Qed.

(** A message that has been marked is found where it was, marked. *)
Lemma findById_marked (messages : list Message) id' p m now :
  findById id' messages = Some (p, m) →
  findById id' (<[p := markRead now m]> messages) = Some (p, markRead now m).
Proof.
  intros (Hp & Hid & Hleast)%list_find_Some. apply list_find_Some. split_and!.
  - apply list_lookup_insert_eq. eauto using lookup_lt_Some.
  - done.
  - intros j y Hj Hjp. rewrite list_lookup_insert_ne in Hj by lia. by apply (Hleast j y).
Qed.

Lemma unread_after_mark (messages : list Message) e p m now :
  messages !! p = Some m → recipientId m = e → readAt m = None →
  getUnreadCount e (<[p := markRead now m]> messages) = getUnreadCount e messages - 1
  ∧ ∀ other, other ≠ e →
      getUnreadCount other (<[p := markRead now m]> messages)
      = getUnreadCount other messages.
Proof.
  intros Hp He Hr. unfold getUnreadCount. split.
  - pose proof (length_filter_insert (unreadFor e) messages p m (markRead now m) Hp) as Hc.
    rewrite decide_True in Hc by done.
    rewrite decide_False in Hc by (by intros [_ ?]). lia.
  - intros other Hne.
    pose proof (length_filter_insert (unreadFor other) messages p m (markRead now m) Hp)
      as Hc.
    rewrite !decide_False in Hc by (intros [? _]; cbn in *; congruence). lia.
Qed.

(** X19.  [markAsRead] returns false and changes nothing when the message
    does not exist or the employee is not its recipient, and returns true
    and changes nothing when the message is already read.  For the
    recipient of an unread message it sets the read time at the place of the
    message, which lowers the recipient's unread count by one and leaves the
    count of everyone else as it is; marking the message again, at any
    later time, keeps the first read time. *)
Theorem markAsRead_lowers_unread_count (now : Z) (messageId e : string)
    (messages : list Message) :
  (findMessageById messageId messages = None →
   markAsRead now messageId e messages = (messages, false))
  ∧ ∀ at_ m, findById messageId messages = Some (at_, m) →
      (recipientId m ≠ e → markAsRead now messageId e messages = (messages, false))
      ∧ (recipientId m = e → readAt m ≠ None →
         markAsRead now messageId e messages = (messages, true))
      ∧ (recipientId m = e → readAt m = None →
         let messages' := <[at_ := markRead now m]> messages in
         markAsRead now messageId e messages = (messages', true)
         ∧ getUnreadCount e messages' = getUnreadCount e messages - 1
         ∧ (∀ other, other ≠ e →
              getUnreadCount other messages' = getUnreadCount other messages)
         ∧ ∀ later, markAsRead later messageId e messages' = (messages', true)).
Proof.
  split.
  - unfold findMessageById, markAsRead.
    by destruct (findById messageId messages) as [[??]|].
  - intros at_ m Hfind. pose proof Hfind as (Hat & _)%list_find_Some.
    unfold markAsRead. rewrite Hfind. split_and!.
    + intros Hne. by rewrite decide_True.
    + intros He Hr. rewrite decide_False by (by intros ?).
      by destruct (readAt m).
    + intros He Hr. cbv zeta. rewrite decide_False by (by intros ?). rewrite Hr.
      destruct (unread_after_mark messages e at_ m now Hat He Hr) as [Hc Ho].
      split_and!; try done.
      * by apply (message_writeBack messages messageId at_ m).
      * intros later.
        rewrite (findById_marked messages messageId at_ m now Hfind).
        by rewrite decide_False by (by intros ?).
Qed.

(** X21.  The unread counters.  [GET /messages/unread/count] reports what
    [getUnreadCount] and [getUnreadByPriority] compute.  The counter of
    every priority is the number of the employee's unread messages of that
    priority, the four standard priorities are always present, and the
    messages requiring attention are as many as the urgent and the high
    counters together.  The counters are read as a map from the priorities
    that occur, as [tally] models them. *)
Theorem unread_counters_agree (reqUser : Middleware.ReqUser) (messages : list Message) :
  let e := Middleware.employeeId reqUser in
  let byPriority := getUnreadByPriority e messages in
  unreadCount reqUser messages = (getUnreadCount e messages, byPriority)
  ∧ (∀ p, default 0 (byPriority !! p)
          = Z.of_nat (length (filter (λ m, priority m = p)
                                (filter (unreadFor e) messages))))
  ∧ (∀ p, p ∈ ["urgent"; "high"; "normal"; "low"] → is_Some (byPriority !! p))
  ∧ Z.of_nat (length (getMessagesRequiringAttention e messages))
    = default 0 (byPriority !! "urgent") + default 0 (byPriority !! "high")
  ∧ Z.of_nat (length (getMessagesRequiringAttention e messages))
    ≤ getUnreadCount e messages.
Proof.
  intros e byPriority.
  assert (∀ p, default 0 (byPriority !! p)
               = Z.of_nat (length (filter (λ m, priority m = p)
                                     (filter (unreadFor e) messages)))) as Hcount.
  { intros p. subst byPriority. unfold getUnreadByPriority. rewrite tally_lookup.
    assert (default 0 (noUnread !! p) = 0) as Hzero.
    { unfold noUnread. destruct (decide (p = "urgent")) as [->|]; [done|].
      destruct (decide (p = "high")) as [->|]; [done|].
      destruct (decide (p = "normal")) as [->|]; [done|].
      destruct (decide (p = "low")) as [->|]; [done|].
      by rewrite !lookup_insert_ne, lookup_singleton_ne by done. }
    case_decide as Hnil; [by rewrite Hnil, Hzero|]. cbn [default]. rewrite Hzero. apply Z.add_0_l. }
  assert (getMessagesRequiringAttention e messages
          = filter (λ m, priority m = "urgent" ∨ priority m = "high")
              (filter (unreadFor e) messages)) as Hatt.
  { unfold getMessagesRequiringAttention. rewrite list_filter_filter.
    apply list_filter_iff. intros m. unfold unreadFor. tauto. }
  split_and!.
  - done.
  - done.
  - intros p Hp. subst byPriority. unfold getUnreadByPriority. rewrite tally_lookup.
    case_decide; [|done]. unfold noUnread.
    repeat (apply elem_of_cons in Hp as [->|Hp]; [by eexists|]).
    by apply elem_of_nil in Hp.
  - rewrite Hatt, !Hcount.
    rewrite (length_filter_or (λ m, priority m = "urgent") (λ m, priority m = "high"))
      by (intros m ??; congruence).
    lia.
  - rewrite Hatt. unfold getUnreadCount.
    pose proof (length_filter (λ m, priority m = "urgent" ∨ priority m = "high")
                  (filter (unreadFor e) messages)). lia.
Qed.

Context (G : Encryption.GcmPrimitive).

Definition alreadyRead : AppError :=
  appError "Message already marked as read" 400 "MESSAGE_ALREADY_READ".

(** X22.  Reading a message with [GET /messages/:id] marks it read when the
    reader is its recipient and it was unread: the read time is set at the
    place of the message and the recipient's unread count goes down by one;
    a later read changes nothing more, and a later [PUT /messages/:id/read]
    is refused with MESSAGE_ALREADY_READ.  A read by the sender, or of a
    message already read, leaves the store as it is.  [PUT
    /messages/:id/read] is for the recipient only, and marks an unread
    message the same way. *)
Theorem reading_marks_message_read (now : Z) (reqUser : Middleware.ReqUser)
    (id' : string) (messages : list Message) (at_ : nat) (m : Message) :
  findById id' messages = Some (at_, m) →
  let e := Middleware.employeeId reqUser in
  let messages' := <[at_ := markRead now m]> messages in
  (recipientId m = e → readAt m = None →
     (getMessage G now reqUser id' messages).2 = messages'
     ∧ putRead now reqUser id' messages
       = (Replied 200 (Auth.success (Some "Message marked as read") None), messages')
     ∧ getUnreadCount e messages' = getUnreadCount e messages - 1
     ∧ (∀ later, (getMessage G later reqUser id' messages').2 = messages')
     ∧ (∀ later, putRead later reqUser id' messages' = (Threw alreadyRead, messages')))
  ∧ (recipientId m ≠ e →
     (getMessage G now reqUser id' messages).2 = messages
     ∧ putRead now reqUser id' messages = (Threw accessDenied, messages))
  ∧ (readAt m ≠ None → (getMessage G now reqUser id' messages).2 = messages).
Proof.
  intros Hfind e messages'. pose proof Hfind as (Hat & _)%list_find_Some.
  split_and!.
  - intros He Hr.
    destruct (unread_after_mark messages e at_ m now Hat He Hr) as [Hc _].
    pose proof (findById_marked messages id' at_ m now Hfind) as Hfind'.
    fold messages' in Hfind'.
    split_and!; try done.
    + unfold getMessage. rewrite Hfind. fold e.
      rewrite decide_False by (intros [_ ?]; done).
      rewrite !bool_decide_eq_true_2 by done. cbn [andb snd].
      by rewrite (message_writeBack messages id' at_ m).
    + unfold putRead. rewrite Hfind. fold e.
      rewrite decide_False by (by intros ?).
      rewrite bool_decide_eq_false_2 by (intros ?; done).
      by rewrite (message_writeBack messages id' at_ m).
    + intros later. unfold getMessage. rewrite Hfind'. fold e.
      rewrite decide_False by (intros [_ ?]; done).
      by rewrite (bool_decide_eq_false_2 (readAt (markRead now m) = None)), andb_false_r.
    + intros later. unfold putRead. rewrite Hfind'. fold e.
      rewrite decide_False by (by intros ?).
      by rewrite bool_decide_eq_true_2.
  - intros Hne. split.
    + unfold getMessage. rewrite Hfind. fold e. case_decide; [done|].
      by rewrite (bool_decide_eq_false_2 (recipientId m = e)).
    + unfold putRead. rewrite Hfind. fold e. by rewrite decide_True.
  - intros Hr. unfold getMessage. rewrite Hfind. fold e. case_decide; [done|].
    by rewrite (bool_decide_eq_false_2 (readAt m = None)), andb_false_r.
Qed.

End ReadMarkFacts.

Section BulkReadFacts.
Import Messages.

(** What marking as read for [e] at [now] can do to one message: nothing,
    or set the read time of an unread message addressed to [e]. *)
Definition marked (now : Z) (e : string) (m m' : Message) : Prop :=
  m' = m ∨ (recipientId m = e ∧ readAt m = None ∧ m' = markRead now m).

(** The id names a message of the store whose recipient is [e]. *)
Definition addressedTo (e : string) (messages : list Message) (messageId : string) : bool :=
  match findMessageById messageId messages with
  | Some m => bool_decide (recipientId m = e)
  | None => false
  end.

Lemma marked_id now e m m' : marked now e m m' → id m' = id m.
Proof. by intros [->|(_ & _ & ->)]. Qed.

Lemma marked_recipientId now e m m' : marked now e m m' → recipientId m' = recipientId m.
Proof. by intros [->|(_ & _ & ->)]. Qed.

Lemma marked_trans now e l1 l2 l3 :
  Forall2 (marked now e) l1 l2 → Forall2 (marked now e) l2 l3 →
  Forall2 (marked now e) l1 l3.
Proof.
  intros H12. revert l3. induction H12 as [|x y l k Hxy _ IH]; intros l3 H23.
  - by inversion H23.
  - inversion H23 as [|? z ? k' Hyz Hk]; subst. constructor; [|by apply IH].
    destruct Hyz as [->|(He & Hr & ->)]; [done|].
    destruct Hxy as [->|(_ & _ & ->)]; [by right|done].
Qed.

Lemma marked_refl now e l : Forall2 (marked now e) l l.
Proof. induction l; constructor; [by left|done]. Qed.

Lemma findById_marked_store now e l l' i :
  Forall2 (marked now e) l l' →
  match findById i l with
  | Some (p, m) => ∃ m', findById i l' = Some (p, m') ∧ marked now e m m'
  | None => findById i l' = None
  end.
Proof.
  unfold findById. induction 1 as [|x y l k Hxy _ IH]; [done|].
  cbn [list_find]. rewrite (marked_id _ _ _ _ Hxy).
  destruct (decide (id x = i)); [by eexists|].
  destruct (list_find _ l) as [[p m]|]; cbn.
  - destruct IH as (m' & -> & Hm). by eexists.
  - by rewrite IH.
Qed.

Lemma addressedTo_marked_store now e l l' i :
  Forall2 (marked now e) l l' → addressedTo e l' i = addressedTo e l i.
Proof.
  intros Hm. pose proof (findById_marked_store now e l l' i Hm) as Hf.
  unfold addressedTo, findMessageById.
  destruct (findById i l) as [[p m]|].
  - destruct Hf as (m' & -> & Hmm). cbn. by rewrite (marked_recipientId _ _ _ _ Hmm).
  - by rewrite Hf.
Qed.

Lemma read_stays_read now e l l' i m :
  Forall2 (marked now e) l l' →
  findMessageById i l = Some m → readAt m ≠ None →
  findMessageById i l' = Some m.
Proof.
  intros Hm. pose proof (findById_marked_store now e l l' i Hm) as Hf.
  unfold findMessageById. destruct (findById i l) as [[p m0]|]; [|done].
  intros [= ->] Hr. destruct Hf as (m' & -> & [->|(_ & ? & _)]); done.
Qed.

Lemma unread_marked_store now e l l' :
  Forall2 (marked now e) l l' →
  getUnreadCount e l' ≤ getUnreadCount e l
  ∧ ∀ other, other ≠ e → getUnreadCount other l' = getUnreadCount other l.
Proof.
  unfold getUnreadCount. induction 1 as [|x y l k Hxy _ [IHe IHo]]; [done|]. split.
  - rewrite !filter_cons.
    destruct Hxy as [->|(He & Hr & ->)].
    + destruct (decide (unreadFor e x)); cbn [length]; lia.
    + rewrite (decide_True (P := unreadFor e x)) by done.
      rewrite (decide_False (P := unreadFor e (markRead now x))) by (by intros [_ ?]).
      cbn [length]. lia.
  - intros other Hne. specialize (IHo other Hne). rewrite !filter_cons.
    destruct Hxy as [->|(He & Hr & ->)].
    + destruct (decide (unreadFor other x)); cbn [length]; lia.
    + rewrite !decide_False by (intros [? _]; cbn in *; congruence). done.
Qed.

Lemma markAsRead_marked now e i messages :
  Forall2 (marked now e) messages (markAsRead now i e messages).1
  ∧ (markAsRead now i e messages).2 = addressedTo e messages i
  ∧ (addressedTo e messages i →
     ∃ m', findMessageById i (markAsRead now i e messages).1 = Some m'
           ∧ readAt m' ≠ None).
Proof.
  unfold markAsRead, addressedTo, findMessageById.
  destruct (findById i messages) as [[p m]|] eqn:Hfind; cbn [fmap option_fmap option_map snd].
  2: { split_and!; [apply marked_refl|done|done]. }
  pose proof Hfind as (Hp & _)%list_find_Some.
  destruct (decide (recipientId m ≠ e)) as [Hne|He].
  { rewrite bool_decide_eq_false_2 by done. split_and!; [apply marked_refl|done|done]. }
  apply dec_stable in He. rewrite bool_decide_eq_true_2 by done.
  destruct (readAt m) as [t|] eqn:Hr.
  { split_and!; [apply marked_refl|done|]. intros _. exists m. cbn [fst]. rewrite Hfind.
    split; [done|]. by rewrite Hr. }
  rewrite (message_writeBack messages i p m) by done. cbn [fst snd]. split_and!.
  - rewrite <- (list_insert_id messages p m Hp) at 1.
    apply Forall2_insert; [apply marked_refl|]. by right.
  - done.
  - intros _. exists (markRead now m).
    by rewrite (findById_marked messages i p m now Hfind).
Qed.

Lemma markMultipleAsRead_from now e ids messages count :
  let result :=
    foldl (λ state messageId,
             let '(messages, markedCount) := state in
             let '(messages, marked) := markAsRead now messageId e messages in
             (messages, if marked then markedCount + 1 else markedCount))
      (messages, count) ids in
  Forall2 (marked now e) messages result.1
  ∧ result.2 = count + Z.of_nat (length (filter (λ i, addressedTo e messages i) ids))
  ∧ ∀ i, i ∈ ids → addressedTo e messages i →
      ∃ m', findMessageById i result.1 = Some m' ∧ readAt m' ≠ None.
Proof.
  cbv zeta. revert messages count.
  induction ids as [|i ids IH]; intros messages count.
  { cbn. split_and!; [apply marked_refl|lia|]. by intros i ?%elem_of_nil. }
  cbn [foldl].
  destruct (markAsRead_marked now e i messages) as (Hm & Hflag & Hread).
  destruct (markAsRead now i e messages) as [messages1 flag]. cbn [fst snd] in *.
  destruct (IH messages1 (if flag then count + 1 else count)) as (Hm' & Hcount & Hall).
  split_and!.
  - by eapply marked_trans.
  - rewrite Hcount. rewrite filter_cons.
    rewrite (list_filter_iff (λ j, addressedTo e messages1 j)
               (λ j, addressedTo e messages j))
      by (intros j; by rewrite (addressedTo_marked_store now e messages messages1)).
    rewrite <- Hflag. destruct flag; [rewrite decide_True by done|rewrite decide_False by (cbn; tauto)];
      cbn [length]; lia.
  - intros j [->|Hj]%elem_of_cons Haddr.
    + destruct (Hread Haddr) as (m' & Hf & Hr). exists m'. split; [|done].
      by apply (read_stays_read now e messages1).
    + apply Hall; [done|].
      by rewrite (addressedTo_marked_store now e messages messages1).
Qed.

(** X20.  [markMultipleAsRead] counts the ids of the list that name a
    message addressed to the employee, an id as often as the list repeats
    it and also when its message had been read before; ids of no message
    or of somebody else's message are not counted.  Afterwards every such
    message is read.  The store changes only in the read times of unread
    messages addressed to the employee: the unread count of every other
    user is as before, and the employee's does not go up. *)
Theorem markMultipleAsRead_counts_addressed_ids (now : Z) (messageIds : list string)
    (e : string) (messages : list Message) :
  let result := markMultipleAsRead now messageIds e messages in
  result.2 = Z.of_nat (length (filter (λ i, addressedTo e messages i) messageIds))
  ∧ Forall2 (marked now e) messages result.1
  ∧ (∀ i, i ∈ messageIds → addressedTo e messages i →
       ∃ m', findMessageById i result.1 = Some m' ∧ readAt m' ≠ None)
  ∧ (∀ other, other ≠ e → getUnreadCount other result.1 = getUnreadCount other messages)
  ∧ getUnreadCount e result.1 ≤ getUnreadCount e messages.
Proof.
  cbv zeta. unfold markMultipleAsRead.
  destruct (markMultipleAsRead_from now e messageIds messages 0) as (Hm & Hcount & Hall).
  destruct (unread_marked_store now e _ _ Hm) as [He Ho].
  split_and!; done.
Qed.

End BulkReadFacts.

(** ** Messages: what the routes show *)

Section MessageViewFacts.
Import Messages.
Context (G : Encryption.GcmPrimitive).

Lemma getField_setContent (value : string) (o : JsObject) (old : JsValue) :
  getField "content" o = Some old →
  getField "content" (setContent value o) = Some (JStr value).
Proof.
  unfold setContent. induction o as [|[k v] o IH]; [done|].
  cbn [getField fmap list_fmap fst].
  destruct (String.eqb k "content") eqn:Hk; cbn [getField fst]; rewrite Hk; [done|apply IH].
Qed.

Lemma getField_setContent_other (key value : string) (o : JsObject) :
  key ≠ "content" → getField key (setContent value o) = getField key o.
Proof.
  intros Hkey. unfold setContent. induction o as [|[k v] o IH]; [done|].
  cbn [getField fmap list_fmap fst].
  destruct (String.eqb_spec k "content") as [->|Hne]; cbn [getField fst].
  - rewrite (proj2 (String.eqb_neq "content" key)) by done. apply IH.
  - by rewrite IH.
Qed.

(** The copy of a message without the key and the original content. *)
Lemma stripped_fields (msg : Message) :
  let o := omit ["encryptionKey"; "originalContent"] (toObject msg) in
  getField "encryptionKey" o = None ∧ getField "originalContent" o = None
  ∧ getField "id" o = Some (JStr (id msg))
  ∧ getField "content" o = Some (JStr (content msg))
  ∧ getField "readAt" o = Some (optJ JTime (readAt msg)).
Proof. by split_and!. Qed.

Lemma forReader_hides (reader : string) (msg : Message) :
  getField "encryptionKey" (forReader G reader msg) = None
  ∧ getField "originalContent" (forReader G reader msg) = None.
Proof.
  destruct (stripped_fields msg) as (Hk & Ho & _). unfold forReader.
  repeat case_match; split; (apply getField_setContent_ne || idtac); done.
Qed.

(** What the query of [GET /messages] asks of a message, for the user [e]. *)
Definition wanted (e : string) (query : ListQuery) (msg : Message) : Prop :=
  (senderId msg = e ∨ recipientId msg = e)
  ∧ (queryType query = Some "sent" → senderId msg = e)
  ∧ (queryType query = Some "received" → recipientId msg = e)
  ∧ (∀ p, Users.truthy (queryPriority query) = Some p → priority msg = p)
  ∧ (∀ f, Users.truthy (queryFlightNumber query) = Some f → flightNumber msg = Some f)
  ∧ (∀ c, Users.truthy (queryCategory query) = Some c → category msg = c)
  ∧ (queryUnreadOnly query = Some "true" → recipientId msg = e ∧ readAt msg = None).

(** The query with [?page=page']. *)
Definition onPage (page' : Z) (query : ListQuery) : ListQuery :=
  {| queryType := queryType query; queryPriority := queryPriority query;
     queryFlightNumber := queryFlightNumber query; queryCategory := queryCategory query;
     queryPage := Some page'; queryLimit := queryLimit query;
     queryUnreadOnly := queryUnreadOnly query |}.

Lemma elem_of_userMessages (e : string) (query : ListQuery) (messages : list Message)
    (msg : Message) :
  msg ∈ userMessages e query messages ↔ msg ∈ messages ∧ wanted e query msg.
Proof.
  unfold userMessages, wanted, unreadFor.
  destruct (queryType query) as [type|]; cbn [default];
    repeat case_decide;
    destruct (Users.truthy (queryPriority query)) as [p|];
    destruct (Users.truthy (queryFlightNumber query)) as [f|];
    destruct (Users.truthy (queryCategory query)) as [c|];
    rewrite ?list_elem_of_filter;
    (split;
     [intros Hin; repeat match goal with Hc : _ ∧ _ |- _ => destruct Hc end;
      split_and!; try done; try tauto; intros; simplify_eq; done
     |intros (Hin & Hany & Hsent & Hrecv & Hp & Hf & Hc & Hunread);
      unfold Datatypes.id in *; subst;
      split_and?; eauto;
      try (by apply Hunread); try (by apply Hsent); try (by apply Hrecv)]).
Qed.

Section Sorted.
Variable sort : list Message → list Message.
Hypothesis sort_rearranges : ∀ l, sort l ≡ₚ l.

(** X25.  [GET /messages] lists only messages the requester sent or
    received, and only those the query asks for (type, priority, flight,
    category, and with [unreadOnly=true] only unread messages addressed to the
    requester); each is shown as [GET /messages/:id] shows it, without the
    key and the original content.  With a limit of at least one, every such
    message is on one of the pages. *)
Theorem inbox_lists_wanted_messages (reqUser : Middleware.ReqUser) (query : ListQuery)
    (messages : list Message) :
  let e := Middleware.employeeId reqUser in
  (∀ shown, shown ∈ listed G sort reqUser query messages →
     ∃ msg, msg ∈ messages ∧ wanted e query msg ∧ shown = forReader G e msg
            ∧ getField "encryptionKey" shown = None
            ∧ getField "originalContent" shown = None)
  ∧ (1 ≤ default 20 (queryLimit query) →
     ∀ msg, msg ∈ messages → wanted e query msg →
       ∃ page', forReader G e msg ∈ listed G sort reqUser (onPage page' query) messages).
Proof.
  intros e. split.
  - intros shown (msg & -> & Hin)%list_elem_of_fmap.
    apply elem_of_slice in Hin. rewrite sort_rearranges in Hin.
    apply elem_of_userMessages in Hin as [Hin Hwanted].
    exists msg. destruct (forReader_hides e msg). by split_and!.
  - intros Hlimit msg Hin Hwanted.
    assert (msg ∈ sort (userMessages e query messages)) as Hsorted.
    { rewrite sort_rearranges. by apply elem_of_userMessages. }
    apply list_elem_of_lookup in Hsorted as [i Hi].
    exists (Z.of_nat i / default 20 (queryLimit query) + 1).
    unfold listed. apply list_elem_of_fmap. exists msg. split; [done|].
    apply (paginate_covers (sort (userMessages e query messages))
             (default 20 (queryLimit query)) i msg Hlimit Hi).
Qed.

(** What [GET /messages/flight/:flightNumber] shows of a message. *)
Definition flightView (msg : Message) (o : JsObject) : Prop :=
  getField "id" o = Some (JStr (id msg))
  ∧ getField "content" o
    = Some (JStr (if isEncrypted msg then "[Encrypted Message]" else content msg))
  ∧ getField "encryptionKey" o = None
  ∧ getField "originalContent" o = None.

Lemma flightView_processed (msg : Message) :
  flightView msg
    (let processedMsg := omit ["encryptionKey"; "originalContent"] (toObject msg) in
     if isEncrypted msg then setContent "[Encrypted Message]" processedMsg
     else processedMsg).
Proof.
  destruct (stripped_fields msg) as (Hk & Ho & Hid & Hc & _). unfold flightView. cbv zeta.
  destruct (isEncrypted msg); [|done]. split_and!.
  - by rewrite getField_setContent_other.
  - by eapply getField_setContent.
  - by apply getField_setContent_ne.
  - by apply getField_setContent_ne.
Qed.

(** X24.  [GET /messages/flight/:flightNumber] is closed to every role but
    pilot, co-pilot and dispatcher (INSUFFICIENT_ROLE).  To a user of one of
    these roles it shows messages of that flight only, and, with a limit of
    at least one, every message of the flight on one of the pages, whether
    the user is its sender, its recipient or neither: without the key and
    the original content, with the content of an encrypted message replaced
    by [[Encrypted Message]] and the content of any other message as it is
    stored. *)
Theorem flight_listing_masks_encrypted_content (reqUser : Middleware.ReqUser)
    (flightNumber' : string) (page limit : option Z) (messages : list Message) :
  let allowed := ["pilot"; "co-pilot"; "dispatcher"] in
  (Middleware.role reqUser ∉ allowed →
     ∃ rejected,
       flightRoute sort reqUser flightNumber' page limit messages = inl rejected
       ∧ Middleware.rejectionCode rejected = Some (JStr "INSUFFICIENT_ROLE"))
  ∧ (Middleware.role reqUser ∈ allowed →
     (∃ shown,
        flightRoute sort reqUser flightNumber' page limit messages = inr shown
        ∧ ∀ o, o ∈ shown →
            ∃ msg, msg ∈ messages ∧ flightNumber msg = Some flightNumber'
                   ∧ flightView msg o)
     ∧ (1 ≤ default 20 limit →
        ∀ msg, msg ∈ messages → flightNumber msg = Some flightNumber' →
          ∃ page' shown o,
            flightRoute sort reqUser flightNumber' (Some page') limit messages
            = inr shown
            ∧ o ∈ shown ∧ flightView msg o)).
Proof.
  cbv zeta. unfold flightRoute, Middleware.requireRole. split.
  - intros Hrole. rewrite decide_True by done. by eexists.
  - intros Hrole. rewrite decide_False by (by intros ?). split.
    + eexists. split; [done|].
      intros o (msg & -> & Hin)%list_elem_of_fmap.
      apply elem_of_slice in Hin. rewrite sort_rearranges in Hin.
      apply list_elem_of_filter in Hin as [Hflight Hin].
      exists msg. split_and!; [done..|]. apply flightView_processed.
    + intros Hlimit msg Hin Hflight.
      assert (msg ∈ sort (findMessagesByFlight flightNumber' messages)) as Hsorted.
      { rewrite sort_rearranges. by apply list_elem_of_filter. }
      apply list_elem_of_lookup in Hsorted as [i Hi].
      exists (Z.of_nat i / default 20 limit + 1). eexists _, _.
      split; [done|]. split; [|apply (flightView_processed msg)].
      apply list_elem_of_fmap. exists msg. split; [done|].
      apply (paginate_covers (sort (findMessagesByFlight flightNumber' messages))
               (default 20 limit) i msg Hlimit Hi).
Qed.

End Sorted.

Definition encryptionFailed : Outcome :=
  Escaped "Message encryption failed: crypto.createCipherGCM is not a function".

Definition messageNotFound : AppError :=
  appError "Message not found" 404 "MESSAGE_NOT_FOUND".

Lemma send_plain_store (now : Z) (newId : string) (rndKey rndIV : bytes)
    (sender : Middleware.ReqUser) (body : SendBody) (users : list Users.User)
    (messages : list Message) (recipient : Users.User) :
  default true (bodyIsEncrypted body) = false →
  Users.findUserByEmployeeId (bodyRecipientId body) users = Some recipient →
  Users.isActive recipient = true →
  ∃ stored,
    (send G now newId rndKey rndIV sender body users messages).2 = messages ++ [stored]
    ∧ replied (send G now newId rndKey rndIV sender body users messages).1 = true
    ∧ id stored = newId
    ∧ senderId stored = Middleware.employeeId sender
    ∧ recipientId stored = bodyRecipientId body
    ∧ readAt stored = None
    ∧ encryptionKey stored = None
    ∧ content stored = bodyContent body.
Proof.
  intros Henc Hfind Hact. unfold send.
  rewrite Hfind, Hact, Henc. cbn [negb].
  eexists. split; [reflexivity|]. by split_and!.
Qed.

(** X23.  A message reaches its recipient only when it is sent unencrypted.
    [POST /messages] with [isEncrypted] true, the default, fails on
    [encryptMessage]: the error escapes the handler, nothing is stored, and
    there is no message to read under the new id.  With [isEncrypted] false
    the message is stored in clear under the new id and the recipient's
    unread count goes up by one; when the recipient reads it with
    [GET /messages/:id] the response shows the text that was sent, with the
    read time set, and the unread count is back where it was; when the
    sender reads it the store stays as it is.  And whatever record the store
    holds with [isEncrypted] true and a key, its recipient is shown
    [[Encrypted message - decryption failed]] in place of the content. *)
Theorem sent_message_reaches_recipient_unencrypted (now later : Z) (newId : string)
    (rndKey rndIV : bytes) (sender reader : Middleware.ReqUser) (body : SendBody)
    (users : list Users.User) (messages : list Message) (recipient : Users.User) :
  Users.findUserByEmployeeId (bodyRecipientId body) users = Some recipient →
  Users.isActive recipient = true →
  findMessageById newId messages = None →
  let e := Middleware.employeeId reader in
  let sent := send G now newId rndKey rndIV sender body users messages in
  let read := getMessage G later reader newId sent.2 in
  (default true (bodyIsEncrypted body) = true →
     sent = (encryptionFailed, messages) ∧ read = (Threw messageNotFound, messages))
  ∧ (default true (bodyIsEncrypted body) = false →
     replied sent.1 = true
     ∧ getUnreadCount (bodyRecipientId body) sent.2
       = getUnreadCount (bodyRecipientId body) messages + 1
     ∧ (e = bodyRecipientId body →
        ∃ shown,
          read.1 = Replied 200 (Auth.success None (Some [("message", JObj shown)]))
          ∧ getField "content" shown = Some (JStr (bodyContent body))
          ∧ getField "readAt" shown = Some (JTime later)
          ∧ getUnreadCount e read.2 = getUnreadCount e messages)
     ∧ (e = Middleware.employeeId sender → e ≠ bodyRecipientId body →
        ∃ shown,
          read = (Replied 200 (Auth.success None (Some [("message", JObj shown)])),
                  sent.2)
          ∧ getField "content" shown = Some (JStr (bodyContent body))))
  ∧ (∀ id' at_ m key,
       findById id' messages = Some (at_, m) →
       recipientId m = e → isEncrypted m = true →
       encryptionKey m = Some key → key ≠ "" →
       ∃ shown,
         (getMessage G later reader id' messages).1
         = Replied 200 (Auth.success None (Some [("message", JObj shown)]))
         ∧ getField "content" shown
           = Some (JStr "[Encrypted message - decryption failed]")).
Proof.
  intros Hfind Hact Hfresh e sent read. split_and!.
  - intros Henc.
    assert (sent = (encryptionFailed, messages)) as Hsent.
    { subst sent. unfold send. rewrite Hfind, Hact, Henc. cbn [negb].
      by rewrite encryptMessage_throws. }
    split; [done|]. subst read. rewrite Hsent. cbn [snd]. unfold getMessage.
    unfold findMessageById in Hfresh. apply fmap_None in Hfresh. by rewrite Hfresh.
  - intros Henc.
    destruct (send_plain_store now newId rndKey rndIV sender body users messages
                recipient Henc Hfind Hact)
      as (stored & Hstore & Hreplied & Hid & Hs & Hr & Hread & Hk & Hc).
    fold sent in Hstore, Hreplied. subst read. rewrite Hstore.
    assert (findById newId (messages ++ [stored]) = Some (length messages, stored)) as Hf.
    { unfold findById. unfold findMessageById, findById in Hfresh.
      apply fmap_None in Hfresh. rewrite list_find_app_r by done.
      cbn [list_find]. rewrite decide_True by done. cbn. by rewrite ?Nat.add_0_r. }
    assert (getUnreadCount (bodyRecipientId body) (messages ++ [stored])
            = getUnreadCount (bodyRecipientId body) messages + 1) as Hup.
    { unfold getUnreadCount. rewrite filter_app, length_app.
      rewrite filter_cons, decide_True by done. cbn [filter list_filter length]. lia. }
    pose proof Hf as (Hat & _)%list_find_Some.
    split_and!.
    + done.
    + done.
    + intros He. unfold getMessage. rewrite Hf. fold e.
      rewrite decide_False by (intros [_ ?]; congruence).
      rewrite !bool_decide_eq_true_2 by congruence. cbn [andb snd fst].
      rewrite (message_writeBack (messages ++ [stored]) newId (length messages) stored)
        by done.
      cbn [fst snd]. eexists. split; [reflexivity|].
      destruct (stripped_fields (markRead later stored)) as (_ & _ & _ & Hcontent & Hra).
      destruct (unread_after_mark (messages ++ [stored]) e (length messages) stored later)
        as [Hdown _]; [done|congruence|done|].
      unfold forReader. cbn [markRead encryptionKey]. rewrite Hk.
      split_and!.
      * by rewrite <- Hc.
      * exact Hra.
      * rewrite Hdown, He, Hup. lia.
    + intros He Hne. unfold getMessage. rewrite Hf. fold e.
      rewrite decide_False by (intros [? _]; congruence).
      rewrite (bool_decide_eq_false_2 (recipientId stored = e)) by congruence.
      cbn [andb]. eexists. split; [reflexivity|].
      unfold forReader. rewrite Hk.
      destruct (stripped_fields stored) as (_ & _ & _ & Hcontent & _).
      by rewrite <- Hc.
  - intros id' at_ m key Hm He Henc Hkey Hne. unfold getMessage. rewrite Hm. fold e.
    rewrite decide_False by (intros [_ ?]; congruence).
    destruct (stripped_fields m) as (_ & _ & _ & Hcontent & _).
    destruct (stripped_fields (markRead later m)) as (_ & _ & _ & Hcontent' & _).
    destruct (bool_decide (recipientId m = e) && bool_decide (readAt m = None));
      cbn [fst]; eexists; (split; [reflexivity|]);
      unfold forReader; cbn [markRead encryptionKey recipientId isEncrypted content];
      rewrite Hkey, Henc, (bool_decide_eq_true_2 (recipientId m = e)) by done;
      rewrite (bool_decide_eq_true_2 (key ≠ "")) by done; cbn [andb];
      rewrite decryptMessage_throws; by eapply getField_setContent.
Qed.

End MessageViewFacts.

Section MessageRouteWitnesses.
Import Messages.

Definition routeChange : Message :=
  {| id := "msg-002"; senderId := "AA12349"; senderName := "Dispatcher Jennifer Wilson";
     senderRole := "dispatcher"; recipientId := "AA12345";
     recipientName := "Captain Sarah Johnson"; recipientRole := "pilot";
     content := "Flight plan revision: Route change due to air traffic. New routing via WYNDE waypoint.";
     originalContent := "Flight plan revision: Route change due to air traffic. New routing via WYNDE waypoint.";
     isEncrypted := false; encryptionKey := None; priority := "urgent";
     category := "flight-plan"; flightNumber := Some "AA1234"; status := "sent";
     readAt := None; createdAt := 1705326300000; updatedAt := 1705326300000 |}.

Definition firstOfficerClaims : Middleware.ReqUser :=
  {| Middleware.employeeId := "AA12346"; Middleware.name := "First Officer Mike Chen";
     Middleware.role := "co-pilot"; Middleware.department := "flight-operations";
     Middleware.clearanceLevel := 4; Middleware.airline := "American Airlines" |}.

Definition receivedUnread : ListQuery :=
  {| queryType := Some "received"; queryPriority := None; queryFlightNumber := None;
     queryCategory := None; queryPage := None; queryLimit := None;
     queryUnreadOnly := Some "true" |}.

Lemma reading_marks_message_read_witness :
  findById "msg-002" initialMessages = Some (1%nat, routeChange)
  ∧ recipientId routeChange = Middleware.employeeId captainClaims
  ∧ readAt routeChange = None
  ∧ getUnreadCount "AA12345"
      (getMessage Encryption.checksumGcm 1705400000000 captainClaims "msg-002"
         initialMessages).2
    = 1
  ∧ putRead 1705400060000 captainClaims "msg-002"
      (<[1%nat := markRead 1705400000000 routeChange]> initialMessages)
    = (Threw alreadyRead, <[1%nat := markRead 1705400000000 routeChange]> initialMessages).
Proof.
  split; [reflexivity|]. split; [reflexivity|]. split; [reflexivity|].
  destruct (proj1 (reading_marks_message_read Encryption.checksumGcm 1705400000000
                     captainClaims "msg-002" initialMessages 1%nat routeChange eq_refl)
              eq_refl eq_refl) as (Hstore & _ & Hcount & _ & Hput).
  split; [exact (eq_trans (f_equal (getUnreadCount "AA12345") Hstore) Hcount)|apply Hput].
Defined.

Definition plainNote : SendBody :=
  {| bodyRecipientId := "AA12346"; bodyContent := "Cabin secure";
     bodyPriority := None; bodyIsEncrypted := Some false; bodyFlightNumber := None;
     bodyCategory := None |}.

Lemma sent_message_reaches_recipient_witness :
  Users.findUserByEmployeeId "AA12346" Users.initialUsers = Some firstOfficer
  ∧ Users.isActive firstOfficer = true
  ∧ findMessageById "msg-005" initialMessages = None
  ∧ send Encryption.checksumGcm 1705400000000 "msg-005" demoKey demoIV
      captainClaims encryptedNote Users.initialUsers initialMessages
    = (encryptionFailed, initialMessages)
  ∧ ∃ shown,
      (getMessage Encryption.checksumGcm 1705400060000 firstOfficerClaims "msg-005"
         (send Encryption.checksumGcm 1705400000000 "msg-005" demoKey demoIV
            captainClaims plainNote Users.initialUsers initialMessages).2).1
      = Replied 200 (Auth.success None (Some [("message", JObj shown)]))
      ∧ getField "content" shown = Some (JStr "Cabin secure").
Proof.
  split; [reflexivity|]. split; [reflexivity|]. split; [reflexivity|]. split.
  - exact (proj1 (proj1 (sent_message_reaches_recipient_unencrypted
                           Encryption.checksumGcm 1705400000000 1705400060000
                           "msg-005" demoKey demoIV captainClaims firstOfficerClaims
                           encryptedNote Users.initialUsers initialMessages firstOfficer
                           eq_refl eq_refl eq_refl) eq_refl)).
  - destruct (proj1 (proj2 (proj2 (proj1 (proj2
                (sent_message_reaches_recipient_unencrypted
                   Encryption.checksumGcm 1705400000000 1705400060000
                   "msg-005" demoKey demoIV captainClaims firstOfficerClaims
                   plainNote Users.initialUsers initialMessages firstOfficer
                   eq_refl eq_refl eq_refl)) eq_refl))) eq_refl)
      as (shown & Hreply & Hcontent & _).
    exists shown. split; [exact Hreply|exact Hcontent].
Defined.

Lemma inbox_lists_wanted_messages_witness :
  (∀ l : list Message, Datatypes.id l ≡ₚ l)
  ∧ ∀ shown,
      shown ∈ listed Encryption.checksumGcm Datatypes.id captainClaims receivedUnread
                initialMessages →
      ∃ msg, msg ∈ initialMessages ∧ recipientId msg = "AA12345" ∧ readAt msg = None
             ∧ shown = forReader Encryption.checksumGcm "AA12345" msg.
Proof.
  split; [done|]. intros shown Hshown.
  destruct (proj1 (inbox_lists_wanted_messages Encryption.checksumGcm Datatypes.id
                     (λ _, reflexivity _) captainClaims receivedUnread initialMessages)
              shown Hshown) as (msg & Hin & Hwanted & Heq & _).
  exists msg. destruct Hwanted as (_ & _ & _ & _ & _ & _ & Hunread).
  destruct (Hunread eq_refl). by split_and!.
Defined.

Lemma flight_listing_masks_encrypted_content_witness :
  (∀ l : list Message, Datatypes.id l ≡ₚ l)
  ∧ (Middleware.role flightAttendantClaims ∉ ["pilot"; "co-pilot"; "dispatcher"])
  ∧ ∃ rejected,
      flightRoute Datatypes.id flightAttendantClaims "AA1234" None None initialMessages
      = inl rejected
      ∧ Middleware.rejectionCode rejected = Some (JStr "INSUFFICIENT_ROLE").
Proof.
  split; [done|].
  assert (Middleware.role flightAttendantClaims ∉ ["pilot"; "co-pilot"; "dispatcher"])
    as Hrole.
  { intros Hin. repeat (apply elem_of_cons in Hin as [Heq|Hin]; [discriminate Heq|]).
    by apply elem_of_nil in Hin. }
  split; [exact Hrole|].
  exact (proj1 (flight_listing_masks_encrypted_content
                  Datatypes.id (λ _, reflexivity _) flightAttendantClaims "AA1234"
                  None None initialMessages) Hrole).
Defined.

End MessageRouteWitnesses.

(** ** Documents: no file goes in or out *)

Section UploadFacts.
Import Documents.
Context (G : Encryption.GcmPrimitive).

Definition fileEncryptionFailed : Outcome :=
  Escaped "File encryption failed: crypto.createCipherGCM is not a function".

Lemma uploadEach_fails now reqUser body several file draw rest documents uploaded :
  uploadEach G now reqUser body several ((file, draw) :: rest) documents uploaded
  = (documents,
     Err "File encryption failed: crypto.createCipherGCM is not a function").
Proof. cbn [uploadEach]. by rewrite encryptFile_throws. Qed.

(** X26.  No file goes in or out through the documents routes.
    [POST /documents] never replies and never changes the store: past the
    checks of the files and of the access level, [encryptFile] throws on the
    first file and the error escapes the handler.
    [GET /documents/:id/download] never sends a file and never changes the
    store, so no download is counted or logged: for a document the
    requester may download, [decryptFile] throws and the handler answers
    DECRYPTION_FAILED. *)
Theorem no_file_is_stored_or_sent (now : Z) (reqUser : Middleware.ReqUser)
    (body : UploadBody) (files : list (UploadFile * Draw)) (id' : string)
    (documents : list Document) :
  let uploaded := upload G now reqUser body files documents in
  let sent := download G now reqUser id' documents in
  uploaded.2 = documents
  ∧ replied uploaded.1 = false
  ∧ (files ≠ [] → bodyAccessLevel body ≤ Middleware.clearanceLevel reqUser →
     uploaded.1 = fileEncryptionFailed)
  ∧ sent.2 = documents
  ∧ (∀ contentType fileName' content, sent.1 ≠ SentFile contentType fileName' content)
  ∧ (∀ at_ document,
       findById id' documents = Some (at_, document) →
       accessLevel document ≤ Middleware.clearanceLevel reqUser →
       isExpired now document = false →
       sent.1 = Threw decryptionFailed).
Proof.
  assert (upload G now reqUser body files documents
          = if decide (length files = 0%nat)
            then (Threw (appError "No files uploaded" 400 "NO_FILES"), documents)
            else if decide (bodyAccessLevel body > Middleware.clearanceLevel reqUser)
            then (Threw (appError "Insufficient clearance to set this access level" 403
                           "INSUFFICIENT_CLEARANCE"), documents)
            else (fileEncryptionFailed, documents)) as Hupload.
  { unfold upload. destruct (decide (length files = 0%nat)); [done|].
    destruct (decide (bodyAccessLevel body > Middleware.clearanceLevel reqUser));
      [done|].
    destruct files as [|[file draw] rest]; [done|]. by rewrite uploadEach_fails. }
  assert (∀ at_ document, findById id' documents = Some (at_, document) →
            download G now reqUser id' documents
            = if decide (accessLevel document > Middleware.clearanceLevel reqUser)
              then (Threw downloadDenied, documents)
              else if isExpired now document
              then (Threw (appError "Document has expired" 410 "DOCUMENT_EXPIRED"),
                    documents)
              else (Threw decryptionFailed, documents)) as Hdownload.
  { intros at_ document Hfind. unfold download. rewrite Hfind.
    by rewrite decryptFile_throws. }
  cbv zeta. rewrite Hupload. split_and!.
  - by repeat case_decide.
  - by repeat case_decide.
  - intros Hfiles Hlevel. rewrite decide_False by (by destruct files).
    by rewrite decide_False by lia.
  - destruct (findById id' documents) as [[at_ document]|] eqn:Hfind.
    + rewrite (Hdownload at_ document eq_refl). by repeat case_match.
    + unfold download. by rewrite Hfind.
  - intros contentType fileName' content.
    destruct (findById id' documents) as [[at_ document]|] eqn:Hfind.
    + rewrite (Hdownload at_ document eq_refl). by repeat case_match.
    + unfold download. by rewrite Hfind.
  - intros at_ document Hfind Hlevel Hexp. rewrite (Hdownload at_ document Hfind).
    rewrite decide_False by lia. by rewrite Hexp.
Qed.

End UploadFacts.

(** ** Documents: updates, deleted documents, the clean-up and the audit trail *)

Section DocumentUpdateFacts.
Import Documents.

Definition updateDenied : AppError :=
  appError "Insufficient permissions to update this document" 403 "UPDATE_ACCESS_DENIED".

Definition levelDenied : AppError :=
  appError "Insufficient clearance to set this access level" 403 "INSUFFICIENT_CLEARANCE".

(** The document after [PUT /documents/:id] with [body] by [reqUser]. *)
Definition updatedBy (now : Z) (reqUser : Middleware.ReqUser) (body : UpdateBody)
    (document updated : Document) : Prop :=
  id updated = id document
  ∧ encryptedContent updated = encryptedContent document
  ∧ encryptionKey updated = encryptionKey document
  ∧ fileName updated = fileName document
  ∧ fileSize updated = fileSize document
  ∧ mimeType updated = mimeType document
  ∧ uploadedBy updated = uploadedBy document
  ∧ status updated = status document
  ∧ downloadCount updated = downloadCount document
  ∧ createdAt updated = createdAt document
  ∧ updatedAt updated = now
  ∧ accessLog updated
    = accessLog document ++ [logEntry "updated" "Document metadata updated" reqUser now]
  ∧ title updated = default (title document) (given (newTitle body))
  ∧ description updated = default (description document) (newDescription body)
  ∧ category updated = default (category document) (given (newCategory body))
  ∧ accessLevel updated
    = match newAccessLevel body with
      | Some level => if decide (level = 0) then accessLevel document else level
      | None => accessLevel document
      end
  ∧ flightNumber updated = default (flightNumber document) (newFlightNumber body)
  ∧ expiresAt updated = default (expiresAt document) (newExpiresAt body).

Lemma update_done now reqUser id' body documents at_ document :
  findById id' documents = Some (at_, document) →
  uploadedBy document = Middleware.employeeId reqUser
  ∨ 4 ≤ Middleware.clearanceLevel reqUser →
  (∀ level, newAccessLevel body = Some level → level ≠ 0 →
     level ≤ Middleware.clearanceLevel reqUser) →
  ∃ updated,
    update now reqUser id' body documents
    = (Replied 200
         (Auth.success (Some "Document updated successfully")
            (Some [("document", JObj (docResponse updated))])),
       <[at_ := updated]> documents)
    ∧ updatedBy now reqUser body document updated
    ∧ findById id' (<[at_ := updated]> documents) = Some (at_, updated).
Proof.
  intros Hfind Hmay Hlevel. pose proof Hfind as (Hat & Hid & Hleast)%list_find_Some.
  unfold update. rewrite Hfind.
  rewrite decide_False by (intros [? ?]; destruct Hmay; [done|lia]).
  assert (match newAccessLevel body with
          | Some level =>
              bool_decide (level ≠ 0 ∧ level > Middleware.clearanceLevel reqUser)
          | None => false
          end = false) as ->.
  { destruct (newAccessLevel body) as [level|]; [|done].
    apply bool_decide_eq_false_2. intros [Hne Hgt].
    specialize (Hlevel level eq_refl Hne). lia. }
  eexists. rewrite (document_writeBack _ _ _ _ _ Hfind).
  2: { destruct (given (newTitle body)), (newDescription body),
         (given (newCategory body)), (newAccessLevel body) as [level|],
         (newFlightNumber body), (newExpiresAt body);
         try destruct (decide (level = 0)); done. }
  cbn [fst]. split; [reflexivity|]. split.
  - unfold updatedBy.
    destruct (given (newTitle body)), (newDescription body),
      (given (newCategory body)), (newAccessLevel body) as [level|],
      (newFlightNumber body), (newExpiresAt body);
      try destruct (decide (level = 0)); by split_and!.
  - apply list_find_Some. split_and!.
    + apply list_lookup_insert_eq. eauto using lookup_lt_Some.
    + destruct (given (newTitle body)), (newDescription body),
        (given (newCategory body)), (newAccessLevel body) as [level|],
        (newFlightNumber body), (newExpiresAt body);
        try destruct (decide (level = 0)); done.
    + intros j y Hj Hlt. rewrite list_lookup_insert_ne in Hj by lia. by apply (Hleast j y).
Qed.

(** X27.  [PUT /documents/:id] is open to the uploader and to every user
    with clearance 4 or more; everyone else gets UPDATE_ACCESS_DENIED, and a
    new access level above the requester's clearance gets
    INSUFFICIENT_CLEARANCE, the store unchanged.  Otherwise the record is
    rewritten in place: the id, the file, its encrypted content and key, the
    uploader, the status, the download count and the creation date stay, one
    [updated] entry is added to the access log, an empty title or category
    and an access level of 0 are ignored, and a description is taken even
    when empty.  The document's current access level is not compared with
    the requester's clearance: a user with clearance 4 who cannot read a
    level-5 document can lower its level and read it. *)
Theorem update_rewrites_metadata_in_place (now : Z) (reqUser : Middleware.ReqUser)
    (id' : string) (body : UpdateBody) (documents : list Document) (at_ : nat)
    (document : Document) :
  findById id' documents = Some (at_, document) →
  let clearance := Middleware.clearanceLevel reqUser in
  let mayUpdate :=
    uploadedBy document = Middleware.employeeId reqUser ∨ 4 ≤ clearance in
  (¬ mayUpdate → update now reqUser id' body documents = (Threw updateDenied, documents))
  ∧ (mayUpdate →
     ∀ level, newAccessLevel body = Some level → level ≠ 0 → clearance < level →
       update now reqUser id' body documents = (Threw levelDenied, documents))
  ∧ (mayUpdate →
     (∀ level, newAccessLevel body = Some level → level ≠ 0 → level ≤ clearance) →
     ∃ updated,
       update now reqUser id' body documents
       = (Replied 200
            (Auth.success (Some "Document updated successfully")
               (Some [("document", JObj (docResponse updated))])),
          <[at_ := updated]> documents)
       ∧ updatedBy now reqUser body document updated
       ∧ ∀ later level,
           newAccessLevel body = Some level → level ≠ 0 →
           isExpired later updated = false →
           replied (view later reqUser id' (<[at_ := updated]> documents)).1 = true).
Proof.
  intros Hfind clearance mayUpdate. subst mayUpdate clearance. split_and!.
  - intros Hno. unfold update. rewrite Hfind.
    rewrite decide_True; [done|]. split; [tauto|lia].
  - intros Hmay level Hbody Hne Hgt. unfold update. rewrite Hfind.
    rewrite decide_False by (intros [? ?]; destruct Hmay; [done|lia]).
    rewrite Hbody. rewrite bool_decide_eq_true_2; [done|]. lia.
  - intros Hmay Hlevel.
    destruct (update_done now reqUser id' body documents at_ document Hfind Hmay Hlevel)
      as (updated & Hupdate & Hby & Hfind').
    exists updated. split_and!; try done.
    intros later level Hbody Hne Hexp. unfold view. rewrite Hfind'.
    destruct Hby as (_ & _ & _ & _ & _ & _ & _ & _ & _ & _ & _ & _ & _ & _ & _ & Hacc & _).
    rewrite Hbody, decide_False in Hacc by done.
    rewrite decide_False by (rewrite Hacc; specialize (Hlevel level Hbody Hne); lia).
    by rewrite Hexp.
Qed.

End DocumentUpdateFacts.

Section DeletedDocumentFacts.
Import Documents.
Context (G : Encryption.GcmPrimitive).
Context (sort : string → string → list Document → list Document).
Hypothesis sort_rearranges : ∀ sortBy' sortOrder' l, sort sortBy' sortOrder' l ≡ₚ l.


End DeletedDocumentFacts.

Section CleanupFacts.
Import Documents.

Lemma filter_fmap_unchanged {A} (P : A → Prop) `{∀ x, Decision (P x)} (f : A → A)
    (l : list A) :
  (∀ x, x ∈ l → f x = x ∨ (¬ P x ∧ ¬ P (f x))) →
  filter P (f <$> l) = filter P l.
Proof.
  induction l as [|x l IH]; intros Hf; [done|].
  rewrite fmap_cons, !filter_cons.
  rewrite IH by (intros y Hy; apply Hf; by right).
  destruct (Hf x) as [->|[Hx Hfx]]; [by left|done|].
  by rewrite !decide_False.
Qed.

Lemma filter_none {A} (P : A → Prop) `{∀ x, Decision (P x)} (l : list A) :
  (∀ x, x ∈ l → ¬ P x) → filter P l = [].
Proof.
  induction l as [|x l IH]; intros Hno; [done|].
  rewrite filter_cons, decide_False by (apply Hno; by left).
  apply IH. intros y Hy. apply Hno. by right.
Qed.

(** The documents the clean-up marks are the active ones the listing
    filters out by their expiry date. *)
Lemma isCleanedUp_due (now : Z) (doc : Document) :
  isCleanedUp now doc = true
  ↔ status doc = "active" ∧ notExpiredForList now doc = false.
Proof.
  unfold isCleanedUp, notExpiredForList. destruct (expiresAt doc) as [t|].
  - rewrite andb_true_iff, !bool_decide_eq_true, bool_decide_eq_false. split.
    + intros [? ?]. split; [done|lia].
    + intros [? ?]. split; [lia|done].
  - split; [done|]. by intros [_ ?].
Qed.

(** X29.  [cleanupExpiredDocuments] marks the active documents whose expiry
    date has come, which are the active documents the listing leaves out
    for their date, and returns how many they are: their status becomes
    [expired], every other record is left as it is, and running it again
    at the same time marks nothing and returns 0.  For the listing nothing
    changes, then and later. *)
Theorem cleanupExpiredDocuments_marks_once (now : Z) (documents : list Document) :
  let due := λ doc, status doc = "active" ∧ notExpiredForList now doc = false in
  let result := cleanupExpiredDocuments now documents in
  cleanupExpiredDocuments now result.1 = (result.1, 0)
  ∧ result.2 = Z.of_nat (length (filter due documents))
  ∧ Forall2 (λ doc doc',
               if decide (due doc)
               then status doc' = "expired" ∧ updatedAt doc' = now
                    ∧ id doc' = id doc ∧ expiresAt doc' = expiresAt doc
                    ∧ accessLevel doc' = accessLevel doc
               else doc' = doc)
      documents result.1
  ∧ ∀ later reader, now ≤ later →
      accessibleDocuments later reader result.1
      = accessibleDocuments later reader documents.
Proof.
  cbv zeta. unfold cleanupExpiredDocuments. cbn [fst snd]. split_and!.
  - f_equal.
    + rewrite <- list_fmap_compose. apply list_fmap_ext. intros _ doc _. cbn.
      destruct (isCleanedUp now doc) eqn:Hc; [|by rewrite Hc].
      unfold isCleanedUp. cbn. destruct (expiresAt doc); [|done].
      by rewrite andb_false_r.
    + rewrite filter_none; [done|].
      intros doc' (doc & -> & _)%list_elem_of_fmap. apply not_true_iff_false.
      destruct (isCleanedUp now doc) eqn:Hc; [|by rewrite Hc].
      unfold isCleanedUp. cbn. destruct (expiresAt doc); [|done].
      by rewrite andb_false_r.
  - f_equal. f_equal. apply list_filter_iff. intros doc. apply isCleanedUp_due.
  - apply Forall2_fmap_r, Forall_Forall2_diag, Forall_forall. intros doc _.
    unfold compose. cbv beta. destruct (isCleanedUp now doc) eqn:Hc.
    + by rewrite decide_True by (by apply isCleanedUp_due).
    + rewrite decide_False; [done|]. intros Hdue%isCleanedUp_due. congruence.
  - intros later reader Hlater. unfold accessibleDocuments.
    rewrite !list_filter_filter.
    apply filter_fmap_unchanged. intros doc _.
    destruct (isCleanedUp now doc) eqn:Hc; [right|by left].
    unfold isCleanedUp in Hc. unfold notExpiredForList. cbn.
    destruct (expiresAt doc) as [t|]; [|done].
    apply andb_true_iff in Hc as [Ht%bool_decide_eq_true _].
    split; intros (Hlt%bool_decide_eq_true & _); lia.
Qed.

End CleanupFacts.

Section AuditTrailFacts.
Import Documents.
Context (G : Encryption.GcmPrimitive).

(** [audited documents documents']: every record of [documents] is still at
    its index in [documents'], uploaded by the same user at the same time;
    its access log has only grown at the end, and its download count has not
    gone down. *)
Definition audited (documents documents' : list Document) : Prop :=
  ∀ i d, documents !! i = Some d →
    ∃ d', documents' !! i = Some d'
          ∧ accessLog d `prefix_of` accessLog d'
          ∧ downloadCount d ≤ downloadCount d'
          ∧ uploadedBy d' = uploadedBy d
          ∧ createdAt d' = createdAt d.

Lemma audited_refl documents : audited documents documents.
Proof. intros i d Hi. by exists d. Qed.

Lemma audited_trans l1 l2 l3 : audited l1 l2 → audited l2 l3 → audited l1 l3.
Proof.
  intros H12 H23 i d Hi.
  destruct (H12 i d Hi) as (d2 & Hi2 & Hl2 & Hc2 & Hu2 & Ht2).
  destruct (H23 i d2 Hi2) as (d3 & Hi3 & Hl3 & Hc3 & Hu3 & Ht3).
  exists d3. split_and!; [done|by etrans|lia|congruence..].
Qed.

Lemma audited_app documents more : audited documents (documents ++ more).
Proof. intros i d Hi. exists d. split_and!; try done. by apply lookup_app_l_Some. Qed.

Lemma audited_writeBack documents id' p d d' :
  findById id' documents = Some (p, d) →
  id d' = id d →
  accessLog d `prefix_of` accessLog d' →
  downloadCount d ≤ downloadCount d' →
  uploadedBy d' = uploadedBy d → createdAt d' = createdAt d →
  audited documents (writeBack p d' documents).1.
Proof.
  intros Hfind Hid Hl Hc Hu Ht. rewrite (document_writeBack _ _ _ _ _ Hfind Hid).
  apply list_find_Some in Hfind as (Hp & _). cbn [fst].
  intros i x Hi. destruct (decide (i = p)) as [->|Hne].
  - assert (x = d) as -> by congruence. exists d'. split_and!; try done.
    apply list_lookup_insert_eq. eauto using lookup_lt_Some.
  - exists x. split_and!; try done. by rewrite list_lookup_insert_ne.
Qed.

Lemma runDocumentOp_audited op documents : audited documents (runDocumentOp G op documents).
Proof.
  destruct op; cbn [runDocumentOp].
  - unfold upload.
    destruct (decide (length files = 0%nat)); [apply audited_refl|].
    destruct (decide (bodyAccessLevel body > _)); [apply audited_refl|].
    destruct (uploadEach_appends G now reqUser body
                (bool_decide (1 < length files)%nat) files documents []) as (more & Hmore).
    destruct (uploadEach _ _ _ _ _ _ _ _) as [documents' [uploaded|msg]];
      cbn [fst snd] in *; subst documents'; apply audited_app.
  - unfold view. destruct (findById _ _) as [[at_ d]|] eqn:Hfind; [|apply audited_refl].
    repeat case_match; try apply audited_refl. cbn [snd].
    eapply audited_writeBack; try done. by apply prefix_app_r.
  - unfold download. destruct (findById _ _) as [[at_ d]|] eqn:Hfind; [|apply audited_refl].
    repeat case_match; try apply audited_refl. cbn [snd].
    eapply audited_writeBack; try done; try (by apply prefix_app_r); cbn; lia.
  - unfold update. destruct (findById _ _) as [[at_ d]|] eqn:Hfind; [|apply audited_refl].
    repeat case_match; try apply audited_refl; cbn [snd];
      (eapply audited_writeBack; try done; by apply prefix_app_r).
  - unfold deleteRoute. destruct (findById _ _) as [[at_ d]|] eqn:Hfind; [|apply audited_refl].
    repeat case_match; try apply audited_refl. cbn [snd].
    eapply audited_writeBack; try done. by apply prefix_app_r.
  - unfold deleteDocument. destruct (findById _ _) as [[at_ d]|] eqn:Hfind; [|apply audited_refl].
    by eapply audited_writeBack.
  - unfold logDocumentAccess.
    destruct (findById _ _) as [[at_ d]|] eqn:Hfind; [|apply audited_refl].
    eapply audited_writeBack; try done. by apply prefix_app_r.
  - unfold cleanupExpiredDocuments. cbn [fst]. intros i d Hi.
    rewrite list_lookup_fmap, Hi. cbn [fmap option_fmap option_map].
    eexists. split; [reflexivity|]. by destruct (isCleanedUp now d).
Qed.

(** X30.  The audit trail is append-only.  Whatever uploads, views,
    downloads, updates, deletes, [logDocumentAccess] calls and clean-ups run
    on the documents store, every record stays at its index with its
    uploader and creation date, its access log keeps all its entries in
    their order and only grows at the end, and its download count never
    goes down. *)
Theorem access_log_is_append_only (ops : list DocumentOp) (documents : list Document) :
  audited documents (foldl (λ documents op, runDocumentOp G op documents) documents ops).
Proof.
  revert documents. induction ops as [|op ops IH]; intros documents; [apply audited_refl|].
  cbn [foldl]. eapply audited_trans; [apply runDocumentOp_audited|apply IH].
Qed.

End AuditTrailFacts.

Section DocumentRouteWitnesses.
Import Documents.

Definition lowerLevel : UpdateBody :=
  {| newTitle := None; newDescription := None; newCategory := None;
     newAccessLevel := Some 2; newFlightNumber := None; newExpiresAt := None |}.

Lemma update_rewrites_metadata_witness :
  findById "doc-001" initialDocuments = Some (0%nat, flightPlan)
  ∧ uploadedBy flightPlan ≠ Middleware.employeeId firstOfficerClaims
  ∧ 4 ≤ Middleware.clearanceLevel firstOfficerClaims
  ∧ ∃ updated,
      (update 1705400000000 firstOfficerClaims "doc-001" lowerLevel initialDocuments).2
      = <[0%nat := updated]> initialDocuments
      ∧ accessLevel updated = 2
      ∧ encryptedContent updated = encryptedContent flightPlan.
Proof.
  split; [reflexivity|]. split; [discriminate|]. split; [by vm_compute|].
  destruct (proj2 (proj2 (update_rewrites_metadata_in_place 1705400000000
                            firstOfficerClaims "doc-001" lowerLevel initialDocuments
                            0%nat flightPlan eq_refl)))
    as (updated & Hupdate & Hby & _).
  - right. by vm_compute.
  - intros level [= <-] _. by vm_compute.
  - exists updated. rewrite Hupdate.
    destruct Hby as (_ & Hcontent & _ & _ & _ & _ & _ & _ & _ & _ & _ & _ & _ & _ & _
                     & Hlevel & _).
    by split_and!.
Defined.


End DocumentRouteWitnesses.
